(** * Verification of the documentation example scripts

    The repository holds two Jupyter notebooks (Python 2 kernels) and one R
    script.  Their computations are embedded in two ways:

    - the numeric cells (the train/test split and the [n_components] sweep
      of the kernel-approximation notebook, the double loop of the
      covariance notebook) are translated to Rocq functions over an
      explicit world (clock, global random stream), with the external
      libraries taken as an interface record;
    - every script is also represented as the sequence of its operations
      (one per call expression, in evaluation order), run by a small
      interpreter over a name space, a call oracle and an exception result.

    The R script is kept as its text as well, with a lexer for the part of
    R it is written in.

    Floating-point numbers are represented by exact rationals; no statement
    below depends on rounding. *)

From Stdlib Require Import Ascii String QArith Qround.
From stdpp Require Import gmap strings list fin_maps pretty.

Open Scope string_scope.
Open Scope list_scope.
Open Scope nat_scope.

(** ** numpy and Python 2 primitives used by the scripts *)

Module Np.

(** An [ndarray] of shape (rows, columns), as the list of its rows. *)
Abbreviation Matrix := (list (list Q)).

(** [np.arange(a, b)] on integers. *)
Definition arange (a b : nat) : list nat := seq a (b - a).

(** [np.linspace(a, b, num)]: [num] evenly spaced values, end point
    included. *)
Definition linspace (a b : Q) (num : nat) : list Q :=
  map (fun k =>
         (a + inject_Z (Z.of_nat k) * ((b - a) / inject_Z (Z.of_nat (num - 1))))%Q)
      (seq 0 num).

(** Python 2 [/] on two [int]s is floor division. *)
Definition py2_div (a b : nat) : nat := a / b.

(** [a[:k]] and [a[k:]] for an index [0 <= k]; Python clips a slice bound
    that exceeds the length. *)
Definition slice_to {A} (k : nat) (a : list A) : list A := take k a.
Definition slice_from {A} (k : nat) (a : list A) : list A := drop k a.

(** [a[start:stop]] in general: a negative bound counts from the end, and
    both are clipped to the length. *)
Definition clip (n : nat) (i : Z) : nat :=
  if (i <? 0)%Z then Z.to_nat (Z.max 0 (Z.of_nat n + i))
  else Nat.min (Z.to_nat i) n.
Definition slice {A} (start stop : Z) (a : list A) : list A :=
  let n := length a in
  take (clip n stop - clip n start) (drop (clip n start) a).

(** A non-integer number used as a slice bound or as a size is truncated
    by this numpy version (it only warns, as the covariance notebook's
    recorded stderr shows). *)
Definition as_index (q : Q) : nat := Z.to_nat (Qfloor q).

(** [m / c] elementwise. *)
Definition div_scalar (m : Matrix) (c : Q) : Matrix :=
  map (map (fun x => (x / c)%Q)) m.

Definition vec_add (u v : list Q) : list Q := zip_with Qplus u v.
Definition vec_sub (u v : list Q) : list Q := zip_with Qminus u v.

(** [m.shape[1]] *)
Definition ncols (m : Matrix) : nat :=
  match m with [] => 0 | r :: _ => length r end.

(** [m.mean(axis=0)]: the vector of column means (of a matrix with at
    least one row; numpy answers [nan] for none, the rationals [0]). *)
Definition mean_axis0 (m : Matrix) : list Q :=
  map (fun s => (s / inject_Z (Z.of_nat (length m)))%Q)
      (foldr vec_add (replicate (ncols m) 0%Q) m).

(** [m -= v], the vector broadcast over the rows. *)
Definition sub_rows (m : Matrix) (v : list Q) : Matrix :=
  map (fun r => vec_sub r v) m.

(** [np.eye(n)] *)
Definition eye (n : nat) : Matrix :=
  map (fun i => map (fun j => if decide (i = j) then 1%Q else 0%Q) (seq 0 n))
      (seq 0 n).

(** [np.zeros((r, c))] *)
Definition zeros (r c : nat) : Matrix := replicate r (replicate c 0%Q).

(** [np.sum(v ** 2)] *)
Definition sum_sq (v : list Q) : Q := foldr (fun x s => (x * x + s)%Q) 0%Q v.

(** [a[i, j] = x] for [i], [j] inside the shape of [a], as in the loops of
    the covariance notebook (outside it numpy raises, and this leaves [a]
    as it is). *)
Definition set2 (i j : nat) (x : Q) (a : Matrix) : Matrix :=
  alter (fun row => <[j := x]> row) i a.

(** [X[index]] for a list of row numbers: the rows in that order; a row
    number out of range raises [IndexError] (here: [None]). *)
Definition gather {A} (a : list A) (index : list nat) : option (list A) :=
  mapM (fun i => a !! i) index.

(** [X[index] = rows] for row numbers in range, which [gather] has checked
    where the notebook uses it. *)
Definition scatter {A} (a : list A) (index : list nat) (rows : list A) : list A :=
  fold_left (fun a ir => <[ir.1 := ir.2]> a) (zip index rows) a.

(** [X[mask]] for a boolean mask: the rows whose mask entry is true. *)
Definition select {A} (a : list A) (mask : list bool) : list A :=
  (filter (fun rb => rb.2 = true) (zip a mask)).*1.

End Np.

(** ** Statements that change the world or raise *)

Module Py.

(** A computation over a world [W] that returns an [A] or raises an [E]. *)
Definition Eff (W E A : Type) : Type := W -> (E + A) * W.

Definition ret {W E A} (a : A) : Eff W E A := fun w => (inr a, w).
Definition raise {W E A} (e : E) : Eff W E A := fun w => (inl e, w).
Definition bind {W E A B} (m : Eff W E A) (k : A -> Eff W E B) : Eff W E B :=
  fun w => match m w with
           | (inr a, w') => k a w'
           | (inl e, w') => (inl e, w')
           end.

Notation "x <- m ;; k" := (bind m (fun x => k))
  (at level 100, m at next level, right associativity).

(** [for x in xs: vars = body(x, vars)] *)
Fixpoint for_ {W E A V} (xs : list A) (body : A -> V -> Eff W E V) (v : V)
    : Eff W E V :=
  match xs with
  | [] => ret v
  | x :: xs' => v' <- body x v ;; for_ xs' body v'
  end.

End Py.

(** ** The kernel-approximation notebook: calculations cell *)

Module KernelApprox.
Import Np Py.

(** What [datasets.load_digits(n_class=9)] returns: the flattened images
    and their labels. *)
Record Bunch := { data_ : Matrix; target : list Z }.

Section Split.
Variable digits : Bunch.

(** [n_samples = len(digits.data)] *)
Definition n_samples : nat := length (data_ digits).

(** [data = digits.data / 16.] then [data -= data.mean(axis=0)] *)
Definition data : Matrix :=
  let data := div_scalar (data_ digits) 16 in
  sub_rows data (mean_axis0 data).

(** [data_train, targets_train =
       data[:n_samples / 2], digits.target[:n_samples / 2]] *)
Definition data_train : Matrix := slice_to (py2_div n_samples 2) data.
Definition targets_train : list Z :=
  slice_to (py2_div n_samples 2) (target digits).

(** [data_test, targets_test =
       data[n_samples / 2:], digits.target[n_samples / 2:]] *)
Definition data_test : Matrix := slice_from (py2_div n_samples 2) data.
Definition targets_test : list Z :=
  slice_from (py2_div n_samples 2) (target digits).

End Split.

(** *** The estimator library, as far as the cell uses it

    The notebook never looks inside an estimator, so the learned objects are
    abstract.  What matters is where randomness and time come from: an
    estimator built with an integer [random_state] draws from a generator
    freshly seeded at every [fit]; one built with [random_state=None] draws
    from numpy's global stream [np.random]. *)

Inductive Sampler := RBF | Nys.

Class Sklearn := {
  Clock : Type;
  Rng : Type;
  FittedMap : Type;
  Coef : Type;
  Support : Type;
  (** [time.time()]: the next reading of the wall clock *)
  read_clock : Clock -> Q * Clock;
  (** [np.random.RandomState(seed)] *)
  RandomState : nat -> Rng;
  (** fitting a kernel feature map with the given gamma, n_components *)
  sampler_fit : Sampler -> Q -> nat -> Matrix -> Rng -> FittedMap * Rng;
  sampler_transform : FittedMap -> Matrix -> Matrix;
  (** liblinear behind [svm.LinearSVC] *)
  liblinear_fit : Matrix -> list Z -> Rng -> Coef * Rng;
  liblinear_score : Coef -> Matrix -> list Z -> Q;
  (** libsvm behind [svm.SVC] *)
  libsvm_fit : Q -> Matrix -> list Z -> Rng -> Support * Rng;
  libsvm_score : Support -> Matrix -> list Z -> Q
}.

Section Calculations.
Context `{Sklearn}.

(** The part of the outside world the cell reads and changes. *)
Record World := { clock : Clock; np_random : Rng }.

Inductive Exn := NotFittedError.

(** Computations of the cell: they read and change the world and either
    return or raise. *)
Definition M : Type -> Type := Eff World Exn.

(** [time()] *)
Definition time : M Q :=
  fun w => let (t, c) := read_clock (clock w) in
           (inr t, {| clock := c; np_random := np_random w |}).

(** [check_random_state(random_state)] followed by a use of the generator:
    a seed gives a fresh generator, [None] the global one, whose state the
    draw advances. *)
Definition with_random_state {A} (random_state : option nat)
    (draw : Rng -> A * Rng) : M A :=
  fun w => match random_state with
           | Some seed => (inr (fst (draw (RandomState seed))), w)
           | None => let (a, r) := draw (np_random w) in
                     (inr a, {| clock := clock w; np_random := r |})
           end.

(** [RBFSampler] and [Nystroem] objects: parameters and learned state. *)
Record FeatureMap := {
  kind : Sampler;
  gamma : Q;
  n_components : nat;
  random_state : option nat;
  fitted : option FittedMap
}.

(** [RBFSampler(gamma=g, random_state=s)]; [n_components] defaults to 100. *)
Definition RBFSampler (g : Q) (s : option nat) : FeatureMap :=
  {| kind := RBF; gamma := g; n_components := 100; random_state := s;
     fitted := None |}.

(** [Nystroem(gamma=g, random_state=s)]; [n_components] defaults to 100. *)
Definition Nystroem (g : Q) (s : option nat) : FeatureMap :=
  {| kind := Nys; gamma := g; n_components := 100; random_state := s;
     fitted := None |}.

Definition FeatureMap_fit (fm : FeatureMap) (X : Matrix) : M FeatureMap :=
  F <- with_random_state (random_state fm)
         (sampler_fit (kind fm) (gamma fm) (n_components fm) X) ;;
  ret {| kind := kind fm; gamma := gamma fm; n_components := n_components fm;
         random_state := random_state fm; fitted := Some F |}.

Definition FeatureMap_transform (fm : FeatureMap) (X : Matrix) : M Matrix :=
  match fitted fm with
  | Some F => ret (sampler_transform F X)
  | None => raise NotFittedError
  end.

(** [svm.LinearSVC()]: [random_state] defaults to [None]. *)
Record LinearSVC := { lsvc_random_state : option nat; coef_ : option Coef }.

Definition LinearSVC_new : LinearSVC :=
  {| lsvc_random_state := None; coef_ := None |}.

Definition LinearSVC_fit (m : LinearSVC) (X : Matrix) (y : list Z) : M LinearSVC :=
  c <- with_random_state (lsvc_random_state m) (liblinear_fit X y) ;;
  ret {| lsvc_random_state := lsvc_random_state m; coef_ := Some c |}.

Definition LinearSVC_score (m : LinearSVC) (X : Matrix) (y : list Z) : M Q :=
  match coef_ m with
  | Some c => ret (liblinear_score c X y)
  | None => raise NotFittedError
  end.

(** [svm.SVC(gamma=g)]: [random_state] defaults to [None]. *)
Record SVC := { svc_gamma : Q; svc_random_state : option nat;
                support_ : option Support }.

Definition SVC_new (g : Q) : SVC :=
  {| svc_gamma := g; svc_random_state := None; support_ := None |}.

Definition SVC_fit (m : SVC) (X : Matrix) (y : list Z) : M SVC :=
  s <- with_random_state (svc_random_state m) (libsvm_fit (svc_gamma m) X y) ;;
  ret {| svc_gamma := svc_gamma m; svc_random_state := svc_random_state m;
         support_ := Some s |}.

Definition SVC_score (m : SVC) (X : Matrix) (y : list Z) : M Q :=
  match support_ m with
  | Some s => ret (libsvm_score s X y)
  | None => raise NotFittedError
  end.

(** [pipeline.Pipeline([("feature_map", fm), ("svm", svm.LinearSVC())])] *)
Record Pipeline := { feature_map : FeatureMap; svm : LinearSVC }.

(** [p.set_params(feature_map__n_components=D)] *)
Definition set_params (p : Pipeline) (D : nat) : Pipeline :=
  let fm := feature_map p in
  {| feature_map := {| kind := kind fm; gamma := gamma fm; n_components := D;
                       random_state := random_state fm; fitted := fitted fm |};
     svm := svm p |}.

(** [p.fit(X, y)]: fit the feature map, transform [X] with it, fit the
    classifier on the transformed matrix. *)
Definition Pipeline_fit (p : Pipeline) (X : Matrix) (y : list Z) : M Pipeline :=
  fm <- FeatureMap_fit (feature_map p) X ;;
  Xt <- FeatureMap_transform fm X ;;
  clf <- LinearSVC_fit (svm p) Xt y ;;
  ret {| feature_map := fm; svm := clf |}.

(** [p.score(X, y)] *)
Definition Pipeline_score (p : Pipeline) (X : Matrix) (y : list Z) : M Q :=
  Xt <- FeatureMap_transform (feature_map p) X ;;
  LinearSVC_score (svm p) Xt y.

Variable digits : Bunch.

(** [sample_sizes = 30 * np.arange(1, 10)] *)
Definition sample_sizes : list nat := map (Nat.mul 30) (arange 1 10).

(** The variables the sweep loop reads and updates. *)
Record Vars := {
  fourier_approx_svm : Pipeline;
  nystroem_approx_svm : Pipeline;
  fourier_scores : list Q;
  nystroem_scores : list Q;
  fourier_times : list Q;
  nystroem_times : list Q
}.

(** The body of [for D in sample_sizes:]. *)
Definition sweep_body (D : nat) (v : Vars) : M Vars :=
  let fourier_approx_svm := set_params (fourier_approx_svm v) D in
  let nystroem_approx_svm := set_params (nystroem_approx_svm v) D in
  start <- time ;;
  nystroem_approx_svm <-
    Pipeline_fit nystroem_approx_svm (data_train digits) (targets_train digits) ;;
  now <- time ;;
  let nystroem_times := nystroem_times v ++ [(now - start)%Q] in
  start <- time ;;
  fourier_approx_svm <-
    Pipeline_fit fourier_approx_svm (data_train digits) (targets_train digits) ;;
  now <- time ;;
  let fourier_times := fourier_times v ++ [(now - start)%Q] in
  fourier_score <-
    Pipeline_score fourier_approx_svm (data_test digits) (targets_test digits) ;;
  nystroem_score <-
    Pipeline_score nystroem_approx_svm (data_test digits) (targets_test digits) ;;
  let nystroem_scores := nystroem_scores v ++ [nystroem_score] in
  let fourier_scores := fourier_scores v ++ [fourier_score] in
  ret {| fourier_approx_svm := fourier_approx_svm;
         nystroem_approx_svm := nystroem_approx_svm;
         fourier_scores := fourier_scores;
         nystroem_scores := nystroem_scores;
         fourier_times := fourier_times;
         nystroem_times := nystroem_times |}.

(** What the cell leaves behind for the plotting cells. *)
Record Results := {
  kernel_svm_score : Q;
  kernel_svm_time : Q;
  linear_svm_score : Q;
  linear_svm_time : Q;
  sweep_vars : Vars
}.

(** The variables as they stand when the loop is entered. *)
Definition sweep_init : Vars :=
  let feature_map_fourier := RBFSampler (2 # 10) (Some 1) in
  let feature_map_nystroem := Nystroem (2 # 10) (Some 1) in
  {| fourier_approx_svm :=
       {| feature_map := feature_map_fourier; svm := LinearSVC_new |};
     nystroem_approx_svm :=
       {| feature_map := feature_map_nystroem; svm := LinearSVC_new |};
     fourier_scores := [];
     nystroem_scores := [];
     fourier_times := [];
     nystroem_times := [] |}.

(** The loop, cut after its first [k] iterations ([k >= 9]: the whole
    loop). *)
Definition sweep_upto (k : nat) : M Vars :=
  for_ (take k sample_sizes) sweep_body sweep_init.

Definition sweep : M Vars := for_ sample_sizes sweep_body sweep_init.

(** The calculations cell from the classifiers on. *)
Definition calculations : M Results :=
  let kernel_svm := SVC_new (2 # 10) in
  let linear_svm := LinearSVC_new in
  kernel_svm_time <- time ;;
  kernel_svm <- SVC_fit kernel_svm (data_train digits) (targets_train digits) ;;
  kernel_svm_score <- SVC_score kernel_svm (data_test digits) (targets_test digits) ;;
  now <- time ;;
  let kernel_svm_time := (now - kernel_svm_time)%Q in
  linear_svm_time <- time ;;
  linear_svm <- LinearSVC_fit linear_svm (data_train digits) (targets_train digits) ;;
  linear_svm_score <-
    LinearSVC_score linear_svm (data_test digits) (targets_test digits) ;;
  now <- time ;;
  let linear_svm_time := (now - linear_svm_time)%Q in
  v <- sweep ;;
  ret {| kernel_svm_score := kernel_svm_score;
         kernel_svm_time := kernel_svm_time;
         linear_svm_score := linear_svm_score;
         linear_svm_time := linear_svm_time;
         sweep_vars := v |}.

(** *** One iteration, unfolded

    The values one iteration of the loop computes when it is entered in
    world [w] with sample size [D], written out call by call. *)

(** The clock after [n] readings, and the reading number [n] (from 0). *)
Definition clock_after (n : nat) (c : Clock) : Clock :=
  Nat.iter n (fun c => snd (read_clock c)) c.
Definition reading (n : nat) (c : Clock) : Q := fst (read_clock (clock_after n c)).

(** The feature map a sampler learns from the training half at size [D]:
    gamma 0.2, generator freshly seeded with 1. *)
Definition feature_map_at (s : Sampler) (D : nat) : FittedMap :=
  fst (sampler_fit s (2 # 10) D (data_train digits) (RandomState 1)).

(** The transformed feature matrix of a data set under that map. *)
Definition features_at (s : Sampler) (D : nat) (X : Matrix) : Matrix :=
  sampler_transform (feature_map_at s D) X.

(** The Nystroem pipeline's classifier is fitted first, on the global
    random stream; the Fourier pipeline's classifier continues that
    stream. *)
Definition nystroem_coef_at (D : nat) (w : World) : Coef * Rng :=
  liblinear_fit (features_at Nys D (data_train digits)) (targets_train digits)
    (np_random w).
Definition fourier_coef_at (D : nat) (w : World) : Coef * Rng :=
  liblinear_fit (features_at RBF D (data_train digits)) (targets_train digits)
    (snd (nystroem_coef_at D w)).

Definition nystroem_time_at (w : World) : Q :=
  (reading 1 (clock w) - reading 0 (clock w))%Q.
Definition fourier_time_at (w : World) : Q :=
  (reading 3 (clock w) - reading 2 (clock w))%Q.
Definition nystroem_score_at (D : nat) (w : World) : Q :=
  liblinear_score (fst (nystroem_coef_at D w))
    (features_at Nys D (data_test digits)) (targets_test digits).
Definition fourier_score_at (D : nat) (w : World) : Q :=
  liblinear_score (fst (fourier_coef_at D w))
    (features_at RBF D (data_test digits)) (targets_test digits).

(** The world one iteration leaves: four clock readings and two classifier
    fits later. *)
Definition world_after_iter (D : nat) (w : World) : World :=
  {| clock := clock_after 4 (clock w); np_random := snd (fourier_coef_at D w) |}.

(** The world after the iterations over the sizes [l]; [world_before i] is
    the world in which iteration number [i] (from 0) of the loop starts. *)
Definition world_after (l : list nat) (w : World) : World :=
  fold_left (fun w D => world_after_iter D w) l w.

(** The pipeline objects after an iteration at size [D] entered in [w]. *)
Definition pipeline_at (s : Sampler) (D : nat) (c : Coef) : Pipeline :=
  {| feature_map := {| kind := s; gamma := 2 # 10; n_components := D;
                       random_state := Some 1;
                       fitted := Some (feature_map_at s D) |};
     svm := {| lsvc_random_state := None; coef_ := Some c |} |}.

Definition world_before (i : nat) (w : World) : World :=
  world_after (take i sample_sizes) w.

(** The variables one iteration leaves. *)
Definition vars_after_iter (D : nat) (v : Vars) (w : World) : Vars :=
  {| fourier_approx_svm := pipeline_at RBF D (fst (fourier_coef_at D w));
     nystroem_approx_svm := pipeline_at Nys D (fst (nystroem_coef_at D w));
     fourier_scores := fourier_scores v ++ [fourier_score_at D w];
     nystroem_scores := nystroem_scores v ++ [nystroem_score_at D w];
     fourier_times := fourier_times v ++ [fourier_time_at w];
     nystroem_times := nystroem_times v ++ [nystroem_time_at w] |}.

(** The variables after the iterations over the sizes [l]. *)
Fixpoint vars_after (l : list nat) (v : Vars) (w : World) : Vars :=
  match l with
  | [] => v
  | D :: l' => vars_after l' (vars_after_iter D v w) (world_after_iter D w)
  end.

(** What the loop never changes in its two pipelines: the kind, gamma and
    seed of the feature maps, and the unseeded classifiers. *)
Definition sweep_inv (v : Vars) : Prop :=
  let f := fourier_approx_svm v in
  let n := nystroem_approx_svm v in
  kind (feature_map f) = RBF /\ gamma (feature_map f) = 2 # 10 /\
  random_state (feature_map f) = Some 1 /\ lsvc_random_state (svm f) = None /\
  kind (feature_map n) = Nys /\ gamma (feature_map n) = 2 # 10 /\
  random_state (feature_map n) = Some 1 /\ lsvc_random_state (svm n) = None.


End Calculations.

(** A small instance of the library, for running the cell: the clock
    counts its readings, a generator state is a counter, a fitted feature
    map remembers its size and the generator state it was drawn from, and
    a classifier remembers the state of the stream it was fitted on. *)
Definition toy : Sklearn := {|
  Clock := nat;
  Rng := nat;
  FittedMap := nat * nat;
  Coef := nat;
  Support := nat;
  read_clock := fun c => (inject_Z (Z.of_nat c), S c);
  RandomState := fun seed => seed;
  sampler_fit := fun _ _ D _ r => ((D, r), S r);
  sampler_transform := fun F X =>
    map (map (fun x => (x + inject_Z (Z.of_nat (F.1 + F.2)))%Q)) X;
  liblinear_fit := fun _ _ r => (r, S r);
  liblinear_score := fun c _ _ => inject_Z (Z.of_nat c);
  libsvm_fit := fun _ _ _ r => (r, S r);
  libsvm_score := fun c _ _ => inject_Z (Z.of_nat c)
|}.

(** Five samples of two features. *)
Definition five_digits : Bunch :=
  {| data_ := [[0; 16]; [16; 0]; [16; 16]; [0; 0]; [8; 8]]%Q;
     target := [0; 1; 2; 3; 4]%Z |}.

End KernelApprox.

(** ** The covariance notebook: calculations cell *)

Module Covariance.
Import Np Py.

(** numpy's generators and the two covariance estimators.  [MinCovDet()]
    is built without a [random_state], so its fit draws its trial subsets
    from the global stream; the empirical estimator draws nothing. *)
Class Libs := {
  Rng : Type;
  Mcd : Type;
  Cov : Type;
  (** [np.random.RandomState(seed)] *)
  RandomState : nat -> Rng;
  (** [rng.randn(n, m)] *)
  randn : Rng -> nat -> nat -> Matrix * Rng;
  (** [rng.permutation(n)] *)
  permutation : Rng -> nat -> list nat * Rng;
  (** [rng.randint(high, size=(n, m))] *)
  randint : Rng -> nat -> nat -> nat -> Matrix * Rng;
  mcd_fit : Matrix -> Rng -> Mcd * Rng;
  mcd_location_ : Mcd -> list Q;
  mcd_error_norm : Mcd -> Matrix -> Q;
  emp_fit : Matrix -> Cov;
  emp_error_norm : Cov -> Matrix -> Q
}.

(** Example settings. *)
Definition n_samples : nat := 80.
Definition n_features : nat := 5.
Definition repeat_ : nat := 10.

(** [range_n_outliers = np.concatenate(
       (np.linspace(0, n_samples / 8, 5),
        np.linspace(n_samples / 8, n_samples / 2, 5)[1:-1]))] *)
Definition range_n_outliers : list Q :=
  linspace 0 (inject_Z (Z.of_nat (py2_div n_samples 8))) 5 ++
  slice 1 (-1)
    (linspace (inject_Z (Z.of_nat (py2_div n_samples 8)))
              (inject_Z (Z.of_nat (py2_div n_samples 2))) 5).

Section Calculations.
Context `{Libs}.

Inductive Exn := IndexError.

(** The world of the cell is numpy's global random stream [np.random]. *)
Definition M : Type -> Type := Eff Rng Exn.

(** A draw from the global stream. *)
Definition np_random {A} (draw : Rng -> A * Rng) : M A :=
  fun g => let (a, g') := draw g in (inr a, g').

Definition index_or_raise {A} (o : option A) : M A :=
  match o with Some a => ret a | None => raise IndexError end.

(** The six result arrays. *)
Record Errors := {
  err_loc_mcd : Matrix;
  err_cov_mcd : Matrix;
  err_loc_emp_full : Matrix;
  err_cov_emp_full : Matrix;
  err_loc_emp_pure : Matrix;
  err_cov_emp_pure : Matrix
}.

(** The data of one iteration. *)
Record Sample := {
  X_base : Matrix;              (* [X] as generated *)
  permuted : list nat;          (* [rng.permutation(n_samples)] *)
  outliers_index : list nat;
  outliers_offset : Matrix;
  X : Matrix;                   (* [X] after the outliers are added *)
  inliers_mask : list bool
}.

(** The first part of the loop body, from [rng = ...] to the inlier mask. *)
Definition generate (i : nat) (n_outliers : Q) (j : nat) : M Sample :=
  let rng := RandomState (i * j) in
  (* generate data *)
  let (X_base, rng) := randn rng n_samples n_features in
  (* add some outliers *)
  let (permuted, rng) := permutation rng n_samples in
  let outliers_index := slice_to (as_index n_outliers) permuted in
  draws <- np_random (fun g => randint g 2 (as_index n_outliers) n_features) ;;
  let outliers_offset :=
    map (map (fun x => (10 * (x - (1 # 2)))%Q)) draws in
  (* X[outliers_index] += outliers_offset *)
  rows <- index_or_raise (gather X_base outliers_index) ;;
  let X := scatter X_base outliers_index (zip_with vec_add rows outliers_offset) in
  let inliers_mask := replicate n_samples true in
  let inliers_mask :=
    scatter inliers_mask outliers_index (replicate (length outliers_index) false) in
  ret {| X_base := X_base; permuted := permuted;
         outliers_index := outliers_index; outliers_offset := outliers_offset;
         X := X; inliers_mask := inliers_mask |}.

(** The body of the inner loop. *)
Definition iteration (i : nat) (n_outliers : Q) (j : nat) (e : Errors) : M Errors :=
  s <- generate i n_outliers j ;;
  let X := X s in
  (* fit a Minimum Covariance Determinant (MCD) robust estimator to data *)
  mcd <- np_random (mcd_fit X) ;;
  (* compare raw robust estimates with the true location and covariance *)
  let err_loc_mcd := set2 i j (sum_sq (mcd_location_ mcd)) (err_loc_mcd e) in
  let err_cov_mcd := set2 i j (mcd_error_norm mcd (eye n_features)) (err_cov_mcd e) in
  (* compare estimators learned from the full data set with true parameters *)
  let err_loc_emp_full := set2 i j (sum_sq (mean_axis0 X)) (err_loc_emp_full e) in
  let err_cov_emp_full :=
    set2 i j (emp_error_norm (emp_fit X) (eye n_features)) (err_cov_emp_full e) in
  (* compare with an empirical covariance learned from a pure data set *)
  let pure_X := select X (inliers_mask s) in
  let pure_location := mean_axis0 pure_X in
  let pure_emp_cov := emp_fit pure_X in
  let err_loc_emp_pure := set2 i j (sum_sq pure_location) (err_loc_emp_pure e) in
  let err_cov_emp_pure :=
    set2 i j (emp_error_norm pure_emp_cov (eye n_features)) (err_cov_emp_pure e) in
  ret {| err_loc_mcd := err_loc_mcd; err_cov_mcd := err_cov_mcd;
         err_loc_emp_full := err_loc_emp_full; err_cov_emp_full := err_cov_emp_full;
         err_loc_emp_pure := err_loc_emp_pure; err_cov_emp_pure := err_cov_emp_pure |}.

(** [np.zeros((range_n_outliers.size, repeat))], six times. *)
Definition errors_init : Errors :=
  let z := zeros (length range_n_outliers) repeat_ in
  {| err_loc_mcd := z; err_cov_mcd := z; err_loc_emp_full := z;
     err_cov_emp_full := z; err_loc_emp_pure := z; err_cov_emp_pure := z |}.

(** [for i, n_outliers in enumerate(range_n_outliers):
       for j in range(repeat): ...] *)
Definition computation : M Errors :=
  for_ (imap pair range_n_outliers)
    (fun '(i, n_outliers) e => for_ (seq 0 repeat_) (iteration i n_outliers) e)
    errors_init.

(** What the notebook relies on from numpy: [randn(n, m)] has [n] rows and
    [permutation(n)] holds row numbers below [n]. *)
Definition well_shaped : Prop :=
  (forall r n m, length (randn r n m).1 = n) /\
  (forall r n, Forall (fun k => k < n) (permutation r n).1).

(** [outliers_offset] as computed from the draws of [randint]. *)
Definition offsets_of (draws : Matrix) : Matrix :=
  map (map (fun x => (10 * (x - (1 # 2)))%Q)) draws.

(** The number of outliers of level [i], as the slice and the size use it. *)
Definition n_outliers_at (i : nat) : nat :=
  as_index (default 0%Q (range_n_outliers !! i)).

End Calculations.

(** A small instance of the libraries, for running the cell: the generator
    state is a counter, [randn] fills the matrix with the counter,
    [permutation] rotates the identity by the counter, [randint] alternates
    with the counter's parity. *)
Definition toy : Libs := {|
  Rng := nat;
  Mcd := Matrix;
  Cov := Matrix;
  RandomState := fun seed => seed;
  randn := fun r n m => (replicate n (replicate m (inject_Z (Z.of_nat r))), S r);
  permutation := fun r n => (rotate r (seq 0 n), S r);
  randint := fun r high n m =>
    (replicate n (replicate m (inject_Z (Z.of_nat (r mod high)))), S r);
  mcd_fit := fun X r => (X, S r);
  mcd_location_ := mean_axis0;
  mcd_error_norm := fun X _ => sum_sq (mean_axis0 X);
  emp_fit := fun X => X;
  emp_error_norm := fun X _ => sum_sq (mean_axis0 X)
|}.

End Covariance.

(** ** Scripts as sequences of operations *)

Module Script.

(** One operation: a call expression (or an import, a plain assignment, a
    shell escape) with the names it reads and the names it binds.  The
    value of a nested call is passed on in a temporary named [$n]. *)
Record op := Op { defs : list string; fn : string; uses : list string }.

(** Statements: an operation, a [for] loop over an iterator held in [iter]
    that runs [count] times, an exception handler. *)
#[warnings="-register-all"]
Inductive stmt :=
| Do (o : op)
| For (vars : list string) (iter : string) (count : nat) (body : list stmt)
| Try (body handler : list stmt).

Definition block := list stmt.

(** [next(iter)], binding the loop variables. *)
Definition next_op (vars : list string) (iter : string) : op :=
  Op vars "next" [iter].

(** **** What is written in a script *)

Fixpoint handlers (s : stmt) : nat :=
  match s with
  | Do _ => 0
  | For _ _ _ body => sum_list (map handlers body)
  | Try body handler =>
      S (sum_list (map handlers body) + sum_list (map handlers handler))
  end.

(** No [try] anywhere in the block. *)
Definition no_handler (b : block) : bool :=
  bool_decide (sum_list (map handlers b) = 0).

(** The operations of a run in which nothing raises, in order. *)
Fixpoint ops_of (s : stmt) : list op :=
  match s with
  | Do o => [o]
  | For vars iter n body =>
      mjoin (replicate n (next_op vars iter :: mjoin (map ops_of body)))
  | Try body _ => mjoin (map ops_of body)
  end.

Definition ops (b : block) : list op := mjoin (map ops_of b).

(** The callees of such a run. *)
Definition events (b : block) : list string := fn <$> ops b.

(** The names a statement can bind. *)
Fixpoint writes_of (s : stmt) : list string :=
  match s with
  | Do o => defs o
  | For vars _ _ body => vars ++ mjoin (map writes_of body)
  | Try body handler => mjoin (map writes_of body) ++ mjoin (map writes_of handler)
  end.

Definition writes (b : block) : list string := mjoin (map writes_of b).

(** The names a block reads that it has not bound itself before, given the
    names [bound] on entry; the second component is the names bound on
    exit.  A loop may run zero times and a handler may not run, so what
    they bind does not count as bound afterwards. *)
Fixpoint needs_of (bound : list string) (s : stmt) : list string * list string :=
  let seq_ := fix seq_ (bound : list string) (b : list stmt) :=
    match b with
    | [] => ([], bound)
    | s :: b' =>
        let (n1, bound1) := needs_of bound s in
        let (n2, bound2) := seq_ bound1 b' in
        (n1 ++ n2, bound2)
    end in
  match s with
  | Do o => (filter (fun x => x ∉ bound) (uses o), defs o ++ bound)
  | For vars iter _ body =>
      (filter (fun x => x ∉ bound) [iter] ++ (seq_ (vars ++ bound) body).1, bound)
  | Try body handler => ((seq_ bound body).1 ++ (seq_ bound handler).1, bound)
  end.

Fixpoint needs_seq (bound : list string) (b : block) : list string * list string :=
  match b with
  | [] => ([], bound)
  | s :: b' =>
      let (n1, bound1) := needs_of bound s in
      let (n2, bound2) := needs_seq bound1 b' in
      (n1 ++ n2, bound2)
  end.

Definition needs (b : block) : list string := (needs_seq [] b).1.

(** The position of the first callee of a kind. *)
Fixpoint first_index (p : string -> bool) (l : list string) : option nat :=
  match l with
  | [] => None
  | f :: l' => if p f then Some 0 else S <$> first_index p l'
  end.

(** **** Running a script *)

Section Run.
Context {Value Err : Type}.

Inductive exn := NameError (x : string) | LibError (e : Err).

(** The libraries, the clock, the network: call number [k], to the callee
    [f] with the arguments [args], raises or returns; component [i] of what
    it returns is bound to the [i]-th target. *)
Definition Oracle := nat -> string -> list Value -> Err + (nat -> Value).

Record event := Event {
  ev_fn : string;
  ev_args : list Value;
  ev_raised : option exn
}.

(** The name space, and the operations run so far. *)
Record state := State { names : gmap string Value; trace : list event }.

Variable oracle : Oracle.

(** The values of the names [xs], or the first of them that is unbound. *)
Fixpoint read (ns : gmap string Value) (xs : list string) : string + list Value :=
  match xs with
  | [] => inr []
  | x :: xs' =>
      match ns !! x with
      | None => inl x
      | Some v =>
          match read ns xs' with
          | inl y => inl y
          | inr vs => inr (v :: vs)
          end
      end
  end.

Fixpoint assign (k : nat) (xs : list string) (r : nat -> Value)
    (ns : gmap string Value) : gmap string Value :=
  match xs with
  | [] => ns
  | x :: xs' => assign (S k) xs' r (<[x := r k]> ns)
  end.

Definition do_op (o : op) (st : state) : option exn * state :=
  match read (names st) (uses o) with
  | inl x =>
      (Some (NameError x),
       State (names st) (trace st ++ [Event (fn o) [] (Some (NameError x))]))
  | inr args =>
      match oracle (length (trace st)) (fn o) args with
      | inl e =>
          (Some (LibError e),
           State (names st) (trace st ++ [Event (fn o) args (Some (LibError e))]))
      | inr r =>
          (None,
           State (assign 0 (defs o) r (names st))
                 (trace st ++ [Event (fn o) args None]))
      end
  end.

Fixpoint exec (s : stmt) (st : state) : option exn * state :=
  let seq_ := fix seq_ (b : list stmt) (st : state) :=
    match b with
    | [] => (None, st)
    | s :: b' =>
        match exec s st with
        | (None, st') => seq_ b' st'
        | r => r
        end
    end in
  match s with
  | Do o => do_op o st
  | For vars iter n body =>
      (fix loop (k : nat) (st : state) :=
         match k with
         | 0 => (None, st)
         | S k' =>
             match do_op (next_op vars iter) st with
             | (None, st1) =>
                 match seq_ body st1 with
                 | (None, st2) => loop k' st2
                 | r => r
                 end
             | r => r
             end
         end) n st
  | Try body handler =>
      match seq_ body st with
      | (Some _, st') => seq_ handler st'
      | r => r
      end
  end.

Fixpoint exec_block (b : block) (st : state) : option exn * state :=
  match b with
  | [] => (None, st)
  | s :: b' =>
      match exec s st with
      | (None, st') => exec_block b' st'
      | r => r
      end
  end.

(** A run of a script in the name space [ns]. *)
Definition run (b : block) (ns : gmap string Value) : option exn * state :=
  exec_block b (State ns []).

(** What a run shows to the outside: how it ended, and the calls it made
    with their arguments and outcomes. *)
Definition output (b : block) (ns : gmap string Value)
    : option exn * list event :=
  let (r, st) := run b ns in (r, trace st).

Definition returned (ev : event) : Prop := ev_raised ev = None.

(** How a piece of a run can end: [evs] are the operations it ran.  Either
    all of them returned, or all but the last returned and the last raised
    the exception the piece ends with. *)
Definition straight (r : option exn) (evs : list event) : Prop :=
  match r with
  | None => Forall returned evs
  | Some e =>
      exists evs0 ev, evs = evs0 ++ [ev] /\ Forall returned evs0 /\
        ev_raised ev = Some e
  end.

(** A piece of a run from [st] to [st'] that ended with [r] follows the
    operations [expected]: it ran them in order, all of them when it ended
    normally, and up to the one that raised otherwise. *)
Definition follows (expected : list string) (r : option exn) (st st' : state) : Prop :=
  exists evs, trace st' = trace st ++ evs /\ straight r evs /\
    match r with
    | None => ev_fn <$> evs = expected
    | Some _ => ev_fn <$> evs `prefix_of` expected
    end.

(** Two name spaces agree on the names [A]. *)
Definition agree (A : list string) (ns1 ns2 : gmap string Value) : Prop :=
  forall x, x ∈ A -> ns1 !! x = ns2 !! x.

(** Two runs of [run_] from name spaces that agree on [A] and on the names
    [bound] so far, where [A] covers what [run_] needs, end the same way
    with the same trace, and when they return the name spaces agree on the
    names [bound'] as well. *)
Definition agree_run (needs_ : list string) (bound' : list string)
    (run_ : state -> option exn * state)
    (A bound : list string) : Prop :=
  forall st1 st2,
    trace st1 = trace st2 ->
    agree (A ++ bound) (names st1) (names st2) ->
    (forall x, x ∈ needs_ -> x ∈ A) ->
    (run_ st1).1 = (run_ st2).1 /\
    trace (run_ st1).2 = trace (run_ st2).2 /\
    ((run_ st1).1 = None ->
     agree (A ++ bound') (names (run_ st1).2) (names (run_ st2).2)).

End Run.

(** A script [s] reads nothing that a script [t] can bind: every name [s]
    reads before binding it itself is outside what [t] writes. *)
Definition independent (s t : block) : bool :=
  forallb (fun x => bool_decide (x ∉ writes t)) (needs s).

Arguments exn : clear implicits.
Arguments event : clear implicits.
Arguments state : clear implicits.
Arguments Oracle : clear implicits.

End Script.

(** ** The R script: its text *)

Module R.

(** Tokens of the part of R the script is written in. *)
Inductive token :=
| TStr (s : string)
| TNum (s : string)
| TId (s : string)
| TSym (s : string)
| TNewline.

#[global] Instance token_eq_dec : EqDecision token.
Proof. solve_decision. Defined.

Definition code (c : ascii) : nat := nat_of_ascii c.
Definition is_digit (c : ascii) : bool := (48 <=? code c) && (code c <=? 57).
Definition is_alpha (c : ascii) : bool :=
  ((65 <=? code c) && (code c <=? 90)) || ((97 <=? code c) && (code c <=? 122)).
Definition is_id_start (c : ascii) : bool := is_alpha c || (code c =? 46).
Definition is_id_char (c : ascii) : bool :=
  is_alpha c || is_digit c || (code c =? 46) || (code c =? 95).
Definition is_num_char (c : ascii) : bool := is_digit c || (code c =? 46).
Definition is_blank (c : ascii) : bool :=
  (code c =? 32) || (code c =? 9) || (code c =? 13).

(** The longest prefix of characters satisfying [p], and the rest. *)
Fixpoint span (p : ascii -> bool) (s : string) : string * string :=
  match s with
  | String c s' =>
      if p c then let (a, b) := span p s' in (String c a, b)
      else (EmptyString, s)
  | EmptyString => (EmptyString, EmptyString)
  end.

(** The body of a string literal opened by the quote [q]: everything up to
    the next unescaped [q]; a backslash escapes the character after it. *)
Fixpoint quoted (q : ascii) (s : string) : option (string * string) :=
  match s with
  | EmptyString => None
  | String c s' =>
      if code c =? code q then Some (EmptyString, s')
      else if code c =? 92 then
        match s' with
        | String d s'' =>
            match quoted q s'' with
            | Some (a, b) => Some (String c (String d a), b)
            | None => None
            end
        | EmptyString => None
        end
      else
        match quoted q s' with
        | Some (a, b) => Some (String c a, b)
        | None => None
        end
  end.

Definition sym (c : ascii) : token := TSym (String c EmptyString).

Fixpoint lex (fuel : nat) (s : string) : option (list token) :=
  match fuel with
  | 0 => None
  | S fuel =>
      match s with
      | EmptyString => Some []
      | String c s' =>
          if is_blank c then lex fuel s'
          else if code c =? 10 then cons TNewline <$> lex fuel s'
          else if (code c =? 34) || (code c =? 39) then
            match quoted c s' with
            | Some (lit, rest) => cons (TStr lit) <$> lex fuel rest
            | None => None
            end
          else if is_digit c then
            let (n, rest) := span is_num_char s in cons (TNum n) <$> lex fuel rest
          else if is_id_start c then
            let (x, rest) := span is_id_char s in cons (TId x) <$> lex fuel rest
          else if code c =? 35 then
            lex fuel (span (fun c => negb (code c =? 10)) s').2
          else if code c =? 60 then
            match s' with
            | String d s'' =>
                if code d =? 45 then cons (TSym "<-") <$> lex fuel s''
                else cons (sym c) <$> lex fuel s'
            | EmptyString => Some [sym c]
            end
          else if (code c =? 40) || (code c =? 41) || (code c =? 44)
                  || (code c =? 61) || (code c =? 36) || (code c =? 45) then
            cons (sym c) <$> lex fuel s'
          else None
      end
  end.

Definition tokenize (s : string) : option (list token) :=
  lex (S (String.length s)) s.

(** The top-level expressions of a token stream: a newline ends an
    expression when no parenthesis is open. *)
Fixpoint toplevel (depth : nat) (cur : list token) (ts : list token)
    : list (list token) :=
  match ts with
  | [] => match cur with [] => [] | _ => [rev cur] end
  | TNewline :: ts' =>
      match depth, cur with
      | 0, [] => toplevel 0 [] ts'
      | 0, _ => rev cur :: toplevel 0 [] ts'
      | _, _ => toplevel depth cur ts'
      end
  | TSym "(" :: ts' => toplevel (S depth) (TSym "(" :: cur) ts'
  | TSym ")" :: ts' => toplevel (pred depth) (TSym ")" :: cur) ts'
  | t :: ts' => toplevel depth (t :: cur) ts'
  end.

Definition reserved : list string :=
  ["if"; "else"; "repeat"; "while"; "function"; "for"; "next"; "break";
   "TRUE"; "FALSE"; "NULL"; "Inf"; "NaN"; "NA"; "in"].

Definition literal (t : token) : bool :=
  match t with TStr _ | TNum _ => true | _ => false end.

Definition operand (t : token) : bool :=
  match t with
  | TStr _ | TNum _ => true
  | TId x => negb (bool_decide (x ∈ reserved))
  | _ => false
  end.

(** A literal directly followed by another operand.  R has no
    juxtaposition: an expression containing this is a syntax error
    ("unexpected symbol", "unexpected string constant"). *)
Fixpoint juxtaposed (ts : list token) : bool :=
  match ts with
  | a :: ts' =>
      match ts' with
      | b :: _ => (literal a && operand b) || juxtaposed ts'
      | [] => false
      end
  | [] => false
  end.

(** The callees of the calls written in an expression: the identifiers
    directly followed by an opening parenthesis, in the order of the
    text. *)
Fixpoint calls_in (ts : list token) : list string :=
  match ts with
  | TId f :: ts' =>
      match ts' with
      | TSym "(" :: _ => f :: calls_in ts'
      | _ => calls_in ts'
      end
  | _ :: ts' => calls_in ts'
  | [] => []
  end.

(** [Rscript file] reads and evaluates one top-level expression after the
    other and stops at the first it cannot parse; [source(file)] parses the
    whole file before it evaluates anything.  [exprs] are the expressions,
    [meaning] what each of them does when evaluated. *)
Fixpoint Rscript {A} (exprs : list (list token)) (meaning : list A) : list A :=
  match exprs, meaning with
  | e :: exprs', m :: meaning' =>
      if juxtaposed e then [] else m :: Rscript exprs' meaning'
  | _, _ => []
  end.

Definition source_ {A} (exprs : list (list token)) (meaning : list A) : list A :=
  if existsb juxtaposed exprs then [] else take (length exprs) meaning.

(** The double quote is written as a backquote in the texts below. *)
Definition unquote (s : string) : string :=
  string_of_list_ascii
    (map (fun c => if code c =? 96 then ascii_of_nat 34 else c)
       (list_ascii_of_string s)).

End R.

(** ** The three scripts *)

Module Scripts.
Import Script.

(** How a script is written down as operations:

    - every call expression is one operation, in Python's order of
      evaluation (callee, arguments from left to right, then the call);
      [fn] is the callee as written, [uses] the names the callee and the
      arguments read, a nested call being read through its temporary;
    - an assignment whose right side is a call binds its targets in that
      operation; any other assignment is the operation ["="], and an
      assignment to a subscript is ["[]="] on the subscripted name;
      augmented assignments are ["-="] and ["[]+="];
    - a method called for its effect ([x.fit(...)], [l.append(...)],
      [fig['layout'].update(...)]) rebinds the name the receiver starts
      from, unless that name is an imported module;
    - [import m as x] and [from m import x, y] are the operation
      ["import m"] binding the imported names;
    - IPython's [! command] line is the operation ["! command"];
    - [def f] binds [f]; a call of [f] binds its parameters and is followed
      by the body of [f], whose local names are written [f.name];
    - a [for] loop first binds its iterator to a temporary; its count is the
      length of what it iterates over: the nine [sample_sizes], the 5, 4 and
      3 elements of the literal lists and tuples, [range(0,3)],
      [range(1,4)], [range(pl_entries)] with [pl_entries = 300], the eight
      [range_n_outliers] and [range(repeat)] with [repeat = 10]. *)

(** *** [feature-map-approx.ipynb] (its name in its publish call) *)

(** code cell 1 *)
Definition feature_map_approx_cell_1 : block := [
  Do (Op ["sklearn"] "import sklearn" []);
  Do (Op [] "expr" ["sklearn"])
].

(** code cell 2 *)
Definition feature_map_approx_cell_2 : block := [
  Do (Op ["py"] "import plotly.plotly" []);
  Do (Op ["go"] "import plotly.graph_objs" []);
  Do (Op ["tools"] "import plotly" []);
  Do (Op ["np"] "import numpy" []);
  Do (Op ["time"] "import time" []);
  Do (Op ["plt"] "import matplotlib.pyplot" []);
  Do (Op ["datasets"; "svm"; "pipeline"] "import sklearn" []);
  Do (Op ["RBFSampler"; "Nystroem"] "import sklearn.kernel_approximation" []);
  Do (Op ["PCA"] "import sklearn.decomposition" [])
].

(** code cell 3 *)
Definition feature_map_approx_cell_3 : block := [
  Do (Op [] "print" ["print"; "__doc__"]);
  Do (Op ["digits"] "datasets.load_digits" ["datasets"]);
  Do (Op ["n_samples"] "len" ["len"; "digits"]);
  Do (Op ["data"] "=" ["digits"]);
  Do (Op ["$1"] "data.mean" ["data"]);
  Do (Op ["data"] "-=" ["data"; "$1"]);
  Do (Op ["data_train"; "targets_train"] "=" ["data"; "n_samples"; "digits"]);
  Do (Op ["data_test"; "targets_test"] "=" ["data"; "n_samples"; "digits"]);
  Do (Op ["kernel_svm"] "svm.SVC" ["svm"]);
  Do (Op ["linear_svm"] "svm.LinearSVC" ["svm"]);
  Do (Op ["feature_map_fourier"] "RBFSampler" ["RBFSampler"]);
  Do (Op ["feature_map_nystroem"] "Nystroem" ["Nystroem"]);
  Do (Op ["$2"] "svm.LinearSVC" ["svm"]);
  Do (Op ["fourier_approx_svm"] "pipeline.Pipeline" ["pipeline"; "feature_map_fourier"; "$2"]);
  Do (Op ["$3"] "svm.LinearSVC" ["svm"]);
  Do (Op ["nystroem_approx_svm"] "pipeline.Pipeline" ["pipeline"; "feature_map_nystroem"; "$3"]);
  Do (Op ["kernel_svm_time"] "time" ["time"]);
  Do (Op ["kernel_svm"] "kernel_svm.fit" ["kernel_svm"; "data_train"; "targets_train"]);
  Do (Op ["kernel_svm_score"] "kernel_svm.score" ["kernel_svm"; "data_test"; "targets_test"]);
  Do (Op ["$4"] "time" ["time"]);
  Do (Op ["kernel_svm_time"] "=" ["$4"; "kernel_svm_time"]);
  Do (Op ["linear_svm_time"] "time" ["time"]);
  Do (Op ["linear_svm"] "linear_svm.fit" ["linear_svm"; "data_train"; "targets_train"]);
  Do (Op ["linear_svm_score"] "linear_svm.score" ["linear_svm"; "data_test"; "targets_test"]);
  Do (Op ["$5"] "time" ["time"]);
  Do (Op ["linear_svm_time"] "=" ["$5"; "linear_svm_time"]);
  Do (Op ["$6"] "np.arange" ["np"]);
  Do (Op ["sample_sizes"] "=" ["$6"]);
  Do (Op ["fourier_scores"] "=" []);
  Do (Op ["nystroem_scores"] "=" []);
  Do (Op ["fourier_times"] "=" []);
  Do (Op ["nystroem_times"] "=" []);
  Do (Op ["$7"] "iter" ["sample_sizes"]);
  For ["D"] "$7" 9 [
      Do (Op ["fourier_approx_svm"] "fourier_approx_svm.set_params" ["fourier_approx_svm"; "D"]);
      Do (Op ["nystroem_approx_svm"] "nystroem_approx_svm.set_params" ["nystroem_approx_svm"; "D"]);
      Do (Op ["start"] "time" ["time"]);
      Do (Op ["nystroem_approx_svm"] "nystroem_approx_svm.fit" ["nystroem_approx_svm"; "data_train"; "targets_train"]);
      Do (Op ["$8"] "time" ["time"]);
      Do (Op ["nystroem_times"] "nystroem_times.append" ["nystroem_times"; "$8"; "start"]);
      Do (Op ["start"] "time" ["time"]);
      Do (Op ["fourier_approx_svm"] "fourier_approx_svm.fit" ["fourier_approx_svm"; "data_train"; "targets_train"]);
      Do (Op ["$9"] "time" ["time"]);
      Do (Op ["fourier_times"] "fourier_times.append" ["fourier_times"; "$9"; "start"]);
      Do (Op ["fourier_score"] "fourier_approx_svm.score" ["fourier_approx_svm"; "data_test"; "targets_test"]);
      Do (Op ["nystroem_score"] "nystroem_approx_svm.score" ["nystroem_approx_svm"; "data_test"; "targets_test"]);
      Do (Op ["nystroem_scores"] "nystroem_scores.append" ["nystroem_scores"; "nystroem_score"]);
      Do (Op ["fourier_scores"] "fourier_scores.append" ["fourier_scores"; "fourier_score"])
    ]
].

(** code cell 4 *)
Definition feature_map_approx_cell_4 : block := [
  Do (Op ["fig"] "tools.make_subplots" ["tools"]);
  Do (Op ["$10"] "dict" ["dict"]);
  Do (Op ["accuracy_trace1"] "go.Scatter" ["go"; "sample_sizes"; "nystroem_scores"; "$10"]);
  Do (Op ["$11"] "dict" ["dict"]);
  Do (Op ["timescale_trace1"] "go.Scatter" ["go"; "sample_sizes"; "nystroem_times"; "$11"]);
  Do (Op ["$12"] "dict" ["dict"]);
  Do (Op ["accuracy_trace2"] "go.Scatter" ["go"; "sample_sizes"; "fourier_scores"; "$12"]);
  Do (Op ["$13"] "dict" ["dict"]);
  Do (Op ["timescale_trace2"] "go.Scatter" ["go"; "sample_sizes"; "fourier_times"; "$13"]);
  Do (Op ["$14"] "dict" ["dict"]);
  Do (Op ["accuracy_trace3"] "go.Scatter" ["go"; "sample_sizes"; "linear_svm_score"; "$14"]);
  Do (Op ["$15"] "dict" ["dict"]);
  Do (Op ["timescale_trace3"] "go.Scatter" ["go"; "sample_sizes"; "linear_svm_time"; "$15"]);
  Do (Op ["$16"] "dict" ["dict"]);
  Do (Op ["accuracy_trace4"] "go.Scatter" ["go"; "sample_sizes"; "kernel_svm_score"; "$16"]);
  Do (Op ["$17"] "dict" ["dict"]);
  Do (Op ["timescale_trace4"] "go.Scatter" ["go"; "sample_sizes"; "kernel_svm_time"; "$17"]);
  Do (Op ["$18"] "dict" ["dict"]);
  Do (Op ["accuracy_trace5"] "go.Scatter" ["go"; "$18"]);
  Do (Op ["$19"] "iter" ["accuracy_trace1"; "accuracy_trace2"; "accuracy_trace3"; "accuracy_trace4"; "accuracy_trace5"]);
  For ["i"] "$19" 5 [
      Do (Op ["fig"] "fig.append_trace" ["fig"; "i"])
    ];
  Do (Op ["$20"] "iter" ["timescale_trace1"; "timescale_trace2"; "timescale_trace3"; "timescale_trace4"]);
  For ["i"] "$20" 4 [
      Do (Op ["fig"] "fig.append_trace" ["fig"; "i"])
    ];
  Do (Op ["fig"] "fig['layout'].update" ["fig"]);
  Do (Op ["fig"] "fig['layout']['xaxis1'].update" ["fig"; "sample_sizes"]);
  Do (Op ["$21"] "np.min" ["np"; "fourier_scores"]);
  Do (Op ["fig"] "fig['layout']['yaxis1'].update" ["fig"; "$21"]);
  Do (Op ["fig"] "fig['layout']['xaxis2'].update" ["fig"]);
  Do (Op ["fig"] "fig['layout']['yaxis2'].update" ["fig"]);
  Do (Op [] "py.iplot" ["py"; "fig"])
].

(** code cell 5 *)
Definition feature_map_approx_cell_5 : block := [
  Do (Op ["fig1"] "tools.make_subplots" ["tools"]);
  Do (Op ["$22"] "PCA" ["PCA"]);
  Do (Op ["pca"] "PCA(n_components=8).fit" ["$22"; "data_train"]);
  Do (Op ["X"] "pca.transform" ["pca"; "data_train"]);
  Do (Op ["multiples"] "np.arange" ["np"]);
  Do (Op ["first"] "=" ["multiples"; "np"; "pca"]);
  Do (Op ["second"] "=" ["multiples"; "np"; "pca"]);
  Do (Op ["grid"] "=" ["first"; "np"; "second"]);
  Do (Op ["flat_grid"] "grid.reshape" ["grid"; "data"]);
  Do (Op ["titles"] "=" []);
  Do (Op ["matplotlib_to_plotly"] "def" []);
  Do (Op ["contour_list"] "=" []);
  Do (Op ["scatter_list"] "=" []);
  Do (Op ["$23"] "enumerate" ["enumerate"; "kernel_svm"; "nystroem_approx_svm"; "fourier_approx_svm"]);
  For ["i"; "clf"] "$23" 3 [
      Do (Op ["Z"] "clf.predict" ["clf"; "flat_grid"]);
      Do (Op ["Z"] "Z.reshape" ["Z"; "grid"]);
      Do (Op ["$24"] "dict" ["dict"]);
      Do (Op ["$25"] "dict" ["dict"]);
      Do (Op ["matplotlib_to_plotly.cmap"; "matplotlib_to_plotly.pl_entries"] "matplotlib_to_plotly" ["matplotlib_to_plotly"; "plt"]);
      Do (Op ["matplotlib_to_plotly.h"] "=" ["matplotlib_to_plotly.pl_entries"]);
      Do (Op ["matplotlib_to_plotly.pl_colorscale"] "=" []);
      Do (Op ["$26"] "range" ["range"; "matplotlib_to_plotly.pl_entries"]);
      For ["matplotlib_to_plotly.k"] "$26" 300 [
          Do (Op ["$27"] "cmap" ["matplotlib_to_plotly.cmap"; "matplotlib_to_plotly.k"; "matplotlib_to_plotly.h"]);
          Do (Op ["$28"] "np.array" ["np"; "$27"]);
          Do (Op ["matplotlib_to_plotly.C"] "map" ["map"; "np"; "$28"]);
          Do (Op ["$29"] "str" ["str"; "matplotlib_to_plotly.C"]);
          Do (Op ["matplotlib_to_plotly.pl_colorscale"] "pl_colorscale.append" ["matplotlib_to_plotly.pl_colorscale"; "matplotlib_to_plotly.k"; "matplotlib_to_plotly.h"; "$29"])
        ];
      Do (Op ["$30"] "return" ["matplotlib_to_plotly.pl_colorscale"]);
      Do (Op ["trace1"] "go.Contour" ["go"; "multiples"; "Z"; "$24"; "$25"; "$30"]);
      Do (Op ["contour_list"] "contour_list.append" ["contour_list"; "trace1"]);
      Do (Op ["matplotlib_to_plotly.cmap"; "matplotlib_to_plotly.pl_entries"] "matplotlib_to_plotly" ["matplotlib_to_plotly"; "plt"]);
      Do (Op ["matplotlib_to_plotly.h"] "=" ["matplotlib_to_plotly.pl_entries"]);
      Do (Op ["matplotlib_to_plotly.pl_colorscale"] "=" []);
      Do (Op ["$31"] "range" ["range"; "matplotlib_to_plotly.pl_entries"]);
      For ["matplotlib_to_plotly.k"] "$31" 300 [
          Do (Op ["$32"] "cmap" ["matplotlib_to_plotly.cmap"; "matplotlib_to_plotly.k"; "matplotlib_to_plotly.h"]);
          Do (Op ["$33"] "np.array" ["np"; "$32"]);
          Do (Op ["matplotlib_to_plotly.C"] "map" ["map"; "np"; "$33"]);
          Do (Op ["$34"] "str" ["str"; "matplotlib_to_plotly.C"]);
          Do (Op ["matplotlib_to_plotly.pl_colorscale"] "pl_colorscale.append" ["matplotlib_to_plotly.pl_colorscale"; "matplotlib_to_plotly.k"; "matplotlib_to_plotly.h"; "$34"])
        ];
      Do (Op ["$35"] "return" ["matplotlib_to_plotly.pl_colorscale"]);
      Do (Op ["$36"] "dict" ["dict"]);
      Do (Op ["$37"] "dict" ["dict"; "targets_train"; "$35"; "$36"]);
      Do (Op ["trace2"] "go.Scatter" ["go"; "X"; "$37"]);
      Do (Op ["scatter_list"] "scatter_list.append" ["scatter_list"; "trace2"])
    ];
  Do (Op ["$38"] "range" ["range"]);
  For ["i"] "$38" 3 [
      Do (Op ["fig1"] "fig1.append_trace" ["fig1"; "contour_list"; "i"]);
      Do (Op ["fig1"] "fig1.append_trace" ["fig1"; "scatter_list"; "i"])
    ];
  Do (Op ["$39"] "range" ["range"]);
  For ["i"] "$39" 3 [
      Do (Op ["$40"] "str" ["str"; "i"]);
      Do (Op ["x"] "=" ["$40"]);
      Do (Op ["$41"] "str" ["str"; "i"]);
      Do (Op ["y"] "=" ["$41"]);
      Do (Op ["fig1"] "fig1['layout'][x].update" ["fig1"; "x"]);
      Do (Op ["fig1"] "fig1['layout'][y].update" ["fig1"; "y"])
    ];
  Do (Op [] "py.iplot" ["py"; "fig1"])
].

(** code cell 6 *)
Definition feature_map_approx_cell_6 : block := [
  Do (Op ["display"; "HTML"] "import IPython.display" []);
  Do (Op ["$42"] "HTML" ["HTML"]);
  Do (Op [] "display" ["display"; "$42"]);
  Do (Op ["$43"] "HTML" ["HTML"]);
  Do (Op [] "display" ["display"; "$43"]);
  Do (Op [] "! pip install git+https://github.com/plotly/publisher.git --upgrade" []);
  Do (Op ["publisher"] "import publisher" []);
  Do (Op [] "publisher.publish" ["publisher"])
].

(** code cell 7 (empty) *)
Definition feature_map_approx_cell_7 : block := [].

(** The kernel-approximation notebook: its code cells in document order. *)
Definition feature_map_approx : block :=
  feature_map_approx_cell_1 ++
  feature_map_approx_cell_2 ++
  feature_map_approx_cell_3 ++
  feature_map_approx_cell_4 ++
  feature_map_approx_cell_5 ++
  feature_map_approx_cell_6 ++
  feature_map_approx_cell_7.

(** *** [Robust-vs-Empirical-covariance-estimate.ipynb] *)

(** code cell 1 *)
Definition robust_vs_empirical_covariance_cell_1 : block := [
  Do (Op ["sklearn"] "import sklearn" []);
  Do (Op [] "expr" ["sklearn"])
].

(** code cell 2 *)
Definition robust_vs_empirical_covariance_cell_2 : block := [
  Do (Op ["py"] "import plotly.plotly" []);
  Do (Op ["go"] "import plotly.graph_objs" []);
  Do (Op [] "print" ["print"; "__doc__"]);
  Do (Op ["np"] "import numpy" []);
  Do (Op ["plt"] "import matplotlib.pyplot" []);
  Do (Op ["matplotlib"] "import matplotlib.font_manager" []);
  Do (Op ["EmpiricalCovariance"; "MinCovDet"] "import sklearn.covariance" [])
].

(** code cell 3 *)
Definition robust_vs_empirical_covariance_cell_3 : block := [
  Do (Op ["n_samples"] "=" []);
  Do (Op ["n_features"] "=" []);
  Do (Op ["repeat"] "=" []);
  Do (Op ["$1"] "np.linspace" ["np"; "n_samples"]);
  Do (Op ["$2"] "np.linspace" ["np"; "n_samples"]);
  Do (Op ["range_n_outliers"] "np.concatenate" ["np"; "$1"; "$2"]);
  Do (Op ["err_loc_mcd"] "np.zeros" ["np"; "range_n_outliers"; "repeat"]);
  Do (Op ["err_cov_mcd"] "np.zeros" ["np"; "range_n_outliers"; "repeat"]);
  Do (Op ["err_loc_emp_full"] "np.zeros" ["np"; "range_n_outliers"; "repeat"]);
  Do (Op ["err_cov_emp_full"] "np.zeros" ["np"; "range_n_outliers"; "repeat"]);
  Do (Op ["err_loc_emp_pure"] "np.zeros" ["np"; "range_n_outliers"; "repeat"]);
  Do (Op ["err_cov_emp_pure"] "np.zeros" ["np"; "range_n_outliers"; "repeat"]);
  Do (Op ["$3"] "enumerate" ["enumerate"; "range_n_outliers"]);
  For ["i"; "n_outliers"] "$3" 8 [
      Do (Op ["$4"] "range" ["range"; "repeat"]);
      For ["j"] "$4" 10 [
          Do (Op ["rng"] "np.random.RandomState" ["np"; "i"; "j"]);
          Do (Op ["X"] "rng.randn" ["rng"; "n_samples"; "n_features"]);
          Do (Op ["$5"] "rng.permutation" ["rng"; "n_samples"]);
          Do (Op ["outliers_index"] "=" ["$5"; "n_outliers"]);
          Do (Op ["$6"] "np.random.randint" ["np"; "n_outliers"; "n_features"]);
          Do (Op ["outliers_offset"] "=" ["$6"]);
          Do (Op ["X"] "[]+=" ["X"; "outliers_index"; "outliers_offset"]);
          Do (Op ["$7"] "np.ones" ["np"; "n_samples"]);
          Do (Op ["inliers_mask"] "np.ones(n_samples).astype" ["$7"; "bool"]);
          Do (Op ["inliers_mask"] "[]=" ["inliers_mask"; "outliers_index"]);
          Do (Op ["$8"] "MinCovDet" ["MinCovDet"]);
          Do (Op ["mcd"] "MinCovDet().fit" ["$8"; "X"]);
          Do (Op ["$9"] "np.sum" ["np"; "mcd"]);
          Do (Op ["err_loc_mcd"] "[]=" ["err_loc_mcd"; "i"; "j"; "$9"]);
          Do (Op ["$10"] "np.eye" ["np"; "n_features"]);
          Do (Op ["$11"] "mcd.error_norm" ["mcd"; "$10"]);
          Do (Op ["err_cov_mcd"] "[]=" ["err_cov_mcd"; "i"; "j"; "$11"]);
          Do (Op ["$12"] "X.mean" ["X"]);
          Do (Op ["$13"] "np.sum" ["np"; "$12"]);
          Do (Op ["err_loc_emp_full"] "[]=" ["err_loc_emp_full"; "i"; "j"; "$13"]);
          Do (Op ["$14"] "EmpiricalCovariance" ["EmpiricalCovariance"]);
          Do (Op ["$15"] "EmpiricalCovariance().fit" ["$14"; "X"]);
          Do (Op ["$16"] "np.eye" ["np"; "n_features"]);
          Do (Op ["$17"] "EmpiricalCovariance().fit(X).error_norm" ["$15"; "$16"]);
          Do (Op ["err_cov_emp_full"] "[]=" ["err_cov_emp_full"; "i"; "j"; "$17"]);
          Do (Op ["pure_X"] "=" ["X"; "inliers_mask"]);
          Do (Op ["pure_location"] "pure_X.mean" ["pure_X"]);
          Do (Op ["$18"] "EmpiricalCovariance" ["EmpiricalCovariance"]);
          Do (Op ["pure_emp_cov"] "EmpiricalCovariance().fit" ["$18"; "pure_X"]);
          Do (Op ["$19"] "np.sum" ["np"; "pure_location"]);
          Do (Op ["err_loc_emp_pure"] "[]=" ["err_loc_emp_pure"; "i"; "j"; "$19"]);
          Do (Op ["$20"] "np.eye" ["np"; "n_features"]);
          Do (Op ["$21"] "pure_emp_cov.error_norm" ["pure_emp_cov"; "$20"]);
          Do (Op ["err_cov_emp_pure"] "[]=" ["err_cov_emp_pure"; "i"; "j"; "$21"])
        ]
    ]
].

(** code cell 4 *)
Definition robust_vs_empirical_covariance_cell_4 : block := [
  Do (Op ["font_prop"] "matplotlib.font_manager.FontProperties" ["matplotlib"]);
  Do (Op ["$22"] "err_loc_mcd.mean" ["err_loc_mcd"]);
  Do (Op ["$23"] "err_loc_mcd.std" ["err_loc_mcd"]);
  Do (Op ["$24"] "np.sqrt" ["np"; "repeat"]);
  Do (Op ["$25"] "dict" ["dict"; "$23"; "$24"]);
  Do (Op ["$26"] "dict" ["dict"]);
  Do (Op ["robust_location"] "go.Scatter" ["go"; "range_n_outliers"; "$22"; "$25"; "$26"]);
  Do (Op ["$27"] "err_loc_emp_full.mean" ["err_loc_emp_full"]);
  Do (Op ["$28"] "err_loc_emp_full.std" ["err_loc_emp_full"]);
  Do (Op ["$29"] "np.sqrt" ["np"; "repeat"]);
  Do (Op ["$30"] "dict" ["dict"; "$28"; "$29"]);
  Do (Op ["$31"] "dict" ["dict"]);
  Do (Op ["full_data_set_mean"] "go.Scatter" ["go"; "range_n_outliers"; "$27"; "$30"; "$31"]);
  Do (Op ["$32"] "err_loc_emp_pure.mean" ["err_loc_emp_pure"]);
  Do (Op ["$33"] "err_loc_emp_pure.std" ["err_loc_emp_pure"]);
  Do (Op ["$34"] "np.sqrt" ["np"; "repeat"]);
  Do (Op ["$35"] "dict" ["dict"; "$33"; "$34"]);
  Do (Op ["$36"] "dict" ["dict"]);
  Do (Op ["pure_data_set_mean"] "go.Scatter" ["go"; "range_n_outliers"; "$32"; "$35"; "$36"]);
  Do (Op ["$37"] "dict" ["dict"]);
  Do (Op ["$38"] "dict" ["dict"]);
  Do (Op ["layout"] "go.Layout" ["go"; "$37"; "$38"]);
  Do (Op ["fig"] "go.Figure" ["go"; "robust_location"; "pure_data_set_mean"; "full_data_set_mean"; "layout"])
].

(** code cell 5 *)
Definition robust_vs_empirical_covariance_cell_5 : block := [
  Do (Op [] "py.iplot" ["py"; "fig"])
].

(** code cell 6 *)
Definition robust_vs_empirical_covariance_cell_6 : block := [
  Do (Op ["x_size"] "=" ["range_n_outliers"]);
  Do (Op ["$39"] "err_cov_mcd.mean" ["err_cov_mcd"]);
  Do (Op ["$40"] "err_cov_mcd.std" ["err_cov_mcd"]);
  Do (Op ["$41"] "dict" ["dict"; "$40"]);
  Do (Op ["$42"] "dict" ["dict"]);
  Do (Op ["robust_covariance"] "go.Scatter" ["go"; "range_n_outliers"; "$39"; "$41"; "$42"]);
  Do (Op ["$43"] "err_cov_emp_full.mean" ["err_cov_emp_full"]);
  Do (Op ["$44"] "err_cov_emp_full.std" ["err_cov_emp_full"]);
  Do (Op ["$45"] "dict" ["dict"; "$44"; "x_size"]);
  Do (Op ["$46"] "dict" ["dict"]);
  Do (Op ["full_data_set1"] "go.Scatter" ["go"; "range_n_outliers"; "x_size"; "$43"; "$45"; "$46"]);
  Do (Op ["$47"] "err_cov_emp_full.mean" ["err_cov_emp_full"]);
  Do (Op ["$48"] "dict" ["dict"]);
  Do (Op ["full_data_set2"] "go.Scatter" ["go"; "range_n_outliers"; "x_size"; "$47"; "$48"]);
  Do (Op ["$49"] "err_cov_emp_pure.mean" ["err_cov_emp_pure"]);
  Do (Op ["$50"] "err_cov_emp_pure.std" ["err_cov_emp_pure"]);
  Do (Op ["$51"] "dict" ["dict"; "$50"]);
  Do (Op ["$52"] "dict" ["dict"]);
  Do (Op ["pure_data_set"] "go.Scatter" ["go"; "range_n_outliers"; "$49"; "$51"; "$52"]);
  Do (Op ["$53"] "dict" ["dict"]);
  Do (Op ["$54"] "dict" ["dict"]);
  Do (Op ["layout"] "go.Layout" ["go"; "$53"; "$54"]);
  Do (Op ["fig"] "go.Figure" ["go"; "robust_covariance"; "full_data_set1"; "full_data_set2"; "pure_data_set"; "layout"])
].

(** code cell 7 *)
Definition robust_vs_empirical_covariance_cell_7 : block := [
  Do (Op [] "py.iplot" ["py"; "fig"])
].

(** code cell 8 *)
Definition robust_vs_empirical_covariance_cell_8 : block := [
  Do (Op ["display"; "HTML"] "import IPython.display" []);
  Do (Op ["$55"] "HTML" ["HTML"]);
  Do (Op [] "display" ["display"; "$55"]);
  Do (Op ["$56"] "HTML" ["HTML"]);
  Do (Op [] "display" ["display"; "$56"]);
  Do (Op [] "! pip install git+https://github.com/plotly/publisher.git --upgrade" []);
  Do (Op ["publisher"] "import publisher" []);
  Do (Op [] "publisher.publish" ["publisher"])
].

(** code cell 9 (empty) *)
Definition robust_vs_empirical_covariance_cell_9 : block := [].

(** The covariance notebook: its code cells in document order. *)
Definition robust_vs_empirical_covariance : block :=
  robust_vs_empirical_covariance_cell_1 ++
  robust_vs_empirical_covariance_cell_2 ++
  robust_vs_empirical_covariance_cell_3 ++
  robust_vs_empirical_covariance_cell_4 ++
  robust_vs_empirical_covariance_cell_5 ++
  robust_vs_empirical_covariance_cell_6 ++
  robust_vs_empirical_covariance_cell_7 ++
  robust_vs_empirical_covariance_cell_8 ++
  robust_vs_empirical_covariance_cell_9.



(** *** [2013-US-Population.r] *)

(** The text of [2013-US-Population.r], line by line; a backquote stands
    for the double-quote character. *)
Definition source_text : list string := [
  "library(plotly)";
  EmptyString;
  "p <- plotly(username='theengineear', key='o9zlr0hy6z')";
  EmptyString;
  "data <- list(";
  "  list(";
  "    x = c(`AL`, `AK`, `AZ`, `AR`, `CA`, `CO`, `CT`, `DE`, `DC`, `FL`, `GE`, `HA`, `ID`, `IL`, `IN`, `IO`, `KS`, `KY`, `LA`, `ME`, `MD`, `MA`, `MI`, `MN`, `MS`, `MO`, `MT`, `NE`, `NE`, `NH`, `NJ`, `NM`, `NY`, `NC`, `ND`, `OH`, `OK`, `OR`, `PA`, `RI`, `SC`, `SD`, `TN`, `TX`, `UT`, `VT`, `VA`, `WA`, `WV`, `WI`, `WY`), ";
  "    y = c(`4833722`, `735132`, `6626624`, `2959373`, `38332521`, `5268367`, `3596080`, `925749`, `646449`, `19552860`, `9992167`, `1404054`, `1612136`, `12882135`, `6570902`, `3090416`, `2893957`, `4395295`, `4625470`, `1328302`, `5928814`, `6692824`, `9895622`, `5420380`, `2991207`, `6044171`, `1015165`, `1868516`, `2790136`, `1323459`, `8899339`, `2085287`, `19651127`, `9848060`, `723393`, `11570808`, `3850568`, `3930065`, `12773801`, `1051511`, `4774839`, `844877`, `6495978`, `26448193`, `2900872`, `626630`, `8260405`, `6971406`, `1854304`, `5742713`, `582658`), ";
  "    name = `Col2`, ";
  "    type = `bar`";
  "  )";
  ")";
  "layout <- list(";
  "  title = `Click to enter Plot title`, ";
  "  xaxis = list(";
  "    title = `Click to enter X axis title`, ";
  "    domain = c(0, 1), ";
  "    range = c(-0.5, 49.5), ";
  "    type = `category`, ";
  "    showline = FALSE, ";
  "    linecolor = `#444`, ";
  "    linewidth = 1, ";
  "    tick0 = 0, ";
  "    dtick = 1, ";
  "    ticks = ``, ";
  "    ticklen = 5, ";
  "    tickcolor = `#444`, ";
  "    tickwidth = 1, ";
  "    nticks = 0, ";
  "    showticklabels = TRUE, ";
  "    tickangle = `auto`, ";
  "    exponentformat = `B`, ";
  "    showexponent = `all`, ";
  "    showgrid = FALSE, ";
  "    gridcolor = `#eee`, ";
  "    gridwidth = 1, ";
  "    autorange = TRUE, ";
  "    rangemode = `normal`, ";
  "    autotick = TRUE, ";
  "    zeroline = FALSE, ";
  "    zerolinecolor = `#444`, ";
  "    zerolinewidth = 1, ";
  "    titlefont = list(";
  "      family = ``, ";
  "      size = 0, ";
  "      color = ``";
  "    ), ";
  "    tickfont = list(";
  "      family = ``, ";
  "      size = 0, ";
  "      color = ``";
  "    ), ";
  "    overlaying = FALSE, ";
  "    position = 0, ";
  "    anchor = `y`, ";
  "    mirror = FALSE";
  "  ), ";
  "  yaxis = list(";
  "    title = `Click to enter Y axis title`, ";
  "    domain = c(0, 1), ";
  "    range = c(0, 40350022.1053), ";
  "    type = `linear`, ";
  "    showline = FALSE, ";
  "    linecolor = `#444`, ";
  "    linewidth = 1, ";
  "    tick0 = 0, ";
  "    dtick = 5000000, ";
  "    ticks = ``, ";
  "    ticklen = 5, ";
  "    tickcolor = `#444`, ";
  "    tickwidth = 1, ";
  "    nticks = 0, ";
  "    showticklabels = TRUE, ";
  "    tickangle = `auto`, ";
  "    exponentformat = `B`, ";
  "    showexponent = `all`, ";
  "    showgrid = TRUE, ";
  "    gridcolor = `#eee`, ";
  "    gridwidth = 1, ";
  "    autorange = TRUE, ";
  "    rangemode = `normal`, ";
  "    autotick = TRUE, ";
  "    zeroline = TRUE, ";
  "    zerolinecolor = `#444`, ";
  "    zerolinewidth = 1, ";
  "    titlefont = list(";
  "      family = ``, ";
  "      size = 0, ";
  "      color = ``";
  "    ), ";
  "    tickfont = list(";
  "      family = ``, ";
  "      size = 0, ";
  "      color = ``";
  "    ), ";
  "    position = 0, ";
  "    anchor = `x`, ";
  "    mirror = FALSE, ";
  "    overlaying = FALSE";
  "  ), ";
  "  legend = list(";
  "    x = 1.02, ";
  "    y = 1, ";
  "    bgcolor = `#fff`, ";
  "    bordercolor = `#444`, ";
  "    borderwidth = 0, ";
  "    font = list(";
  "      family = ``, ";
  "      size = 0, ";
  "      color = ``";
  "    ), ";
  "    traceorder = `normal`, ";
  "    xanchor = `left`, ";
  "    yanchor = `top`";
  "  ), ";
  "  width = 1270, ";
  "  height = 466, ";
  "  autosize = TRUE, ";
  "  margin = list(";
  "    l = 80, ";
  "    r = 80, ";
  "    b = 80, ";
  "    t = 100, ";
  "    pad = 0, ";
  "    autoexpand = TRUE";
  "  ), ";
  "  paper_bgcolor = `#fff`, ";
  "  plot_bgcolor = `#fff`, ";
  "  dragmode = `zoom`, ";
  "  hovermode = `x`, ";
  "  barmode = `group`, ";
  "  bargap = 0.2, ";
  "  bargroupgap = 0, ";
  "  boxmode = `overlay`, ";
  "  boxgap = 0.3, ";
  "  boxgroupgap = 0.3, ";
  "  font = list(";
  "    family = ``Open sans`, verdana, arial, sans-serif`, ";
  "    size = 12, ";
  "    color = `#444`";
  "  ), ";
  "  titlefont = list(";
  "    family = ``, ";
  "    size = 0, ";
  "    color = ``";
  "  ), ";
  "  separators = `.,`, ";
  "  hidesources = FALSE, ";
  "  showlegend = TRUE";
  ")";
  EmptyString;
  "response <- p$plotly(data, kwargs=list(layout=layout, filename=`2013-US-Population`, fileopt=`overwrite`, auto_open=`FALSE`))";
  "url <- response$url";
  "filename <- response$filename"
].

Definition source : string :=
  R.unquote (String.concat (String (ascii_of_nat 10) EmptyString) source_text).

(** Its top-level expressions. *)
Definition expressions : list (list R.token) :=
  from_option (R.toplevel 0 []) [] (R.tokenize source).

(** What each top-level expression does, as written: [library(plotly)],
    [p <- plotly(...)], [data <- list(list(...))], [layout <- list(...)],
    [response <- p$plotly(...)], [url <- ...], [filename <- ...]. *)
Definition us_population_2013_toplevel : list block := [
  [ Do (Op ["plotly"] "library(plotly)" ["library"]) ];
  [ Do (Op ["p"] "plotly" ["plotly"]) ];
  [ Do (Op ["$1"] "c" ["c"]);
    Do (Op ["$2"] "c" ["c"]);
    Do (Op ["$3"] "list" ["list"; "$1"; "$2"]);
    Do (Op ["data"] "list" ["list"; "$3"]) ];
  [ Do (Op ["$4"] "c" ["c"]);
    Do (Op ["$5"] "c" ["c"]);
    Do (Op ["$6"] "list" ["list"]);
    Do (Op ["$7"] "list" ["list"]);
    Do (Op ["$8"] "list" ["list"; "$4"; "$5"; "$6"; "$7"]);
    Do (Op ["$9"] "c" ["c"]);
    Do (Op ["$10"] "c" ["c"]);
    Do (Op ["$11"] "list" ["list"]);
    Do (Op ["$12"] "list" ["list"]);
    Do (Op ["$13"] "list" ["list"; "$9"; "$10"; "$11"; "$12"]);
    Do (Op ["$14"] "list" ["list"]);
    Do (Op ["$15"] "list" ["list"; "$14"]);
    Do (Op ["$16"] "list" ["list"]);
    Do (Op ["$17"] "list" ["list"]);
    Do (Op ["$18"] "list" ["list"]);
    Do (Op ["layout"] "list" ["list"; "$8"; "$13"; "$15"; "$16"; "$17"; "$18"]) ];
  [ Do (Op ["$19"] "list" ["list"; "layout"]);
    Do (Op ["response"] "p$plotly" ["p"; "data"; "$19"]) ];
  [ Do (Op ["url"] "<-" ["response"]) ];
  [ Do (Op ["filename"] "<-" ["response"]) ]
].

(** The script as written. *)
Definition us_population_2013 : block := mjoin us_population_2013_toplevel.

(** The script as [Rscript] and as [source] evaluate it. *)
Definition us_population_2013_Rscript : block :=
  mjoin (R.Rscript expressions us_population_2013_toplevel).
Definition us_population_2013_source : block :=
  mjoin (R.source_ expressions us_population_2013_toplevel).

(** *** Kinds of operations, by callee *)

Fixpoint occurs (pat s : string) : bool :=
  String.prefix pat s ||
  match s with
  | String _ s' => occurs pat s'
  | EmptyString => false
  end.

Fixpoint ends_with (suffix s : string) : bool :=
  String.eqb suffix s ||
  match s with
  | String _ s' => ends_with suffix s'
  | EmptyString => false
  end.

Definition is_import (f : string) : bool :=
  String.prefix "import " f || String.prefix "library(" f.

(** A loader of a bundled or downloadable data set of scikit-learn. *)
Definition dataset_loader (f : string) : bool :=
  String.prefix "datasets.load_" f || String.prefix "datasets.fetch_" f.

(** A draw from a random generator. *)
Definition random_draw (f : string) : bool :=
  existsb (fun m => ends_with m f) [".randn"; ".randint"; ".permutation"; ".rand"].

(** The estimator classes the notebooks import from scikit-learn. *)
Definition estimator_class (f : string) : bool :=
  bool_decide (f ∈ ["svm.SVC"; "svm.LinearSVC"; "RBFSampler"; "Nystroem";
                    "pipeline.Pipeline"; "PCA"; "MinCovDet";
                    "EmpiricalCovariance"]).


(** A call that sends a figure to the charting service. *)
Definition plot_call (f : string) : bool :=
  String.eqb f "py.iplot" || String.eqb f "py.plot" || String.eqb f "p$plotly".


(** IPython's [!command]: the command is run by a system shell in a child
    process, and the cell goes on when that process has ended. *)
Definition shell_escape (f : string) : bool := String.prefix "! " f.

(** Threads, processes, coroutines and asynchronous tasks asked for by
    name. *)
Definition task_api (f : string) : bool :=
  existsb (fun k => occurs k f)
    ["thread"; "Thread"; "multiprocessing"; "Process"; "subprocess"; "Popen";
     "fork"; "os.system"; "async"; "await"; "concurrent"; "parallel";
     "mclapply"; "future"; "system("].

(** An operation that creates a thread, a process, a coroutine or an
    asynchronous task. *)
Definition creates_task (f : string) : bool := shell_escape f || task_api f.

(** The modules and packages a script imports. *)
Definition imports (b : block) : list string :=
  omap (fun o => if is_import (fn o) then Some (fn o) else None) (ops b).

(** A script loads a standard data set before it calls an estimator class
    and draws no random data. *)
Definition loads_standard_dataset (b : block) : bool :=
  match first_index dataset_loader (events b),
        first_index estimator_class (events b) with
  | Some i, Some j => (i <? j) && negb (existsb random_draw (events b))
  | _, _ => false
  end.

(** The string literals among some tokens, in order. *)
Definition literals (ts : list R.token) : list string :=
  omap (fun t => match t with R.TStr s => Some s | _ => None end) ts.

(** The built-in names of a fresh Python or R session that the scripts
    read, each bound to the value [0]. *)
Definition builtins : gmap string nat :=
  list_to_map ((fun x => (x, 0)) <$>
    ["print"; "__doc__"; "len"; "dict"; "enumerate"; "range"; "map"; "str";
     "bool"; "library"; "c"; "list"]).

(** Libraries whose call number [k] raises, with the callee as the
    exception, and whose other calls return their call number. *)
Definition fails_at (k : nat) : Oracle nat string :=
  fun n f _ => if decide (n = k) then inl f else inr (fun _ => n).

(** Libraries that never raise. *)
Definition never_fails : Oracle nat string := fun n _ _ => inr (fun _ => n).

(** The three scripts of the repository. *)
Inductive script := FeatureMapApprox | RobustVsEmpirical | UsPopulation.

Definition code (s : script) : block :=
  match s with
  | FeatureMapApprox => feature_map_approx
  | RobustVsEmpirical => robust_vs_empirical_covariance
  | UsPopulation => us_population_2013
  end.

Definition notebooks : list block :=
  [feature_map_approx; robust_vs_empirical_covariance].

End Scripts.

(** ** The kernel-approximation notebook: [matplotlib_to_plotly] *)

Module Colorscale.
Import Np Py.

Inductive Exn := ZeroDivisionError | IndexError.

(** The function changes nothing outside: its world is empty. *)
Definition M : Type -> Type := Eff unit Exn.

(** Floating-point arithmetic is the machine's.  A float is one of the
    rationals a double holds, but a quotient or a product is rounded to
    one of them, and [np.uint8] of a float is the conversion the C compiler
    makes.  So [/], [*] and [np.uint8] on floats are operations of the
    machine, of which only this is used: the conversion yields an 8-bit
    number.  Where an operand is an integer ([pl_entries - 1], [k], 255),
    turning it into a float is part of the operation. *)
Class Float64 := {
  fdiv : Q -> Q -> Q;
  fmul : Q -> Q -> Q;
  np_uint8 : Q -> Z;
  np_uint8_range : forall x, (0 <= np_uint8 x < 256)%Z
}.

Section Scale.
Context `{Float64}.

(** [range(n)] *)
Definition range (n : Z) : list Z := Z.of_nat <$> seq 0 (Z.to_nat n).

(** [C[i]] *)
Definition item {A} (C : list A) (i : nat) : M A :=
  match C !! i with Some c => ret c | None => raise IndexError end.

(** ['rgb' + str((r, g, b))] for three numpy integers. *)
Definition rgb (r g b : Z) : string :=
  "rgb(" +:+ pretty r +:+ ", " +:+ pretty g +:+ ", " +:+ pretty b +:+ ")".

(** [h = 1.0/(pl_entries-1)]: dividing the float by the integer zero
    raises. *)
Definition step (pl_entries : Z) : M Q :=
  if (pl_entries - 1 =? 0)%Z then raise ZeroDivisionError
  else ret (fdiv 1 (inject_Z (pl_entries - 1))).

(** The body of [for k in range(pl_entries):]; [cmap(x)] is the tuple of
    channels of the colour map at [x]. *)
Definition entry (cmap : Q -> list Q) (h : Q) (k : Z)
    (pl_colorscale : list (Q * string)) : M (list (Q * string)) :=
  let C := (fun x => np_uint8 (fmul x 255)) <$>
             take 3 (cmap (fmul (inject_Z k) h)) in
  c0 <- item C 0 ;;
  c1 <- item C 1 ;;
  c2 <- item C 2 ;;
  ret (pl_colorscale ++ [(fmul (inject_Z k) h, rgb c0 c1 c2)]).

Definition matplotlib_to_plotly (cmap : Q -> list Q) (pl_entries : Z)
    : M (list (Q * string)) :=
  h <- step pl_entries ;;
  let pl_colorscale := [] in
  for_ (range pl_entries) (entry cmap h) pl_colorscale.

(** What a call returns or raises. *)
Definition call {A} (m : M A) : Exn + A := (m tt).1.

(** Channel [i] of the colour at [x], as the function converts it. *)
Definition channel (cmap : Q -> list Q) (x : Q) (i : nat) : Z :=
  np_uint8 (fmul (default 0%Q (cmap x !! i)) 255).

(** The entry the function computes for the step [k] of width [h]. *)
Definition entry_at (cmap : Q -> list Q) (h : Q) (k : Z) : Q * string :=
  let x := fmul (inject_Z k) h in
  (x, rgb (channel cmap x 0) (channel cmap x 1) (channel cmap x 2)).

End Scale.

(** For running the function: a colour map whose red rises with [x], whose
    green falls, whose blue is constant and whose alpha is 1; and an
    arithmetic without rounding, whose conversion drops the fraction and
    keeps the last eight bits. *)
Definition ramp (x : Q) : list Q := [x; (1 - x)%Q; 1 # 2; 1]%Q.

Definition unrounded : Float64 := {|
  fdiv := Qdiv;
  fmul := Qmult;
  np_uint8 := fun x => ((if Qle_bool 0 x then Qfloor x else Qceiling x) mod 256)%Z;
  np_uint8_range := fun x => Z.mod_pos_bound _ 256 eq_refl
|}.

End Colorscale.

(** ** More of numpy: steps, outer products, reshaping *)

Module NpShape.
Import Np.

(** [np.arange(start, stop, step)] for a positive float step:
    [ceil((stop - start)/step)] values. *)
Definition arange_step (start stop step : Q) : list Q :=
  (fun k => (start + inject_Z (Z.of_nat k) * step)%Q)
    <$> seq 0 (Z.to_nat (Qceiling ((stop - start) / step))).

Definition scale (a : Q) (v : list Q) : list Q := (fun x => (a * x)%Q) <$> v.

(** [v[:, np.newaxis] * w]: row [b] is [v[b] * w]. *)
Definition outer (v w : list Q) : Matrix := (fun a => scale a w) <$> v.

(** [first[np.newaxis, :, :] + second[:, np.newaxis, :]]: entry [a][b] is
    [first[b] + second[a]]. *)
Definition add_broadcast (first second : Matrix) : list Matrix :=
  (fun s => (fun f => vec_add f s) <$> first) <$> second.

(** The rows of [l] cut into [n] consecutive pieces of width [d]. *)
Fixpoint pieces {A} (n d : nat) (l : list A) : list (list A) :=
  match n with
  | 0 => []
  | S n' => take d l :: pieces n' d (drop d l)
  end.

(** [a.reshape(-1, d)] on the elements [l] of [a] in storage order: rows of
    width [d]; numpy raises [ValueError] (here: [None]) when [d] is zero or
    does not divide the number of elements. *)
Definition reshape_rows {A} (d : nat) (l : list A) : option (list (list A)) :=
  if decide (d <> 0 /\ length l `mod` d = 0)
  then Some (pieces (length l `div` d) d l)
  else None.

(** [a.reshape((r, c))]: [ValueError] unless there are [r * c] elements. *)
Definition reshape2 {A} (r c : nat) (l : list A) : option (list (list A)) :=
  if decide (length l = r * c) then Some (pieces r c l) else None.

(** [np.min(l)]: [ValueError] on an empty list. *)
Definition np_min (l : list Q) : option Q :=
  match l with
  | [] => None
  | x :: l' => Some (fold_left (fun m y => if Qle_bool m y then m else y) l' x)
  end.

End NpShape.

(** ** plotly figures, as the notebooks build them *)

Module Plotly.

Inductive Exn := GridError | KeyError (k : string).

Record Axis := {
  title : option string;
  showticklabels : option bool;
  range : option (Q * Q);
  zeroline : option bool;
  ticklen : option Q
}.

Definition Axis_new : Axis :=
  {| title := None; showticklabels := None; range := None; zeroline := None;
     ticklen := None |}.

(** The three kinds of trace the kernel-approximation notebook builds:
    - [go.Scatter(x, y, name, mode="lines", line=dict(color, dash))];
    - [go.Contour(x, y, z, line=dict(smoothing), contours=dict(coloring),
       colorscale, opacity, showscale)];
    - [go.Scatter(x, y, mode="markers", showlegend,
       marker=dict(size, color, colorscale, showscale, line=dict(width)))]. *)
Inductive Trace :=
| Lines (x y : list Q) (name : string) (color : string) (dash : option string)
| Contour (x y : list Q) (z : list (list Z)) (smoothing : Q) (coloring : string)
    (colorscale : list (Q * string)) (opacity : Q) (showscale : bool)
| Markers (x y : list Q) (showlegend : bool) (size : Q) (color : list Z)
    (colorscale : list (Q * string)) (showscale : bool) (width : Q).

(** A figure made by [tools.make_subplots]: the grid, the titles, the traces
    with the cell each was appended to, and the layout. *)
Record Figure := {
  rows : nat;
  cols : nat;
  subplot_titles : list string;
  data : list (Trace * nat * nat);
  height : option Q;
  axes : gmap string Axis
}.

(** ['xaxis' + str(i)] *)
Definition xaxis (i : nat) : string := "xaxis" +:+ pretty i.
Definition yaxis (i : nat) : string := "yaxis" +:+ pretty i.

(** [tools.make_subplots(rows, cols, subplot_titles)]: one pair of axes
    per cell of the grid, numbered from 1. *)
Definition make_subplots (rows cols : nat) (titles : list string) : Figure :=
  {| rows := rows; cols := cols; subplot_titles := titles; data := [];
     height := None;
     axes := list_to_map
       (((fun i => (xaxis i, Axis_new)) <$> seq 1 (rows * cols)) ++
        ((fun i => (yaxis i, Axis_new)) <$> seq 1 (rows * cols))) |}.

(** [fig.append_trace(trace, row, col)]: refused outside the grid. *)
Definition append_trace (t : Trace) (row col : nat) (fig : Figure) : Exn + Figure :=
  if decide (1 <= row <= rows fig /\ 1 <= col <= cols fig)
  then inr {| rows := rows fig; cols := cols fig;
              subplot_titles := subplot_titles fig;
              data := data fig ++ [(t, row, col)];
              height := height fig; axes := axes fig |}
  else inl GridError.

(** [fig['layout'].update(height=h)] *)
Definition update_height (h : Q) (fig : Figure) : Figure :=
  {| rows := rows fig; cols := cols fig; subplot_titles := subplot_titles fig;
     data := data fig; height := Some h; axes := axes fig |}.

(** [fig['layout'][name].update(...)]: the axis must exist. *)
Definition update_axis (name : string) (f : Axis -> Axis) (fig : Figure)
    : Exn + Figure :=
  match axes fig !! name with
  | Some a =>
      inr {| rows := rows fig; cols := cols fig;
             subplot_titles := subplot_titles fig; data := data fig;
             height := height fig; axes := <[name := f a]> (axes fig) |}
  | None => inl (KeyError name)
  end.

(** The cell each trace was appended to, and the [z] of the contours with
    their cells, in the order of [data]. *)
Definition cells (fig : Figure) : list (nat * nat) :=
  (fun t => (t.1.2, t.2)) <$> data fig.
Definition contours (fig : Figure) : list (list (list Z) * nat * nat) :=
  omap (fun t => match t.1.1 with
                 | Contour _ _ z _ _ _ _ _ => Some (z, t.1.2, t.2)
                 | _ => None
                 end) (data fig).

(** The lengths of the coordinate lists of a trace agree: one [y] per [x]
    for a line or for markers, one row of [z] per [y] and one entry per [x]
    in each row for a contour. *)
Definition aligned (t : Trace) : Prop :=
  match t with
  | Lines x y _ _ _ => length x = length y
  | Contour x y z _ _ _ _ _ =>
      length z = length y /\ Forall (fun r => length r = length x) z
  | Markers x y _ _ color _ _ _ => length x = length y
  end.

End Plotly.

(** ** The kernel-approximation notebook: the two figures *)

Module KernelPlots.
Import Np NpShape Py KernelApprox.

(** What the plotting cells use of the libraries beyond the calculations
    cell: [PCA], the classifiers' [predict] and matplotlib's [Paired]
    colour map. *)
Class Plotting `{Sklearn} := {
  Pca : Type;
  (** [PCA(n_components=k).fit(X)], [random_state=None] *)
  pca_fit : nat -> Matrix -> Rng -> Pca * Rng;
  pca_components_ : Pca -> Matrix;
  pca_transform : Pca -> Matrix -> Matrix;
  liblinear_predict : Coef -> Matrix -> list Z;
  libsvm_predict : Support -> Matrix -> list Z;
  (** [plt.cm.Paired] *)
  Paired : Q -> list Q
}.

Section Figures.
Context `{Plotting} `{Colorscale.Float64}.
Variable digits : Bunch.

Inductive Exn :=
| Estimator (e : KernelApprox.Exn)
| Color (e : Colorscale.Exn)
| Figure (e : Plotly.Exn)
| IndexError
| ValueError.

Definition M : Type -> Type := Eff World Exn.

(** Calls into the code of the other cells and of plotly. *)
Definition estimator {A} (m : KernelApprox.M A) : M A :=
  fun w => match m w with
           | (inr a, w') => (inr a, w')
           | (inl e, w') => (inl (Estimator e), w')
           end.
Definition color {A} (m : Colorscale.M A) : M A :=
  fun w => match Colorscale.call m with
           | inr a => (inr a, w)
           | inl e => (inl (Color e), w)
           end.
Definition figure {A} (r : Plotly.Exn + A) : M A :=
  fun w => match r with
           | inr a => (inr a, w)
           | inl e => (inl (Figure e), w)
           end.
Definition value {A} (e : Exn) (o : option A) : M A :=
  match o with Some a => ret a | None => raise e end.

(** [l[i]]: a negative index counts from the end. *)
Definition item {A} (l : list A) (i : Z) : M A :=
  let j := if (i <? 0)%Z then (Z.of_nat (length l) + i)%Z else i in
  if (j <? 0)%Z then raise IndexError else value IndexError (l !! Z.to_nat j).

(** [X[:, j]] *)
Definition column (X : Matrix) (j : nat) : M (list Q) :=
  value IndexError (mapM (fun row => row !! j) X).

(** The variables of the calculations cell that the plotting cells read. *)
Record Session := {
  kernel_svm : SVC;
  linear_svm : LinearSVC;
  results : Results
}.

(** The calculations cell, keeping its classifier objects. *)
Definition calculations_cell : KernelApprox.M Session :=
  let kernel_svm := SVC_new (2 # 10) in
  let linear_svm := LinearSVC_new in
  kernel_svm_time <- time ;;
  kernel_svm <- SVC_fit kernel_svm (data_train digits) (targets_train digits) ;;
  kernel_svm_score <- SVC_score kernel_svm (data_test digits) (targets_test digits) ;;
  now <- time ;;
  let kernel_svm_time := (now - kernel_svm_time)%Q in
  linear_svm_time <- time ;;
  linear_svm <- LinearSVC_fit linear_svm (data_train digits) (targets_train digits) ;;
  linear_svm_score <-
    LinearSVC_score linear_svm (data_test digits) (targets_test digits) ;;
  now <- time ;;
  let linear_svm_time := (now - linear_svm_time)%Q in
  v <- sweep digits ;;
  ret {| kernel_svm := kernel_svm;
         linear_svm := linear_svm;
         results := {| kernel_svm_score := kernel_svm_score;
                       kernel_svm_time := kernel_svm_time;
                       linear_svm_score := linear_svm_score;
                       linear_svm_time := linear_svm_time;
                       sweep_vars := v |} |}.

(** *** The accuracy and timing figure *)

Definition set_title (t : string) (a : Plotly.Axis) : Plotly.Axis :=
  {| Plotly.title := Some t; Plotly.showticklabels := Plotly.showticklabels a;
     Plotly.range := Plotly.range a; Plotly.zeroline := Plotly.zeroline a;
     Plotly.ticklen := Plotly.ticklen a |}.
Definition set_showticklabels (b : bool) (a : Plotly.Axis) : Plotly.Axis :=
  {| Plotly.title := Plotly.title a; Plotly.showticklabels := Some b;
     Plotly.range := Plotly.range a; Plotly.zeroline := Plotly.zeroline a;
     Plotly.ticklen := Plotly.ticklen a |}.
Definition set_range (lo hi : Q) (a : Plotly.Axis) : Plotly.Axis :=
  {| Plotly.title := Plotly.title a; Plotly.showticklabels := Plotly.showticklabels a;
     Plotly.range := Some (lo, hi); Plotly.zeroline := Plotly.zeroline a;
     Plotly.ticklen := Plotly.ticklen a |}.
Definition set_zeroline (b : bool) (a : Plotly.Axis) : Plotly.Axis :=
  {| Plotly.title := Plotly.title a; Plotly.showticklabels := Plotly.showticklabels a;
     Plotly.range := Plotly.range a; Plotly.zeroline := Some b;
     Plotly.ticklen := Plotly.ticklen a |}.
Definition set_ticklen (l : Q) (a : Plotly.Axis) : Plotly.Axis :=
  {| Plotly.title := Plotly.title a; Plotly.showticklabels := Plotly.showticklabels a;
     Plotly.range := Plotly.range a; Plotly.zeroline := Plotly.zeroline a;
     Plotly.ticklen := Some l |}.

(** [for i in traces: fig.append_trace(i, row, col)] *)
Definition append_traces (traces : list Plotly.Trace) (row col : nat)
    (fig : Plotly.Figure) : M Plotly.Figure :=
  for_ traces (fun i fig => figure (Plotly.append_trace i row col fig)) fig.

(** The cell that draws accuracy and training time against the sample
    size, up to the call that sends the figure to the plotting service. *)
Definition accuracy_figure (s : Session) : M Plotly.Figure :=
  let r := results s in
  let v := sweep_vars r in
  let sample_sizes := (fun D => inject_Z (Z.of_nat D)) <$> sample_sizes in
  let fig := Plotly.make_subplots 2 1 ["Classification accuracy"; "Training times"] in
  let accuracy_trace1 :=
    Plotly.Lines sample_sizes (nystroem_scores v) "Nystroem approx. kernel"
      "rgb(65,105,255)" None in
  let timescale_trace1 :=
    Plotly.Lines sample_sizes (nystroem_times v) "Nystroem approx. kernel"
      "rgb(65,105,255)" (Some "dash") in
  let accuracy_trace2 :=
    Plotly.Lines sample_sizes (fourier_scores v) "Fourier approx. kernel"
      "green" None in
  let timescale_trace2 :=
    Plotly.Lines sample_sizes (fourier_times v) "Fourier approx. kernel"
      "green" (Some "dash") in
  x0 <- item sample_sizes 0 ;; x1 <- item sample_sizes (-1) ;;
  let accuracy_trace3 :=
    Plotly.Lines [x0; x1] [linear_svm_score r; linear_svm_score r] "linear svm"
      "red" None in
  x0 <- item sample_sizes 0 ;; x1 <- item sample_sizes (-1) ;;
  let timescale_trace3 :=
    Plotly.Lines [x0; x1] [linear_svm_time r; linear_svm_time r] "linear svm"
      "red" (Some "dash") in
  x0 <- item sample_sizes 0 ;; x1 <- item sample_sizes (-1) ;;
  let accuracy_trace4 :=
    Plotly.Lines [x0; x1] [kernel_svm_score r; kernel_svm_score r] "rbf svm"
      "rgb(135,206,235)" None in
  x0 <- item sample_sizes 0 ;; x1 <- item sample_sizes (-1) ;;
  let timescale_trace4 :=
    Plotly.Lines [x0; x1] [kernel_svm_time r; kernel_svm_time r] "rbf svm"
      "rgb(135,206,235)" (Some "dash") in
  let accuracy_trace5 :=
    Plotly.Lines [64; 64]%Q [7 # 10; 1]%Q "n_features" "rgb(138,43,238)" None in
  fig <- append_traces [accuracy_trace1; accuracy_trace2; accuracy_trace3;
                        accuracy_trace4; accuracy_trace5] 1 1 fig ;;
  fig <- append_traces [timescale_trace1; timescale_trace2; timescale_trace3;
                        timescale_trace4] 2 1 fig ;;
  let fig := Plotly.update_height 900 fig in
  x0 <- item sample_sizes 0 ;; x1 <- item sample_sizes (-1) ;;
  fig <- figure (Plotly.update_axis "xaxis1"
           (fun a => set_range x0 x1 (set_showticklabels false a)) fig) ;;
  lo <- value ValueError (np_min (fourier_scores v)) ;;
  fig <- figure (Plotly.update_axis "yaxis1"
           (fun a => set_range lo 1 (set_title "Classification accuracy" a)) fig) ;;
  fig <- figure (Plotly.update_axis "xaxis2"
           (set_title "Sampling steps = transformed feature dimension") fig) ;;
  fig <- figure (Plotly.update_axis "yaxis2"
           (set_title "Training time in seconds") fig) ;;
  ret fig.

(** *** The decision surfaces *)

(** [clf.predict(X)] for the classifiers of the notebook. *)
Definition SVC_predict (m : SVC) (X : Matrix) : KernelApprox.M (list Z) :=
  match support_ m with
  | Some s => ret (libsvm_predict s X)
  | None => raise NotFittedError
  end.
Definition LinearSVC_predict (m : LinearSVC) (X : Matrix) : KernelApprox.M (list Z) :=
  match coef_ m with
  | Some c => ret (liblinear_predict c X)
  | None => raise NotFittedError
  end.
Definition Pipeline_predict (p : Pipeline) (X : Matrix) : KernelApprox.M (list Z) :=
  Xt <- FeatureMap_transform (feature_map p) X ;;
  LinearSVC_predict (svm p) Xt.

Inductive Classifier := Kernel (m : SVC) | Approx (p : Pipeline).

Definition predict (clf : Classifier) (X : Matrix) : KernelApprox.M (list Z) :=
  match clf with
  | Kernel m => SVC_predict m X
  | Approx p => Pipeline_predict p X
  end.

(** [np.arange(-2, 2, 0.1)] *)
Definition multiples : list Q := arange_step (-2) 2 (1 # 10).

(** The body of [for i, clf in enumerate(...)]: the two lists grow by the
    contour of the classifier's predictions over the grid and by the
    training points. *)
Definition surface_body (grid : list Matrix) (flat_grid X : Matrix)
    (clf : Classifier) (lists : list Plotly.Trace * list Plotly.Trace)
    : M (list Plotly.Trace * list Plotly.Trace) :=
  let (contour_list, scatter_list) := lists in
  Z <- estimator (predict clf flat_grid) ;;
  Z <- value ValueError (reshape2 (length grid) (length (hd [] grid)) Z) ;;
  colorscale <- color (Colorscale.matplotlib_to_plotly Paired 300) ;;
  let trace1 :=
    Plotly.Contour multiples multiples Z (85 # 100) "heatmap" colorscale
      (7 # 10) false in
  let contour_list := contour_list ++ [trace1] in
  x <- column X 0 ;; y <- column X 1 ;;
  colorscale <- color (Colorscale.matplotlib_to_plotly Paired 300) ;;
  let trace2 :=
    Plotly.Markers x y false 8 (targets_train digits) colorscale false 1 in
  let scatter_list := scatter_list ++ [trace2] in
  ret (contour_list, scatter_list).

(** [for i in range(0,3):] the contour and the training points of
    classifier [i] go to column [i+1]. *)
Definition append_surfaces (contour_list scatter_list : list Plotly.Trace)
    (fig1 : Plotly.Figure) : M Plotly.Figure :=
  for_ (seq 0 3) (fun i fig1 =>
    c <- item contour_list (Z.of_nat i) ;;
    fig1 <- figure (Plotly.append_trace c 1 (i + 1) fig1) ;;
    t <- item scatter_list (Z.of_nat i) ;;
    figure (Plotly.append_trace t 1 (i + 1) fig1)) fig1.

(** [for i in range(1,4):] both axes of subplot [i] lose their ticks and
    get the range of the grid. *)
Definition hide_axes (fig1 : Plotly.Figure) : M Plotly.Figure :=
  for_ (seq 1 3) (fun i fig1 =>
    let x := Plotly.xaxis i in
    let y := Plotly.yaxis i in
    let update a :=
      set_ticklen 0 (set_zeroline false
        (set_range (-2) (18 # 10) (set_showticklabels false a))) in
    fig1 <- figure (Plotly.update_axis x update fig1) ;;
    figure (Plotly.update_axis y update fig1)) fig1.

(** The cell that draws the three decision surfaces, up to the call that
    sends the figure to the plotting service. *)
Definition surface_figure (s : Session) : M Plotly.Figure :=
  let v := sweep_vars (results s) in
  let fig1 := Plotly.make_subplots 1 3
    ["SVC with rbf kernel";
     "SVC (linear kernel)<br> with Fourier rbf feature map<br>" +:+
       "n_components=100";
     "SVC (linear kernel)<br> with Nystroem rbf feature map<br>" +:+
       "n_components=100"] in
  pca <- estimator (with_random_state None (pca_fit 8 (data_train digits))) ;;
  let X := pca_transform pca (data_train digits) in
  pc0 <- item (pca_components_ pca) 0 ;;
  let first := outer multiples pc0 in
  pc1 <- item (pca_components_ pca) 1 ;;
  let second := outer multiples pc1 in
  let grid := add_broadcast first second in
  flat_grid <- value ValueError
    (reshape_rows (ncols (data digits)) (concat (concat grid))) ;;
  lists <- for_ [Kernel (kernel_svm s); Approx (nystroem_approx_svm v);
                 Approx (fourier_approx_svm v)]
             (surface_body grid flat_grid X) ([], []) ;;
  let (contour_list, scatter_list) := lists : list Plotly.Trace * list Plotly.Trace in
  fig1 <- append_surfaces contour_list scatter_list fig1 ;;
  fig1 <- hide_axes fig1 ;;
  ret fig1.

(** *** What the libraries promise *)

(** [f] maps a matrix row by row, as [g] maps a row. *)
Definition row_wise {A B} (f : list A -> list B) (g : A -> B) : Prop :=
  forall X, f X = g <$> X.

(** The label a fitted support-vector machine gives one sample, the label
    a fitted linear classifier gives one sample, and the features a fitted
    map gives one sample. *)
Variable ker : Support -> list Q -> Z.
Variable lin : Coef -> list Q -> Z.
Variable phi : FittedMap -> list Q -> list Q.

(** The predictions and the transformation go row by row; the colour map
    yields at least red, green and blue; the data has a column; and the
    fitted [PCA] has at least two principal axes, each with one coordinate
    per column of the data, and projects every sample to at least two
    coordinates. *)
Definition contract : Prop :=
  (forall s, row_wise (libsvm_predict s) (ker s)) /\
  (forall c, row_wise (liblinear_predict c) (lin c)) /\
  (forall F, row_wise (sampler_transform F) (phi F)) /\
  (forall x, 3 <= length (Paired x)) /\
  0 < ncols (data digits) /\
  (forall r,
     let pca := (pca_fit 8 (data_train digits) r).1 in
     2 <= length (pca_components_ pca) /\
     Forall (fun pc => length pc = ncols (data digits)) (pca_components_ pca) /\
     Forall (fun x => 2 <= length x) (pca_transform pca (data_train digits))).

(** The label a classifier gives one sample, once it is fitted. *)
Definition label (clf : Classifier) : option (list Q -> Z) :=
  match clf with
  | Kernel m => ker <$> support_ m
  | Approx p =>
      match fitted (feature_map p), coef_ (svm p) with
      | Some F, Some c => Some (fun x => lin c (phi F x))
      | _, _ => None
      end
  end.

(** The colour scale every trace of the figure carries, and coordinate [j]
    of the projected samples. *)
Definition paired_scale : list (Q * string) :=
  Colorscale.entry_at Paired (Colorscale.fdiv 1 (inject_Z (300 - 1)))
    <$> Colorscale.range 300.
Definition coordinate (j : nat) (X : Matrix) : list Q :=
  (fun row => default 0%Q (row !! j)) <$> X.

(** The labels [g] gives over the grid that [pc0] and [pc1] span: entry
    [a][b] is the label of [multiples[b] * pc0 + multiples[a] * pc1]. *)
Definition surface (pc0 pc1 : list Q) (g : list Q -> Z) : list (list Z) :=
  (fun ya => (fun xb => g (vec_add (scale xb pc0) (scale ya pc1))) <$> multiples)
    <$> multiples.

End Figures.

(** An instance for running the cells, over [KernelApprox.toy]: the
    principal axes are the first rows of the unit matrix repeated, a sample
    is projected by padding it, and a label is the integer part of the sum
    of a row, shifted by the classifier. *)
Definition total (row : list Q) : Q := foldr Qplus 0%Q row.

#[local] Existing Instance toy.

Definition toy_plotting : Plotting := {|
  Pca := nat;
  pca_fit := fun k X r => (ncols X, S r);
  pca_components_ := fun d => (fun i => (fun j => if decide (i `mod` d = j) then 1%Q else 0%Q) <$> seq 0 d) <$> seq 0 8;
  pca_transform := fun _ X => (fun row => take 8 (row ++ replicate 8 0%Q)) <$> X;
  liblinear_predict := fun (c : nat) X => (fun row => (Z.of_nat c + Qfloor (total row))%Z) <$> X;
  libsvm_predict := fun (s : nat) X => (fun row => (Z.of_nat s + Qfloor (total row))%Z) <$> X;
  Paired := Colorscale.ramp
|}.

Definition toy_ker (s : nat) (row : list Q) : Z := (Z.of_nat s + Qfloor (total row))%Z.
Definition toy_lin (c : nat) (row : list Q) : Z := (Z.of_nat c + Qfloor (total row))%Z.
Definition toy_phi (F : nat * nat) (row : list Q) : list Q :=
  map (fun x => (x + inject_Z (Z.of_nat (F.1 + F.2)))%Q) row.

End KernelPlots.

(** ** Names bound before they are read *)

Module Binding.
Import Script.

Section Keeps.
Context {Value Err : Type}.

(** Every name of [A] is bound in [ns]. *)
Definition binds (ns : gmap string Value) (A : list string) : Prop :=
  forall x, x ∈ A -> is_Some (ns !! x).

(** What a piece of a run keeps when it is entered with the names [bound]
    bound and with what it needs bound as well: it does not end with a
    [NameError], it unbinds nothing, and when it returns the names
    [bound'] are bound. *)
Definition keeps (needs_ bound bound' : list string)
    (run_ : state Value Err -> option (exn Err) * state Value Err) : Prop :=
  forall st,
    binds (names st) bound -> binds (names st) needs_ ->
    (forall x, (run_ st).1 <> Some (NameError x)) /\
    (forall x, is_Some (names st !! x) -> is_Some (names (run_ st).2 !! x)) /\
    ((run_ st).1 = None -> binds (names (run_ st).2) bound').

End Keeps.

End Binding.

(** ** The covariance notebook: what numpy's generators promise *)

Module CovarianceData.
Import Np Py Covariance.

Section Contract.
Context `{Libs}.


(** [pure_X = X[inliers_mask]] *)
Definition pure_X (s : Sample) : Matrix := select (X s) (inliers_mask s).

(** [a[i, j]] *)
Definition entry (a : Matrix) (i j : nat) : option Q := a !! i ≫= (.!! j).

(** Cell [i, j] of the six result arrays, in the order of the record. *)
Definition cells (e : Errors) (i j : nat) : list (option Q) :=
  [entry (err_loc_mcd e) i j; entry (err_cov_mcd e) i j;
   entry (err_loc_emp_full e) i j; entry (err_cov_emp_full e) i j;
   entry (err_loc_emp_pure e) i j; entry (err_cov_emp_pure e) i j].

(** The six errors measured on a sample and on the robust estimator fitted
    to it. *)
Definition measured (s : Sample) (mcd : Mcd) : list (option Q) :=
  [Some (sum_sq (mcd_location_ mcd));
   Some (mcd_error_norm mcd (eye n_features));
   Some (sum_sq (mean_axis0 (X s)));
   Some (emp_error_norm (emp_fit (X s)) (eye n_features));
   Some (sum_sq (mean_axis0 (pure_X s)));
   Some (emp_error_norm (emp_fit (pure_X s)) (eye n_features))].

(** Cell [i, j] holds what an iteration at level [i] with [n_outliers]
    outliers and repetition [j] measured, entered in some state of the
    global stream. *)
Definition written (e : Errors) (i : nat) (n_outliers : Q) (j : nat) : Prop :=
  exists g s g1 mcd g2,
    generate i n_outliers j g = (inr s, g1) /\
    mcd_fit (X s) g1 = (mcd, g2) /\
    cells e i j = measured s mcd.

(** All six arrays have [r] rows of [c] entries. *)
Definition shaped (r c : nat) (e : Errors) : Prop :=
  Forall (fun a : Matrix => length a = r /\ Forall (fun row => length row = c) a)
    [err_loc_mcd e; err_cov_mcd e; err_loc_emp_full e; err_cov_emp_full e;
     err_loc_emp_pure e; err_cov_emp_pure e].


End Contract.

End CovarianceData.

(** ** The covariance notebook: the two figures *)

Module CovariancePlots.
Import Np Covariance.

(** [np.std] of one row and [np.sqrt]: real-valued, so left to numpy. *)
Class Floats := { std : list Q -> Q; sqrt : Q -> Q }.

(** [error_y=dict(visible=..., arrayminus=...)] *)
Record ErrorY := { visible : bool; arrayminus : list Q }.

(** [go.Scatter(x, y, error_y, name, mode, line=dict(color, dash),
    showlegend)] *)
Record Scatter := {
  x : list Q;
  y : list Q;
  error_y : option ErrorY;
  name : string;
  mode : string;
  color : string;
  dash : option string;
  showlegend : option bool
}.

(** [go.Layout(title, yaxis=dict(title), xaxis=dict(title))] *)
Record Layout := { title : string; yaxis : string; xaxis : string }.

(** [go.Figure(data, layout)] *)
Record Figure := { data : list Scatter; layout : Layout }.

Section Cells.
Context `{Floats}.

(** [a.mean(1)] and [a.std(1)]: one number per row. *)
Definition mean1 (a : Matrix) : list Q :=
  (fun row => (foldr Qplus 0 row / inject_Z (Z.of_nat (length row)))%Q) <$> a.
Definition std1 (a : Matrix) : list Q := std <$> a.

(** The cell "Influence of outliers on the location estimation". *)
Definition location_figure (e : Errors) : Figure :=
  let sqrt_repeat := sqrt (inject_Z (Z.of_nat repeat_)) in
  let robust_location :=
    {| x := range_n_outliers; y := mean1 (err_loc_mcd e);
       error_y := Some {| visible := true;
                          arrayminus := (fun s => (s / sqrt_repeat)%Q)
                                          <$> std1 (err_loc_mcd e) |};
       name := "Robust location"; mode := "lines"; color := "magenta";
       dash := None; showlegend := None |} in
  let full_data_set_mean :=
    {| x := range_n_outliers; y := mean1 (err_loc_emp_full e);
       error_y := Some {| visible := true;
                          arrayminus := (fun s => (s / sqrt_repeat)%Q)
                                          <$> std1 (err_loc_emp_full e) |};
       name := "Full data set mean"; mode := "lines"; color := "green";
       dash := None; showlegend := None |} in
  let pure_data_set_mean :=
    {| x := range_n_outliers; y := mean1 (err_loc_emp_pure e);
       error_y := Some {| visible := true;
                          arrayminus := (fun s => (s / sqrt_repeat)%Q)
                                          <$> std1 (err_loc_emp_pure e) |};
       name := "Pure data set mean"; mode := "lines"; color := "black";
       dash := None; showlegend := None |} in
  let layout :=
    {| title := "Influence of outliers on the location estimation";
       yaxis := "Error"; xaxis := "Amount of contamination (%)" |} in
  {| data := [robust_location; pure_data_set_mean; full_data_set_mean];
     layout := layout |}.

(** The cell "Influence of outliers on the covariance estimation". *)
Definition covariance_figure (e : Errors) : Figure :=
  let x_size := length range_n_outliers in
  let robust_covariance :=
    {| x := range_n_outliers; y := mean1 (err_cov_mcd e);
       error_y := Some {| visible := true; arrayminus := std1 (err_cov_mcd e) |};
       name := "Robust covariance (mcd)"; mode := "lines"; color := "magenta";
       dash := None; showlegend := None |} in
  let full_data_set1 :=
    {| x := slice_to (py2_div x_size 5 + 1) range_n_outliers;
       y := slice_to (py2_div x_size 5 + 1) (mean1 (err_cov_emp_full e));
       error_y := Some {| visible := true;
                          arrayminus := slice_to (py2_div x_size 5 + 1)
                                          (std1 (err_cov_emp_full e)) |};
       name := "Full data set empirical covariance"; mode := "lines";
       color := "green"; dash := None; showlegend := None |} in
  let full_data_set2 :=
    {| x := slice (Z.of_nat (py2_div x_size 5)) (Z.of_nat (py2_div x_size 2) - 1)
              range_n_outliers;
       y := slice (Z.of_nat (py2_div x_size 5)) (Z.of_nat (py2_div x_size 2) - 1)
              (mean1 (err_cov_emp_full e));
       error_y := None;
       name := "Full data set empirical covariance"; mode := "lines";
       color := "green"; dash := Some "dash"; showlegend := Some false |} in
  let pure_data_set :=
    {| x := range_n_outliers; y := mean1 (err_cov_emp_pure e);
       error_y := Some {| visible := true;
                          arrayminus := std1 (err_cov_emp_pure e) |};
       name := "Pure data set empirical covariance"; mode := "lines";
       color := "black"; dash := None; showlegend := None |} in
  let layout :=
    {| title := "Influence of outliers on the covariance estimation";
       yaxis := "RMSE"; xaxis := "Amount of contamination (%)" |} in
  {| data := [robust_covariance; full_data_set1; full_data_set2; pure_data_set];
     layout := layout |}.

(** One [y], and one error bar where there are any, per [x]. *)
Definition aligned (t : Scatter) : Prop :=
  length (y t) = length (x t) /\
  match error_y t with
  | Some err => length (arrayminus err) = length (x t)
  | None => True
  end.

End Cells.

(** For running the cells: the spread of a row is its first entry, the
    root of a number its integer part. *)
Definition toy_floats : Floats := {|
  std := fun row => hd 0%Q row;
  sqrt := fun q => inject_Z (Z.sqrt (Qfloor q))
|}.

End CovariancePlots.

(** ** What the libraries answered, and what the notebooks recorded *)

Module Answers.
Import Script.

Section Faithful.
Context {Value Err : Type}.
Variable oracle : Oracle Value Err.




End Faithful.




End Answers.

(** * Properties *)

(** ** Kernel-approximation notebook *)

Section KernelApproxFacts.
Import Np Py KernelApprox.

Lemma length_data (digits : Bunch) : length (data digits) = n_samples digits.
Proof.
  unfold data, n_samples, sub_rows, div_scalar.
  by rewrite !length_map.
Qed.

(** C9: the split cuts the centred data and the labels at [n_samples / 2]
    (floor division): the training part is the first [n / 2] rows, the test
    part the rest; the two parts concatenate to the whole, and row [i] of
    the data is row [i] of the training part when [i < n / 2] and row
    [i - n / 2] of the test part otherwise. *)
Theorem train_test_split_partitions (digits : Bunch) :
  let n := n_samples digits in
  let h := n / 2 in
  (2 * h <= n < 2 * h + 2) /\
  data_train digits = take h (data digits) /\
  data_test digits = drop h (data digits) /\
  targets_train digits = take h (target digits) /\
  targets_test digits = drop h (target digits) /\
  data_train digits ++ data_test digits = data digits /\
  targets_train digits ++ targets_test digits = target digits /\
  length (data_train digits) = h /\
  length (data_test digits) = n - h /\
  (forall i, data digits !! i =
     if decide (i < h) then data_train digits !! i
     else data_test digits !! (i - h)) /\
  (forall i, target digits !! i =
     if decide (i < h) then targets_train digits !! i
     else targets_test digits !! (i - h)).
Proof.
  intros n h.
  assert (Hh : 2 * h <= n < 2 * h + 2).
  { subst h. pose proof (Nat.div_mod_eq n 2) as E.
    pose proof (Nat.mod_upper_bound n 2). lia. }
  assert (Hlen : length (data digits) = n) by apply length_data.
  unfold data_train, data_test, targets_train, targets_test,
    slice_to, slice_from, py2_div.
  fold n. fold h.
  repeat split; try lia; try reflexivity.
  - apply take_drop.
  - apply take_drop.
  - rewrite length_take. lia.
  - rewrite length_drop. lia.
  - intros i. case_decide.
    + by rewrite lookup_take_lt.
    + rewrite lookup_drop. f_equal. lia.
  - intros i. case_decide.
    + by rewrite lookup_take_lt.
    + rewrite lookup_drop. f_equal. lia.
Qed.

(** On five samples the training half is the first two rows. *)
Example split_of_five :
  n_samples five_digits = 5 /\
  map (map Qred) (data_train five_digits) =
    [[-1 # 2; 1 # 2]; [1 # 2; -1 # 2]]%Q /\
  map (map Qred) (data_test five_digits) =
    [[1 # 2; 1 # 2]; [-1 # 2; -1 # 2]; [0; 0]]%Q /\
  targets_train five_digits = [0; 1]%Z /\
  targets_test five_digits = [2; 3; 4]%Z.
Proof.
  split_and!; by vm_compute.
Qed.

Section Sweep.
Context `{Sklearn}.
Variable digits : Bunch.

Lemma sweep_init_inv : sweep_inv sweep_init.
Proof. repeat split. Qed.

Lemma vars_after_iter_inv D v w : sweep_inv (vars_after_iter digits D v w).
Proof. repeat split. Qed.

Lemma sweep_body_spec D v w :
  sweep_inv v ->
  sweep_body digits D v w =
    (inr (vars_after_iter digits D v w), world_after_iter digits D w).
Proof.
  destruct v as [[[fk fg fn fs ff] [fr fc]] [[nk ng nn ns nf] [nr nc]] fsc nsc fti nti].
  unfold sweep_inv; simpl. intros (-> & -> & -> & -> & -> & -> & -> & ->).
  destruct w as [c g].
  unfold sweep_body, vars_after_iter, world_after_iter, bind, ret, time,
    Pipeline_fit, Pipeline_score, FeatureMap_fit, FeatureMap_transform,
    LinearSVC_fit, LinearSVC_score, with_random_state, set_params, bind, ret,
    fourier_score_at, nystroem_score_at, fourier_time_at, nystroem_time_at,
    fourier_coef_at, nystroem_coef_at, pipeline_at, features_at, feature_map_at,
    reading, clock_after.
  simpl.
  destruct (read_clock c) as [t0 c0] eqn:E0; simpl.
  destruct (liblinear_fit _ _ g) as [cn g1] eqn:E1; simpl.
  destruct (read_clock c0) as [t1 c1] eqn:E2; simpl.
  destruct (read_clock c1) as [t2 c2] eqn:E3; simpl.
  destruct (liblinear_fit _ _ g1) as [cf g2] eqn:E4; simpl.
  destruct (read_clock c2) as [t3 c3] eqn:E5; simpl.
  reflexivity.
Qed.

Lemma for_sweep_body l : forall v w,
  sweep_inv v ->
  for_ l (sweep_body digits) v w =
    (inr (vars_after digits l v w), world_after digits l w).
Proof.
  induction l as [|D l IH]; intros v w Hv; simpl.
  - reflexivity.
  - unfold bind. rewrite sweep_body_spec by done.
    apply IH, vars_after_iter_inv.
Qed.

Lemma vars_after_snoc l D : forall v w,
  vars_after digits (l ++ [D]) v w =
    vars_after_iter digits D (vars_after digits l v w) (world_after digits l w).
Proof.
  induction l as [|E l IH]; intros v w; simpl; [done|].
  by rewrite IH.
Qed.

(** A list the loop appends to holds, after the iterations over [l], its
    old entries followed by one entry per size, computed in the world in
    which that iteration started. *)
Lemma vars_after_log {A} (field : Vars -> list A) (entry : nat -> World -> A) l :
  (forall D v w, field (vars_after_iter digits D v w) = field v ++ [entry D w]) ->
  forall v w,
  field (vars_after digits l v w) =
    field v ++ imap (fun i D => entry D (world_after digits (take i l) w)) l.
Proof.
  intros Hstep. induction l as [|D l IH]; intros v w; simpl.
  - by rewrite app_nil_r.
  - rewrite IH, Hstep, <- app_assoc. simpl. do 2 f_equal.
Qed.

Lemma sweep_upto_spec k w :
  sweep_upto digits k w =
    (inr (vars_after digits (take k sample_sizes) sweep_init w),
     world_before digits k w).
Proof. apply for_sweep_body, sweep_init_inv. Qed.

Lemma sweep_spec w :
  sweep digits w =
    (inr (vars_after digits sample_sizes sweep_init w), world_before digits 9 w).
Proof. apply (sweep_upto_spec 9). Qed.

(** The pipelines after [k] iterations: untouched when [k = 0], otherwise
    what the last of these iterations left. *)
Lemma pipelines_after l v w :
  fourier_approx_svm (vars_after digits l v w) =
    match last l with
    | None => fourier_approx_svm v
    | Some D => pipeline_at digits RBF D
        (fst (fourier_coef_at digits D (world_after digits (removelast l) w)))
    end /\
  nystroem_approx_svm (vars_after digits l v w) =
    match last l with
    | None => nystroem_approx_svm v
    | Some D => pipeline_at digits Nys D
        (fst (nystroem_coef_at digits D (world_after digits (removelast l) w)))
    end.
Proof.
  destruct l as [|D l _] using rev_ind; [done|].
  rewrite vars_after_snoc, last_snoc, removelast_last. done.
Qed.

End Sweep.

(** C2: [sample_sizes] is 30, 60, ..., 270; the loop runs to its end without
    raising; after iteration [i] both pipelines carry
    [n_components = sample_sizes[i]] and a feature map fitted at that size;
    each of the four lists ends with nine entries, entry [i] being the
    score or time measured in iteration [i]. *)
Theorem sweep_nine_entries `{Sklearn} (digits : Bunch) (w : World) :
  sample_sizes = [30; 60; 90; 120; 150; 180; 210; 240; 270] /\
  (exists v,
    sweep digits w = (inr v, world_before digits 9 w) /\
    fourier_scores v =
      imap (fun i D => fourier_score_at digits D (world_before digits i w))
        sample_sizes /\
    nystroem_scores v =
      imap (fun i D => nystroem_score_at digits D (world_before digits i w))
        sample_sizes /\
    fourier_times v =
      imap (fun i D => fourier_time_at (world_before digits i w)) sample_sizes /\
    nystroem_times v =
      imap (fun i D => nystroem_time_at (world_before digits i w)) sample_sizes /\
    length (fourier_scores v) = 9 /\ length (nystroem_scores v) = 9 /\
    length (fourier_times v) = 9 /\ length (nystroem_times v) = 9) /\
  (forall i, exists vi,
    sweep_upto digits (S i) w = (inr vi, world_before digits (S i) w) /\
    match sample_sizes !! i with
    | Some D =>
        n_components (feature_map (fourier_approx_svm vi)) = D /\
        n_components (feature_map (nystroem_approx_svm vi)) = D /\
        fourier_approx_svm vi = pipeline_at digits RBF D
          (fst (fourier_coef_at digits D (world_before digits i w))) /\
        nystroem_approx_svm vi = pipeline_at digits Nys D
          (fst (nystroem_coef_at digits D (world_before digits i w)))
    | None => sweep_upto digits (S i) w = sweep digits w
    end).
Proof.
  split; [reflexivity|]. split.
  - eexists. split; [apply sweep_spec|].
    assert (Hlog : forall A (field : Vars -> list A) entry,
      (forall D v w', field (vars_after_iter digits D v w') = field v ++ [entry D w']) ->
      field sweep_init = [] ->
      field (vars_after digits sample_sizes sweep_init w) =
        imap (fun i D => entry D (world_before digits i w)) sample_sizes).
    { intros A field entry Hstep Hinit.
      rewrite (vars_after_log digits field entry _ Hstep), Hinit. done. }
    rewrite (Hlog _ fourier_scores (fourier_score_at digits)) by done.
    rewrite (Hlog _ nystroem_scores (nystroem_score_at digits)) by done.
    rewrite (Hlog _ fourier_times (fun _ => fourier_time_at)) by done.
    rewrite (Hlog _ nystroem_times (fun _ => nystroem_time_at)) by done.
    rewrite !length_imap. repeat split.
  - intros i. eexists. split; [apply sweep_upto_spec|].
    destruct (sample_sizes !! i) as [D|] eqn:Ei.
    + destruct (pipelines_after digits (take (S i) sample_sizes) sweep_init w)
        as [Hf Hn].
      rewrite (take_S_r _ _ _ Ei) in Hf, Hn |- *.
      rewrite last_snoc, removelast_last in Hf, Hn.
      rewrite Hf, Hn. done.
    + apply lookup_ge_None in Ei.
      unfold sweep_upto, sweep. by rewrite take_ge by lia.
Qed.



(** On the small instance, two runs that start with different clocks and
    different states of the global random stream measure different times
    and scores, and leave the same fitted feature maps. *)
Example sweep_on_toy :
  let w1 := @Build_World toy 0 0 in
  let w2 := @Build_World toy 7 5 in
  match (@sweep toy five_digits w1).1, (@sweep toy five_digits w2).1 with
  | inr v1, inr v2 =>
      Qred <$> fourier_scores v1 = [1; 3; 5; 7; 9; 11; 13; 15; 17]%Q /\
      Qred <$> fourier_scores v2 = [6; 8; 10; 12; 14; 16; 18; 20; 22]%Q /\
      Qred <$> nystroem_times v1 = [1; 1; 1; 1; 1; 1; 1; 1; 1]%Q /\
      fitted (feature_map (fourier_approx_svm v1)) = Some (270, 1) /\
      fitted (feature_map (fourier_approx_svm v2)) = Some (270, 1) /\
      feature_map (nystroem_approx_svm v1) = feature_map (nystroem_approx_svm v2)
  | _, _ => False
  end.
Proof. vm_compute. by split_and!. Qed.

End KernelApproxFacts.

(** ** Covariance notebook *)

Section CovarianceFacts.
Import Np Py Covariance.

Lemma gather_in_range {A} (a : list A) (index : list nat) :
  Forall (fun k => k < length a) index -> is_Some (gather a index).
Proof.
  intros Hi. apply mapM_is_Some. eapply Forall_impl; [exact Hi|].
  intros k Hk. by apply lookup_lt_is_Some.
Qed.

Lemma toy_well_shaped : @well_shaped toy.
Proof.
  split.
  - intros r n m. simpl. apply length_replicate.
  - intros r n. simpl. apply Forall_forall. intros k Hk.
    apply elem_of_rotate, elem_of_seq in Hk. lia.
Qed.

(** What [generate] returns, call by call, for well-shaped libraries. *)
Lemma generate_spec `{Libs} (i : nat) (n_outliers : Q) (j : nat) (g : Rng) :
  well_shaped ->
  let base := randn (RandomState (i * j)) n_samples n_features in
  let perm := permutation base.2 n_samples in
  let draws := randint g 2 (as_index n_outliers) n_features in
  exists s,
    generate i n_outliers j g = (inr s, draws.2) /\
    X_base s = base.1 /\
    permuted s = perm.1 /\
    outliers_index s = take (as_index n_outliers) perm.1 /\
    outliers_offset s = offsets_of draws.1.
Proof.
  intros [Hrandn Hperm]. cbv zeta. unfold generate.
  specialize (Hrandn (RandomState (i * j)) n_samples n_features).
  destruct (randn (RandomState (i * j)) n_samples n_features) as [X0 r0].
  cbn [fst snd] in *.
  specialize (Hperm r0 n_samples).
  destruct (permutation r0 n_samples) as [pm r1].
  unfold bind, np_random.
  destruct (randint g 2 (as_index n_outliers) n_features) as [dr g1].
  cbn [fst snd] in *.
  destruct (gather_in_range X0 (slice_to (as_index n_outliers) pm)) as [rows Hrows].
  { unfold slice_to. apply Forall_take. by rewrite Hrandn. }
  rewrite Hrows. eexists. split; [reflexivity|].
  cbn [X_base permuted outliers_index outliers_offset]. by split_and!.
Qed.

(** C7 as stated fails: levels 1 and 2 both seed their first repetition
    with [1 * 0 = 2 * 0 = 0] and generate the same base matrix, but level 1
    marks 2 rows as outliers and level 2 marks 5. *)
Lemma outlier_sets_differ_across_levels :
  1 * 0 = 2 * 0 /\ n_outliers_at 1 = 2 /\ n_outliers_at 2 = 5 /\
  exists s1 s2,
    (@generate toy 1 (5 # 2) 0 0).1 = inr s1 /\
    (@generate toy 2 5 0 0).1 = inr s2 /\
    X_base s1 = X_base s2 /\
    outliers_index s1 = [1; 2] /\
    outliers_index s2 = [1; 2; 3; 4; 5] /\
    outliers_index s1 <> outliers_index s2.
Proof.
  split; [done|]. split; [by vm_compute|]. split; [by vm_compute|].
  do 2 eexists. split; [vm_compute; reflexivity|].
  split; [vm_compute; reflexivity|]. cbn [X_base outliers_index].
  split; [reflexivity|]. split; [reflexivity|]. split; [reflexivity|].
  discriminate.
Qed.

(** C7, amended: two iterations whose products [i * j] are equal generate
    the same base matrix [X] and the same permutation; the outlier rows of
    each are the first [n_outliers] entries of that permutation, so the
    smaller set is a prefix of the larger and the two sets are equal when
    the (truncated) outlier counts are; the offsets come from the global
    stream [np.random], which each iteration advances. *)
Theorem seed_product_shares_base_data `{Libs} (i j i' j' : nat) (n n' : Q)
    (g g' : Rng) :
  well_shaped ->
  i * j = i' * j' ->
  exists s s',
    generate i n j g = (inr s, (randint g 2 (as_index n) n_features).2) /\
    generate i' n' j' g' = (inr s', (randint g' 2 (as_index n') n_features).2) /\
    X_base s = X_base s' /\
    permuted s = permuted s' /\
    outliers_index s = take (as_index n) (permuted s) /\
    outliers_index s' = take (as_index n') (permuted s) /\
    (as_index n <= as_index n' ->
       outliers_index s `prefix_of` outliers_index s') /\
    (as_index n = as_index n' -> outliers_index s = outliers_index s') /\
    outliers_offset s = offsets_of (randint g 2 (as_index n) n_features).1 /\
    outliers_offset s' = offsets_of (randint g' 2 (as_index n') n_features).1.
Proof.
  intros Hw Hij.
  destruct (generate_spec i n j g Hw) as (s & Hs & HX & Hp & Hi & Ho).
  destruct (generate_spec i' n' j' g' Hw) as (s' & Hs' & HX' & Hp' & Hi' & Ho').
  rewrite <- Hij in HX', Hp', Hi'.
  exists s, s'. split_and!; try done.
  - by rewrite HX, HX'.
  - by rewrite Hp, Hp'.
  - by rewrite Hi, Hp.
  - by rewrite Hi', Hp.
  - intros Hle. rewrite Hi, Hi'.
    set (perm := (permutation _ n_samples).1).
    replace (take (as_index n) perm)
      with (take (as_index n) (take (as_index n') perm)).
    + apply prefix_take.
    + rewrite take_take. f_equal. lia.
  - intros Heq. by rewrite Hi, Hi', Heq.
Qed.

Lemma seed_product_shares_base_data_witness :
  @well_shaped toy /\ 1 * 0 = 2 * 0 /\
  exists s s',
    @generate toy 1 (5 # 2) 0 0 = (inr s, (@randint toy 0 2 (as_index (5 # 2)) n_features).2) /\
    @generate toy 2 5 0 3 = (inr s', (@randint toy 3 2 (as_index 5) n_features).2) /\
    X_base s = X_base s' /\
    permuted s = permuted s' /\
    outliers_index s = take (as_index (5 # 2)) (permuted s) /\
    outliers_index s' = take (as_index 5) (permuted s) /\
    (as_index (5 # 2) <= as_index 5 ->
       outliers_index s `prefix_of` outliers_index s') /\
    (as_index (5 # 2) = as_index 5 -> outliers_index s = outliers_index s') /\
    outliers_offset s = offsets_of (@randint toy 0 2 (as_index (5 # 2)) n_features).1 /\
    outliers_offset s' = offsets_of (@randint toy 3 2 (as_index 5) n_features).1.
Proof.
  split; [exact toy_well_shaped|]. split; [reflexivity|].
  exact (@seed_product_shares_base_data toy 1 0 2 0 (5 # 2) 5 0 3
           toy_well_shaped eq_refl).
Defined.

End CovarianceFacts.

(** ** Runs of scripts *)

Section ScriptFacts.
Import Script.

(** Induction over statements and the blocks nested in them. *)
Lemma stmt_block_ind (P : stmt -> Prop) :
  (forall o, P (Do o)) ->
  (forall vars iter n body, Forall P body -> P (For vars iter n body)) ->
  (forall body handler, Forall P body -> Forall P handler -> P (Try body handler)) ->
  forall s, P s.
Proof.
  intros HDo HFor HTry.
  fix IH 1. intros [o|vars iter n body|body handler].
  - apply HDo.
  - apply HFor. induction body as [|s b IHb]; constructor; [apply IH|apply IHb].
  - apply HTry.
    + induction body as [|s b IHb]; constructor; [apply IH|apply IHb].
    + induction handler as [|s b IHb]; constructor; [apply IH|apply IHb].
Qed.

Section RunFacts.
Context {Value Err : Type}.
Variable oracle : Oracle Value Err.

Implicit Types (st : state Value Err) (r : option (exn Err)).
Implicit Types (ns : gmap string Value).

Abbreviation exec := (exec oracle).
Abbreviation exec_block := (exec_block oracle).
Abbreviation do_op := (do_op oracle).

Lemma exec_For_S vars iter n body st :
  exec (For vars iter (S n) body) st =
    match do_op (next_op vars iter) st with
    | (None, st1) =>
        match exec_block body st1 with
        | (None, st2) => exec (For vars iter n body) st2
        | r => r
        end
    | r => r
    end.
Proof. reflexivity. Qed.

Lemma exec_Try body handler st :
  exec (Try body handler) st =
    match exec_block body st with
    | (Some _, st') => exec_block handler st'
    | r => r
    end.
Proof. reflexivity. Qed.

Lemma straight_seq r (evs1 evs2 : list (event Value Err)) :
  Forall returned evs1 -> straight r evs2 -> straight r (evs1 ++ evs2).
Proof.
  destruct r as [e|]; simpl.
  - intros H1 (evs0 & ev & -> & H0 & He).
    exists (evs1 ++ evs0), ev. rewrite app_assoc. split_and!; [done| |done].
    by apply Forall_app.
  - intros H1 H2. by apply Forall_app.
Qed.

Lemma do_op_straight o st :
  exists ev, trace (do_op o st).2 = trace st ++ [ev] /\
    ev_fn ev = fn o /\ ev_raised ev = (do_op o st).1.
Proof.
  unfold do_op. destruct (read _ _) as [x|args]; simpl; [eauto|].
  destruct (oracle _ _ _) as [e|r]; simpl; eauto.
Qed.

Lemma follows_nil st : follows [] None st st.
Proof. exists []. split_and!; [by rewrite app_nil_r|constructor|done]. Qed.

Lemma follows_seq l1 l2 r st st1 st2 :
  follows l1 None st st1 -> follows l2 r st1 st2 -> follows (l1 ++ l2) r st st2.
Proof.
  intros (evs1 & Ht1 & Hs1 & Hf1) (evs2 & Ht2 & Hs2 & Hf2).
  exists (evs1 ++ evs2). split_and!.
  - by rewrite Ht2, Ht1, app_assoc.
  - by apply straight_seq.
  - rewrite fmap_app, Hf1. destruct r; [by apply prefix_app|by rewrite Hf2].
Qed.

Lemma follows_raise l1 l2 e st st1 :
  follows l1 (Some e) st st1 -> follows (l1 ++ l2) (Some e) st st1.
Proof.
  intros (evs & Ht & Hs & Hf). exists evs. split_and!; [done..|].
  by apply prefix_app_r.
Qed.

Lemma do_op_follows o st :
  follows [fn o] (do_op o st).1 st (do_op o st).2.
Proof.
  destruct (do_op_straight o st) as (ev & Ht & Hfn & Hr).
  exists [ev]. split_and!; [done| |].
  - destruct (do_op o st).1 as [e|]; simpl.
    + exists [], ev. by split_and!.
    + by repeat constructor.
  - simpl. rewrite Hfn. by destruct (do_op o st).1.
Qed.

Lemma handlers_block_0 (b : list stmt) :
  sum_list (map handlers b) = 0 -> Forall (fun s => handlers s = 0) b.
Proof.
  induction b as [|s b IH]; simpl; intros Hs; constructor; [lia|apply IH; lia].
Qed.

(** Without handlers, a block's run follows its operations. *)
Lemma exec_block_follows_from (b : list stmt) :
  Forall (fun s => forall st, follows (fn <$> ops_of s) (exec s st).1 st (exec s st).2) b ->
  forall st, follows (events b) (exec_block b st).1 st (exec_block b st).2.
Proof.
  unfold events, ops.
  induction 1 as [|s b Hs _ IH]; intros st; simpl.
  - apply follows_nil.
  - rewrite fmap_app. specialize (Hs st).
    destruct (exec s st) as [[e|] st1]; simpl in *.
    + by apply follows_raise.
    + eapply follows_seq; [done|]. apply IH.
Qed.

Lemma ops_of_For_S vars iter n body :
  ops_of (For vars iter (S n) body) =
    (next_op vars iter :: ops body) ++ ops_of (For vars iter n body).
Proof. reflexivity. Qed.

Lemma exec_follows s :
  handlers s = 0 ->
  forall st, follows (fn <$> ops_of s) (exec s st).1 st (exec s st).2.
Proof.
  induction s as [o|vars iter n body IH|body handler _ _] using stmt_block_ind;
    intros H0; simpl in H0; [| |lia].
  - intros st. apply do_op_follows.
  - assert (Hb : forall st,
      follows (events body) (exec_block body st).1 st (exec_block body st).2).
    { apply exec_block_follows_from.
      apply handlers_block_0 in H0.
      rewrite Forall_forall in IH, H0 |- *.
      intros s Hs. apply IH; auto. }
    clear IH H0. induction n as [|n IHn]; intros st.
    + apply follows_nil.
    + rewrite exec_For_S, ops_of_For_S, fmap_app, fmap_cons.
      pose proof (do_op_follows (next_op vars iter) st) as Hn.
      destruct (do_op (next_op vars iter) st) as [[e|] st1]; simpl in Hn |- *.
      { by apply (follows_raise ["next"]). }
      specialize (Hb st1).
      destruct (exec_block body st1) as [[e|] st2]; simpl in Hb |- *.
      { apply (follows_raise ("next" :: events body)).
        by apply (follows_seq ["next"] _ _ _ st1). }
      apply (follows_seq ("next" :: events body) _ _ _ st2); [|apply IHn].
      by apply (follows_seq ["next"] _ _ _ st1).
Qed.

Lemma exec_block_follows b :
  no_handler b = true ->
  forall st, follows (events b) (exec_block b st).1 st (exec_block b st).2.
Proof.
  unfold no_handler. intros H0%bool_decide_eq_true.
  apply exec_block_follows_from.
  eapply Forall_impl; [by apply handlers_block_0|].
  intros s Hs. by apply exec_follows.
Qed.

(** *** Reads and writes of a run *)

Lemma needs_of_For bound vars iter n body :
  needs_of bound (For vars iter n body) =
    (filter (fun x => x ∉ bound) [iter] ++ (needs_seq (vars ++ bound) body).1, bound).
Proof. reflexivity. Qed.

Lemma needs_seq_bound (b : list stmt) : forall bound x,
  x ∈ bound -> x ∈ (needs_seq bound b).2.
Proof.
  induction b as [|s b IH]; intros bound x Hx; simpl; [done|].
  destruct (needs_of bound s) as [n1 bound1] eqn:E1.
  destruct (needs_seq bound1 b) as [n2 bound2] eqn:E2. simpl.
  change bound2 with (n2, bound2).2. rewrite <- E2. apply IH.
  destruct s as [o|vars iter n body|body handler]; simpl in E1;
    inversion E1; subst; [|done..].
  apply elem_of_app. by right.
Qed.

Lemma read_agree A ns1 ns2 xs :
  agree A ns1 ns2 -> (forall x, x ∈ xs -> x ∈ A) -> read ns1 xs = read ns2 xs.
Proof.
  intros Ha. induction xs as [|x xs IH]; intros Hxs; simpl; [done|].
  rewrite (Ha x) by (apply Hxs; left).
  rewrite IH by (intros y Hy; apply Hxs; by right). done.
Qed.

Lemma assign_agree xs (r : nat -> Value) : forall A k ns1 ns2,
  agree A ns1 ns2 -> agree (xs ++ A) (assign k xs r ns1) (assign k xs r ns2).
Proof.
  induction xs as [|x xs IH]; intros A k ns1 ns2 Ha; simpl; [done|].
  intros y Hy.
  assert (Hx : agree (x :: A) (<[x := r k]> ns1) (<[x := r k]> ns2)).
  { intros z Hz. destruct (decide (x = z)) as [->|Hne].
    - by rewrite !lookup_insert_eq.
    - rewrite !lookup_insert_ne by done. apply Ha.
      apply elem_of_cons in Hz as [->|]; [done|done]. }
  apply (IH _ (S k) _ _ Hx).
  rewrite elem_of_app, elem_of_cons.
  apply elem_of_cons in Hy as [->|Hy]; [tauto|].
  apply elem_of_app in Hy. tauto.
Qed.

Lemma assign_frame xs (r : nat -> Value) x : forall k ns,
  x ∉ xs -> assign k xs r ns !! x = ns !! x.
Proof.
  induction xs as [|y xs IH]; intros k ns Hx; simpl; [done|].
  apply not_elem_of_cons in Hx as [Hne Hx].
  rewrite IH by done. by rewrite lookup_insert_ne.
Qed.

(** Two runs of an operation from name spaces that agree on what it reads
    end the same way, make the same call, and, when it returns, leave name
    spaces that agree on what it binds as well. *)
Lemma do_op_agree o A bound st1 st2 :
  trace st1 = trace st2 ->
  agree (A ++ bound) (names st1) (names st2) ->
  (forall x, x ∈ (needs_of bound (Do o)).1 -> x ∈ A) ->
  (do_op o st1).1 = (do_op o st2).1 /\
  trace (do_op o st1).2 = trace (do_op o st2).2 /\
  ((do_op o st1).1 = None ->
   agree (A ++ (needs_of bound (Do o)).2)
     (names (do_op o st1).2) (names (do_op o st2).2)).
Proof.
  intros Ht Ha Hn. simpl in Hn |- *. unfold do_op.
  rewrite (read_agree (A ++ bound) _ (names st2)), Ht; [|done|].
  2:{ intros x Hx. apply elem_of_app.
      destruct (decide (x ∈ bound)); [by right|left].
      apply Hn, list_elem_of_filter. done. }
  destruct (read (names st2) (uses o)) as [x|args]; simpl; [done|].
  destruct (oracle _ _ _) as [e|r]; simpl; [done|].
  split_and!; [done..|]. intros _.
  intros x Hx. apply (assign_agree _ _ (A ++ bound)); [done|].
  rewrite !elem_of_app in Hx |- *. tauto.
Qed.

Lemma exec_block_agree_from (b : list stmt) :
  Forall (fun s => forall A bound,
    agree_run (needs_of bound s).1 (needs_of bound s).2 (exec s) A bound) b ->
  forall A bound,
    agree_run (needs_seq bound b).1 (needs_seq bound b).2 (exec_block b) A bound.
Proof.
  induction 1 as [|s b Hs _ IH]; intros A bound st1 st2 Ht Ha Hn; simpl.
  - done.
  - simpl in Hn.
    destruct (needs_of bound s) as [n1 bound1] eqn:E1.
    destruct (needs_seq bound1 b) as [n2 bound2] eqn:E2. simpl in *.
    specialize (Hs A bound st1 st2 Ht Ha). rewrite E1 in Hs. simpl in Hs.
    destruct Hs as (Hr & Ht' & Ha').
    { intros x Hx. apply Hn, elem_of_app. by left. }
    destruct (exec s st1) as [[e1|] st1'], (exec s st2) as [[e2|] st2'];
      simpl in *; try done.
    specialize (IH A bound1 st1' st2' Ht' (Ha' eq_refl)).
    rewrite E2 in IH. apply IH.
    intros x Hx. apply Hn, elem_of_app. by right.
Qed.

Lemma exec_agree s :
  handlers s = 0 ->
  forall A bound,
    agree_run (needs_of bound s).1 (needs_of bound s).2 (exec s) A bound.
Proof.
  induction s as [o|vars iter n body IH|body handler _ _] using stmt_block_ind;
    intros H0; simpl in H0; [| |lia].
  - intros A bound st1 st2. apply do_op_agree.
  - assert (Hb : forall A bound,
      agree_run (needs_seq bound body).1 (needs_seq bound body).2
        (exec_block body) A bound).
    { apply exec_block_agree_from.
      apply handlers_block_0 in H0.
      rewrite Forall_forall in IH, H0 |- *.
      intros s Hs. apply IH; auto. }
    clear IH H0. intros A bound. rewrite needs_of_For. cbn [fst snd].
    induction n as [|n IHn]; intros st1 st2 Ht Ha Hn; [done|].
    rewrite !exec_For_S.
    destruct (do_op_agree (next_op vars iter) A bound st1 st2 Ht Ha)
      as (Hr1 & Ht1 & Ha1).
    { intros x Hx. apply Hn, elem_of_app. by left. }
    destruct (do_op (next_op vars iter) st1) as [[e1|] st1'],
      (do_op (next_op vars iter) st2) as [[e2|] st2']; simpl in *; try done.
    destruct (Hb A (vars ++ bound) st1' st2' Ht1 (Ha1 eq_refl))
      as (Hr2 & Ht2 & Ha2).
    { intros x Hx. apply Hn, elem_of_app. by right. }
    destruct (exec_block body st1') as [[e1|] st1''],
      (exec_block body st2') as [[e2|] st2'']; simpl in *; try done.
    apply IHn; [done| |done].
    intros x Hx. apply (Ha2 eq_refl).
    apply elem_of_app in Hx as [Hx|Hx]; apply elem_of_app; [by left|right].
    apply needs_seq_bound, elem_of_app. by right.
Qed.

(** A script without handlers, run in two name spaces that agree on the
    names it reads before binding them, produces the same output. *)
Lemma output_agree b ns1 ns2 :
  no_handler b = true ->
  agree (needs b) ns1 ns2 ->
  output oracle b ns1 = output oracle b ns2.
Proof.
  unfold no_handler, output, run, needs. intros H0%bool_decide_eq_true Ha.
  assert (Hb : agree_run (needs_seq [] b).1 (needs_seq [] b).2 (exec_block b)
    (needs_seq [] b).1 []).
  { apply exec_block_agree_from.
    eapply Forall_impl; [by apply handlers_block_0|].
    intros s Hs. by apply exec_agree. }
  destruct (Hb (State ns1 []) (State ns2 [])) as (Hr & Ht & _); [done| |done|].
  { by rewrite app_nil_r. }
  destruct (exec_block b (State ns1 [])), (exec_block b (State ns2 [])).
  simpl in *. congruence.
Qed.

(** A run binds no name outside what the script writes. *)
Lemma do_op_frame o st x :
  x ∉ defs o -> names (do_op o st).2 !! x = names st !! x.
Proof.
  intros Hx. unfold do_op.
  destruct (read _ _) as [y|args]; simpl; [done|].
  destruct (oracle _ _ _) as [e|r]; simpl; [done|].
  by apply assign_frame.
Qed.

Lemma exec_block_frame_from (b : list stmt) x :
  Forall (fun s => x ∉ writes_of s ->
    forall st, names (exec s st).2 !! x = names st !! x) b ->
  x ∉ writes b ->
  forall st, names (exec_block b st).2 !! x = names st !! x.
Proof.
  unfold writes.
  induction 1 as [|s b Hs _ IH]; intros Hx st; simpl; [done|].
  simpl in Hx. apply not_elem_of_app in Hx as [Hx1 Hx2].
  specialize (Hs Hx1 st).
  destruct (exec s st) as [[e|] st']; simpl in *; [done|].
  by rewrite IH.
Qed.

Lemma exec_frame s x :
  x ∉ writes_of s -> forall st, names (exec s st).2 !! x = names st !! x.
Proof.
  induction s as [o|vars iter n body IH|body handler IHb IHh] using stmt_block_ind;
    simpl; intros Hx.
  - intros st. by apply do_op_frame.
  - apply not_elem_of_app in Hx as [Hv Hb].
    assert (Hbody : forall st, names (exec_block body st).2 !! x = names st !! x).
    { apply exec_block_frame_from; [|done].
      eapply Forall_impl; [exact IH|]. auto. }
    clear IH. induction n as [|n IHn]; intros st; [done|].
    change (names (exec (For vars iter (S n) body) st).2 !! x = names st !! x).
    rewrite exec_For_S.
    pose proof (do_op_frame (next_op vars iter) st x Hv) as H1.
    destruct (do_op (next_op vars iter) st) as [[e|] st1]; simpl in *; [done|].
    specialize (Hbody st1).
    destruct (exec_block body st1) as [[e|] st2]; simpl in *; [congruence|].
    rewrite IHn. congruence.
  - apply not_elem_of_app in Hx as [Hb Hh]. intros st.
    change (names (exec (Try body handler) st).2 !! x = names st !! x).
    rewrite exec_Try.
    assert (H1 : names (exec_block body st).2 !! x = names st !! x).
    { apply exec_block_frame_from; [|done].
      eapply Forall_impl; [exact IHb|]. auto. }
    destruct (exec_block body st) as [[e|] st1]; simpl in *; [|done].
    rewrite <- H1. apply exec_block_frame_from; [|done].
    eapply Forall_impl; [exact IHh|]. auto.
Qed.

Lemma run_frame b ns x :
  x ∉ writes b -> names (run oracle b ns).2 !! x = ns !! x.
Proof.
  intros Hx. unfold run.
  rewrite exec_block_frame_from; [done| |done].
  apply Forall_forall. intros s _ Hs. by apply exec_frame.
Qed.

(** *** Whole runs *)

Lemma output_follows b ns :
  no_handler b = true ->
  straight (output oracle b ns).1 (output oracle b ns).2 /\
  ev_fn <$> (output oracle b ns).2 `prefix_of` events b /\
  ((output oracle b ns).1 = None -> ev_fn <$> (output oracle b ns).2 = events b).
Proof.
  intros Hb. unfold output, run.
  destruct (exec_block_follows b Hb (State ns [])) as (evs & Ht & Hs & Hf).
  destruct (exec_block b (State ns [])) as [r st]. simpl in *. subst.
  split_and!; [done| |].
  - destruct r; [done|]. by rewrite Hf.
  - by intros ->.
Qed.

Lemma first_index_le (p : string -> bool) l : forall k i f,
  first_index p l = Some k -> l !! i = Some f -> p f = true -> k <= i.
Proof.
  induction l as [|g l IH]; intros k i f Hk Hi Hp; [done|].
  simpl in Hk. destruct (p g) eqn:Eg.
  - inversion Hk. lia.
  - destruct i as [|i]; simpl in Hi.
    + congruence.
    + destruct (first_index p l) as [k'|] eqn:Ek; [|done].
      inversion Hk. specialize (IH k' i f eq_refl Hi Hp). lia.
Qed.

(** In a straight run, whatever precedes an operation has returned. *)
Lemma straight_before r (evs : list (event Value Err)) i :
  straight r evs -> i < length evs -> Forall returned (take i evs).
Proof.
  destruct r as [e|]; simpl.
  - intros (evs0 & ev & -> & H0 & _) Hi. rewrite length_app in Hi. simpl in Hi.
    rewrite take_app_le by lia. by apply Forall_take.
  - intros H0 _. by apply Forall_take.
Qed.



End RunFacts.

(** A script [s] that reads nothing another script [t] binds produces the
    same output in the name space [t] has left as in the name space before
    [t] ran, whatever [t]'s calls returned. *)
Lemma independent_output {Value Err} (oracle_s oracle_t : Oracle Value Err)
    s t (ns : gmap string Value) :
  no_handler s = true ->
  independent s t = true ->
  output oracle_s s ns = output oracle_s s (names (run oracle_t t ns).2).
Proof.
  intros Hs Hi. apply output_agree; [done|].
  intros x Hx. symmetry. apply run_frame.
  unfold independent in Hi. rewrite forallb_forall in Hi.
  specialize (Hi x). rewrite bool_decide_eq_true in Hi. apply Hi.
  by apply list_elem_of_In.
Qed.


End ScriptFacts.

(** ** The three scripts *)

Section ScriptsFacts.
Import Script Scripts.

Lemma scripts_no_handler (s : script) : no_handler (code s) = true.
Proof. destruct s; vm_compute; reflexivity. Qed.

(** A handler would change this: the raise of the operation inside it does
    not end the run. *)
Example handler_swallows :
  let oracle : Oracle nat nat := fun _ _ _ => inl 7 in
  output oracle [Try [Do (Op [] "f" [])] []] ∅ =
    (None, [Event "f" [] (Some (LibError 7))]).
Proof. reflexivity. Qed.

(** When the data set loader raises, the kernel-approximation notebook's
    run ends there, with that exception, after 13 operations. *)
Example load_failure_ends_run :
  (output (fails_at 12) feature_map_approx builtins).1 =
    Some (LibError "datasets.load_digits") /\
  ev_fn <$> (output (fails_at 12) feature_map_approx builtins).2 =
    take 13 (events feature_map_approx) /\
  last (output (fails_at 12) feature_map_approx builtins).2 =
    Some (Event "datasets.load_digits" [8]
            (Some (LibError "datasets.load_digits"))).
Proof. split_and!; by vm_compute. Qed.

(** When nothing raises, the covariance notebook runs all its 2894
    operations and ends normally. *)
Example covariance_runs_to_the_end :
  (output never_fails robust_vs_empirical_covariance builtins).1 = None /\
  length (output never_fails robust_vs_empirical_covariance builtins).2 = 2894 /\
  ev_fn <$> (output never_fails robust_vs_empirical_covariance builtins).2 =
    events robust_vs_empirical_covariance.
Proof. split_and!; by vm_compute. Qed.

(** C1 as stated fails: the covariance notebook calls no data set loader;
    its first 26 operations load nothing, and operation 26 binds [X] to a
    draw of its own random generator. *)
Lemma covariance_loads_no_dataset :
  first_index dataset_loader (events robust_vs_empirical_covariance) = None /\
  ops robust_vs_empirical_covariance !! 26 =
    Some (Op ["X"] "rng.randn" ["rng"; "n_samples"; "n_features"]) /\
  loads_standard_dataset robust_vs_empirical_covariance = false /\
  ~ Forall (fun nb => loads_standard_dataset nb = true) notebooks.
Proof.
  split_and!; [by vm_compute..|].
  intros H. apply Forall_cons in H as [_ H]. apply Forall_cons in H as [H _].
  vm_compute in H. discriminate.
Qed.

(** C1, amended: the kernel-approximation notebook binds [digits] to the
    result of [datasets.load_digits] (operation 12) and derives [data] from
    it, before its first call of an estimator class (operation 19), and
    draws no random data; in each of its runs an estimator class is called
    only after the loader has returned.  The covariance notebook loads no
    data set: it draws [X] from a generator it seeds itself (operation 26)
    and the outlier offsets from the global generator (operation 29),
    before its first call of an estimator class (operation 35). *)
Theorem data_sources_of_notebooks :
  (loads_standard_dataset feature_map_approx = true /\
   first_index dataset_loader (events feature_map_approx) = Some 12 /\
   first_index estimator_class (events feature_map_approx) = Some 19 /\
   first_index random_draw (events feature_map_approx) = None /\
   ops feature_map_approx !! 12 =
     Some (Op ["digits"] "datasets.load_digits" ["datasets"]) /\
   ops feature_map_approx !! 14 = Some (Op ["data"] "=" ["digits"]) /\
   (forall (Value Err : Type) (oracle : Oracle Value Err) ns i ev,
      (output oracle feature_map_approx ns).2 !! i = Some ev ->
      estimator_class (ev_fn ev) = true ->
      exists ld, (output oracle feature_map_approx ns).2 !! 12 = Some ld /\
        ev_fn ld = "datasets.load_digits" /\ returned ld /\ 12 < i)) /\
  (first_index dataset_loader (events robust_vs_empirical_covariance) = None /\
   first_index random_draw (events robust_vs_empirical_covariance) = Some 26 /\
   first_index estimator_class (events robust_vs_empirical_covariance) = Some 35 /\
   ops robust_vs_empirical_covariance !! 25 =
     Some (Op ["rng"] "np.random.RandomState" ["np"; "i"; "j"]) /\
   ops robust_vs_empirical_covariance !! 26 =
     Some (Op ["X"] "rng.randn" ["rng"; "n_samples"; "n_features"]) /\
   ops robust_vs_empirical_covariance !! 29 =
     Some (Op ["$6"] "np.random.randint" ["np"; "n_outliers"; "n_features"])).
Proof.
  split; [|by vm_compute].
  split_and!; [by vm_compute..|].
  intros Value Err oracle ns i ev Hi He.
  destruct (output_follows oracle feature_map_approx ns
    (scripts_no_handler FeatureMapApprox)) as (Hs & Hpre & _).
  set (evs := (output oracle feature_map_approx ns).2) in *.
  assert (Hlt : i < length evs) by (by eapply lookup_lt_Some).
  assert (Hf : events feature_map_approx !! i = Some (ev_fn ev)).
  { eapply prefix_lookup_Some; [|done]. by rewrite list_lookup_fmap, Hi. }
  assert (Hge : 19 <= i).
  { eapply (first_index_le estimator_class); [|done..]. by vm_compute. }
  destruct (lookup_lt_is_Some_2 evs 12) as [ld Hld]; [lia|].
  exists ld. split_and!; [done| | |lia].
  - assert (H12 : (ev_fn <$> evs) !! 12 = Some (ev_fn ld))
      by (by rewrite list_lookup_fmap, Hld).
    eapply prefix_lookup_Some in H12; [|done].
    assert (E : events feature_map_approx !! 12 = Some "datasets.load_digits")
      by (by vm_compute).
    rewrite E in H12. by inversion H12.
  - pose proof (straight_before _ _ i Hs Hlt) as Hret.
    apply (Forall_lookup_1 _ _ 12 ld Hret).
    rewrite lookup_take_lt by lia. done.
Qed.

(** C6: no script imports another script (all imports are library
    packages), and every name a script reads before binding it itself is a
    built-in that no script binds.  So for any two scripts [s] and [t],
    given the same answers to its calls, [s] produces the same output (the
    same calls, arguments, results and end) in the name space that a run
    of [t] has left as in the name space before that run. *)
Theorem scripts_do_not_interfere :
  imports feature_map_approx =
    ["import sklearn"; "import plotly.plotly"; "import plotly.graph_objs";
     "import plotly"; "import numpy"; "import time";
     "import matplotlib.pyplot"; "import sklearn";
     "import sklearn.kernel_approximation"; "import sklearn.decomposition";
     "import IPython.display"; "import publisher"] /\
  imports robust_vs_empirical_covariance =
    ["import sklearn"; "import plotly.plotly"; "import plotly.graph_objs";
     "import numpy"; "import matplotlib.pyplot";
     "import matplotlib.font_manager"; "import sklearn.covariance";
     "import IPython.display"; "import publisher"] /\
  imports us_population_2013 = ["library(plotly)"] /\
  (forall s t : script, forall x, x ∈ needs (code s) ->
     x ∈ ["print"; "__doc__"; "len"; "dict"; "enumerate"; "range"; "map";
          "str"; "bool"; "library"; "c"; "list"] /\
     x ∉ writes (code t)) /\
  (forall (s t : script) (Value Err : Type) (oracle_s oracle_t : Oracle Value Err) ns,
     output oracle_s (code s) ns =
       output oracle_s (code s) (names (run oracle_t (code t) ns).2)).
Proof.
  split_and!; [by vm_compute..| |].
  - intros s t x Hx. split.
    + revert x Hx. apply Forall_forall.
      destruct s; vm_compute; repeat constructor.
    + assert (Hi : independent (code s) (code t) = true)
        by (destruct s, t; vm_compute; reflexivity).
      unfold independent in Hi. rewrite forallb_forall in Hi.
      specialize (Hi x). rewrite bool_decide_eq_true in Hi.
      by apply Hi, list_elem_of_In.
  - intros s t Value Err oracle_s oracle_t ns.
    apply independent_output; [apply scripts_no_handler|].
    destruct s, t; vm_compute; reflexivity.
Qed.

(** C10 as stated fails: the last code cell of the kernel-approximation
    notebook runs a shell command, which starts a process. *)
Lemma notebook_starts_a_process :
  creates_task "! pip install git+https://github.com/plotly/publisher.git --upgrade" = true /\
  filter (fun f => creates_task f = true) (events feature_map_approx) =
    ["! pip install git+https://github.com/plotly/publisher.git --upgrade"] /\
  ~ Forall (fun f => creates_task f = false) (events feature_map_approx).
Proof.
  assert (Hf : filter (fun f => creates_task f = true) (events feature_map_approx) =
    ["! pip install git+https://github.com/plotly/publisher.git --upgrade"])
    by (by vm_compute).
  split; [by vm_compute|]. split; [done|].
  intros H.
  assert (Hin : "! pip install git+https://github.com/plotly/publisher.git --upgrade"
    ∈ filter (fun f => creates_task f = true) (events feature_map_approx))
    by (rewrite Hf; left).
  apply list_elem_of_filter in Hin as [Hc Hin].
  rewrite Forall_forall in H. specialize (H _ Hin). congruence.
Qed.

(** C10, amended: no script asks for a thread, a process, a coroutine or an
    asynchronous task through a library; the one operation that starts a
    process is the shell escape [! pip install ...] in the last code cell
    of each notebook ([code cell 6] and [code cell 8]), which the cell
    waits for; the R script has none.  Every run of a script performs its
    operations one after the other in the order of the script: each call
    is made after all earlier ones have returned, and the run stops at the
    first one that raises. *)
Theorem scripts_run_sequentially :
  (forall s : script, forallb (fun f => negb (task_api f)) (events (code s)) = true) /\
  filter (fun f => creates_task f = true) (events feature_map_approx) =
    ["! pip install git+https://github.com/plotly/publisher.git --upgrade"] /\
  filter (fun f => creates_task f = true) (events feature_map_approx_cell_6) =
    ["! pip install git+https://github.com/plotly/publisher.git --upgrade"] /\
  filter (fun f => creates_task f = true) (events robust_vs_empirical_covariance) =
    ["! pip install git+https://github.com/plotly/publisher.git --upgrade"] /\
  filter (fun f => creates_task f = true)
      (events robust_vs_empirical_covariance_cell_8) =
    ["! pip install git+https://github.com/plotly/publisher.git --upgrade"] /\
  filter (fun f => creates_task f = true) (events us_population_2013) = [] /\
  (forall (s : script) (Value Err : Type) (oracle : Oracle Value Err) ns,
     straight (output oracle (code s) ns).1 (output oracle (code s) ns).2 /\
     ev_fn <$> (output oracle (code s) ns).2 `prefix_of` events (code s) /\
     ((output oracle (code s) ns).1 = None ->
      ev_fn <$> (output oracle (code s) ns).2 = events (code s))).
Proof.
  split_and!; [|by vm_compute..|].
  - intros s. destruct s; vm_compute; reflexivity.
  - intros s Value Err oracle ns.
    apply output_follows, scripts_no_handler.
Qed.

(** C5: the text of the R script holds one trace, of type "bar", with the
    51 categories and 51 values below, and one call of [p$plotly] with
    filename "2013-US-Population" and fileopt "overwrite".  But line 138,
    inside the [layout] expression, opens its string literal with two
    double quotes: the literal ends at once and is followed by the symbol
    [Open], which R rejects.  [Rscript] therefore stops after [library],
    [plotly] and [data], and [source] evaluates nothing: the call that
    submits the chart is never reached. *)
Theorem population_script_stops_at_layout :
  length expressions = 7 /\
  (take 6 <$> expressions !! 2 =
     Some [R.TId "data"; R.TSym "<-"; R.TId "list"; R.TSym "(";
           R.TId "list"; R.TSym "("]) /\
  (literals <$> expressions !! 2 = Some (
    [
     "AL"; "AK"; "AZ"; "AR"; "CA"; "CO"; "CT"; "DE"; "DC"; "FL"; "GE";
     "HA"; "ID"; "IL"; "IN"; "IO"; "KS"; "KY"; "LA"; "ME"; "MD"; "MA";
     "MI"; "MN"; "MS"; "MO"; "MT"; "NE"; "NE"; "NH"; "NJ"; "NM"; "NY";
     "NC"; "ND"; "OH"; "OK"; "OR"; "PA"; "RI"; "SC"; "SD"; "TN"; "TX";
     "UT"; "VT"; "VA"; "WA"; "WV"; "WI"; "WY"] ++
    [
     "4833722"; "735132"; "6626624"; "2959373"; "38332521"; "5268367";
     "3596080"; "925749"; "646449"; "19552860"; "9992167"; "1404054";
     "1612136"; "12882135"; "6570902"; "3090416"; "2893957"; "4395295";
     "4625470"; "1328302"; "5928814"; "6692824"; "9895622"; "5420380";
     "2991207"; "6044171"; "1015165"; "1868516"; "2790136"; "1323459";
     "8899339"; "2085287"; "19651127"; "9848060"; "723393"; "11570808";
     "3850568"; "3930065"; "12773801"; "1051511"; "4774839"; "844877";
     "6495978"; "26448193"; "2900872"; "626630"; "8260405"; "6971406";
     "1854304"; "5742713"; "582658"] ++
    ["Col2"; "bar"])) /\
  filter (fun t => t = R.TStr "bar") (mjoin expressions) = [R.TStr "bar"] /\
  expressions !! 4 = Some
    [R.TId "response"; R.TSym "<-"; R.TId "p"; R.TSym "$"; R.TId "plotly";
     R.TSym "("; R.TId "data"; R.TSym ","; R.TId "kwargs"; R.TSym "=";
     R.TId "list"; R.TSym "("; R.TId "layout"; R.TSym "="; R.TId "layout";
     R.TSym ","; R.TId "filename"; R.TSym "="; R.TStr "2013-US-Population";
     R.TSym ","; R.TId "fileopt"; R.TSym "="; R.TStr "overwrite"; R.TSym ",";
     R.TId "auto_open"; R.TSym "="; R.TStr "FALSE"; R.TSym ")"; R.TSym ")"] /\
  R.calls_in <$> expressions =
    [["library"]; ["plotly"]; ["list"; "list"; "c"; "c"];
     ["list"; "list"; "c"; "c"; "list"; "list"; "list"; "c"; "c"; "list";
      "list"; "list"; "list"; "list"; "list"; "list"];
     ["plotly"; "list"]; []; []] /\
  length <$> us_population_2013_toplevel = [1; 1; 4; 16; 2; 1; 1] /\
  filter (fun f => plot_call f = true) (events us_population_2013) = ["p$plotly"] /\
  source_text !! 137 =
    Some "    family = ``Open sans`, verdana, arial, sans-serif`, " /\
  R.tokenize (R.unquote "    family = ``Open sans`, verdana, arial, sans-serif`, ") =
    Some [R.TId "family"; R.TSym "="; R.TStr EmptyString; R.TId "Open";
          R.TId "sans"; R.TStr ", verdana, arial, sans-serif"; R.TSym ","] /\
  map R.juxtaposed expressions =
    [false; false; false; true; false; false; false] /\
  events us_population_2013_Rscript =
    ["library(plotly)"; "plotly"; "c"; "c"; "list"; "list"] /\
  events us_population_2013_source = [] /\
  existsb plot_call (events us_population_2013_Rscript) = false /\
  existsb plot_call (events us_population_2013_source) = false.
Proof. split_and!; by vm_compute. Qed.

End ScriptsFacts.

(** ** [matplotlib_to_plotly] *)

Section ColorscaleFacts.
Import Np Py Colorscale.
Context `{Float64}.

Lemma entry_spec (cmap : Q -> list Q) h k acc :
  3 <= length (cmap (fmul (inject_Z k) h)) ->
  entry cmap h k acc tt = (inr (acc ++ [entry_at cmap h k]), tt).
Proof.
  intros Hlen. unfold entry, entry_at, channel.
  destruct (cmap (fmul (inject_Z k) h)) as [|r [|g [|b t]]]; simpl in Hlen; try lia.
  reflexivity.
Qed.

Lemma for_entry (cmap : Q -> list Q) h ks : forall acc,
  (forall x, 3 <= length (cmap x)) ->
  for_ ks (entry cmap h) acc tt = (inr (acc ++ (entry_at cmap h <$> ks)), tt).
Proof.
  induction ks as [|k ks IH]; intros acc Hc; simpl.
  - by rewrite app_nil_r.
  - unfold bind. rewrite entry_spec by done. rewrite IH by done.
    by rewrite <- app_assoc.
Qed.

(** X1: called with at least two entries and a colour map that yields at
    least three channels, [matplotlib_to_plotly] does not raise and returns
    exactly [pl_entries] entries.  Entry [k] sits at the float product
    [k * h], for the float quotient [h = 1.0/(pl_entries-1)], and carries
    the string [rgb(r, g, b)] of the first three channels of the colour
    map at that point, each the conversion by [np.uint8] of the float
    product of the channel and 255, a number from 0 to 255.  Products,
    quotient and conversion are the machine's, whatever it rounds to. *)
Theorem matplotlib_to_plotly_entries (cmap : Q -> list Q) (pl_entries : Z) :
  (2 <= pl_entries)%Z ->
  (forall x, 3 <= length (cmap x)) ->
  let h := fdiv 1 (inject_Z (pl_entries - 1)) in
  exists l,
    call (matplotlib_to_plotly cmap pl_entries) = inr l /\
    length l = Z.to_nat pl_entries /\
    (forall k : nat, k < Z.to_nat pl_entries ->
       let x := fmul (inject_Z (Z.of_nat k)) h in
       exists r g b,
         l !! k = Some (x, "rgb(" +:+ pretty r +:+ ", " +:+ pretty g +:+ ", "
                            +:+ pretty b +:+ ")") /\
         r = np_uint8 (fmul (default 0%Q (cmap x !! 0)) 255) /\
         g = np_uint8 (fmul (default 0%Q (cmap x !! 1)) 255) /\
         b = np_uint8 (fmul (default 0%Q (cmap x !! 2)) 255) /\
         (0 <= r < 256)%Z /\ (0 <= g < 256)%Z /\ (0 <= b < 256)%Z).
Proof.
  intros Hn Hc h.
  exists (entry_at cmap h <$> range pl_entries).
  split_and!.
  - unfold call, matplotlib_to_plotly, bind, step.
    rewrite (proj2 (Z.eqb_neq _ _)) by lia.
    unfold ret at 1. by rewrite for_entry.
  - unfold range. by rewrite !length_fmap, length_seq.
  - intros k Hk x.
    exists (channel cmap x 0), (channel cmap x 1), (channel cmap x 2).
    split.
    { unfold range. rewrite !list_lookup_fmap, lookup_seq_lt by done.
      reflexivity. }
    split_and!; try reflexivity; apply np_uint8_range.
Qed.

(** X2: the edges of [matplotlib_to_plotly].  One entry divides by zero and
    raises before the colour map is consulted; no entries, or a negative
    count, give the empty scale without consulting it; and from two entries
    on, a colour map that yields only two channels raises [IndexError]. *)
Theorem matplotlib_to_plotly_edges (cmap : Q -> list Q) :
  call (matplotlib_to_plotly cmap 1) = inl ZeroDivisionError /\
  (forall n : nat, call (matplotlib_to_plotly cmap (- Z.of_nat n)) = inr []) /\
  (forall n : nat,
     call (matplotlib_to_plotly (fun x => take 2 (cmap x)) (Z.of_nat (S (S n))))
       = inl IndexError).
Proof.
  split_and!.
  - reflexivity.
  - intros n. unfold call, matplotlib_to_plotly, bind, step.
    rewrite (proj2 (Z.eqb_neq _ _)) by lia.
    unfold ret at 1, range. replace (Z.to_nat (- Z.of_nat n)) with 0 by lia.
    reflexivity.
  - intros n. unfold call, matplotlib_to_plotly, bind, step.
    rewrite (proj2 (Z.eqb_neq _ _)) by lia.
    unfold ret at 1, range.
    replace (Z.to_nat (Z.of_nat (S (S n)))) with (S (S n)) by lia.
    cbn [seq fmap list_fmap for_]. unfold bind, entry, item.
    rewrite take_take. cbn [Nat.min].
    destruct (cmap _) as [|r [|g t]]; reflexivity.
Qed.

End ColorscaleFacts.

Section ColorscaleRuns.
Import Np Py Colorscale.

Lemma matplotlib_to_plotly_entries_witness :
  (2 <= 3)%Z /\ (forall x, 3 <= length (ramp x)) /\
  let h := @fdiv unrounded 1 (inject_Z (3 - 1)) in
  exists l,
    call (@matplotlib_to_plotly unrounded ramp 3) = inr l /\
    length l = Z.to_nat 3 /\
    (forall k : nat, k < Z.to_nat 3 ->
       let x := @fmul unrounded (inject_Z (Z.of_nat k)) h in
       exists r g b,
         l !! k = Some (x, "rgb(" +:+ pretty r +:+ ", " +:+ pretty g +:+ ", "
                            +:+ pretty b +:+ ")") /\
         r = @np_uint8 unrounded (@fmul unrounded (default 0%Q (ramp x !! 0)) 255) /\
         g = @np_uint8 unrounded (@fmul unrounded (default 0%Q (ramp x !! 1)) 255) /\
         b = @np_uint8 unrounded (@fmul unrounded (default 0%Q (ramp x !! 2)) 255) /\
         (0 <= r < 256)%Z /\ (0 <= g < 256)%Z /\ (0 <= b < 256)%Z).
Proof.
  split; [lia|]. split; [intros x; simpl; lia|].
  apply (@matplotlib_to_plotly_entries unrounded ramp 3);
    [lia|intros x; simpl; lia].
Defined.

End ColorscaleRuns.


(** ** Reshaping and minima *)

Section NpShapeFacts.
Import Np NpShape.

Lemma pieces_concat {A} (d : nat) (L : list (list A)) :
  Forall (fun r => length r = d) L ->
  pieces (length L) d (concat L) = L.
Proof.
  induction 1 as [|r L Hr _ IH]; simpl; [done|].
  rewrite take_app_length', drop_app_length' by done. by rewrite IH.
Qed.

Lemma length_concat_rect {A} (d : nat) (L : list (list A)) :
  Forall (fun r => length r = d) L -> length (concat L) = length L * d.
Proof.
  induction 1 as [|r L Hr _ IH]; simpl; [done|].
  rewrite length_app, IH. lia.
Qed.

Lemma reshape_rows_concat {A} (d : nat) (L : list (list A)) :
  d <> 0 -> Forall (fun r => length r = d) L ->
  reshape_rows d (concat L) = Some L.
Proof.
  intros Hd HL. unfold reshape_rows.
  rewrite (length_concat_rect d L HL).
  rewrite decide_True.
  - rewrite Nat.div_mul by done. by rewrite pieces_concat.
  - split; [done|]. by apply Nat.Div0.mod_mul.
Qed.

Lemma reshape2_concat {A B} (f : A -> B) (c : nat) (G : list (list A)) :
  Forall (fun r => length r = c) G ->
  reshape2 (length G) (length (hd [] G)) (f <$> concat G) = Some (map (map f) G).
Proof.
  intros HG. unfold reshape2.
  assert (Hc : G <> [] -> length (hd [] G) = c).
  { destruct HG; [done|]. done. }
  destruct (decide (G = [])) as [->|Hne]; [done|].
  rewrite (Hc Hne).
  assert (HG' : Forall (fun r => length r = c) (map (map f) G)).
  { apply Forall_fmap. eapply Forall_impl; [exact HG|].
    intros r Hr. simpl. by rewrite length_map. }
  rewrite decide_True.
  - f_equal.
    assert (Hcat : f <$> concat G = concat (map (map f) G)).
    { clear. induction G as [|r G IH]; simpl; [done|]. by rewrite fmap_app, IH. }
    rewrite Hcat. rewrite <- (length_map (map f) G). by apply pieces_concat.
  - rewrite length_fmap. by apply length_concat_rect.
Qed.

Lemma length_vec_add u v : length (vec_add u v) = Nat.min (length u) (length v).
Proof. unfold vec_add. apply length_zip_with. Qed.

Lemma length_scale a v : length (scale a v) = length v.
Proof. unfold scale. by rewrite length_fmap. Qed.

(** The grid of the sums of two outer products is a square of rows of the
    width of the two vectors. *)
Lemma add_broadcast_shape (ms pc0 pc1 : list Q) (d : nat) :
  length pc0 = d -> length pc1 = d ->
  let grid := add_broadcast (outer ms pc0) (outer ms pc1) in
  length grid = length ms /\
  Forall (fun plane => length plane = length ms) grid /\
  Forall (fun row => length row = d) (concat grid).
Proof.
  intros H0 H1 grid. unfold grid, add_broadcast, outer. split_and!.
  - by rewrite !length_fmap.
  - apply Forall_fmap, Forall_fmap, Forall_forall. intros; simpl.
    by rewrite !length_fmap.
  - apply Forall_concat, Forall_fmap, Forall_fmap, Forall_forall.
    intros y _. simpl. apply Forall_fmap, Forall_fmap, Forall_forall.
    intros x _. simpl. rewrite length_vec_add, !length_scale. lia.
Qed.

Lemma np_min_spec (l : list Q) (lo : Q) :
  np_min l = Some lo ->
  lo ∈ l /\ forall y, y ∈ l -> (lo <= y)%Q.
Proof.
  destruct l as [|x l]; [done|]. simpl. intros [= <-].
  revert x. induction l as [|z l IH]; intros x; simpl.
  - split; [left|]. intros y ->%list_elem_of_singleton. apply Qle_refl.
  - destruct (Qle_bool x z) eqn:E.
    + destruct (IH x) as [Hin Hle]. split.
      * apply elem_of_cons in Hin as [->|Hin]; [left|right; by right].
      * intros y [->|[->|Hy]%elem_of_cons]%elem_of_cons.
        -- apply Hle. left.
        -- eapply Qle_trans; [apply Hle; left|]. by apply Qle_bool_iff.
        -- apply Hle. by right.
    + destruct (IH z) as [Hin Hle]. split.
      * right. done.
      * intros y [->|[->|Hy]%elem_of_cons]%elem_of_cons.
        -- eapply Qle_trans; [apply Hle; left|].
           apply Qlt_le_weak, Qnot_le_lt. intros Hc.
           apply Qle_bool_iff in Hc. congruence.
        -- apply Hle. left.
        -- apply Hle. by right.
Qed.

End NpShapeFacts.

(** ** The figures of the kernel-approximation notebook *)

Section KernelPlotsFacts.
Import Np NpShape Py KernelApprox KernelPlots.
Context `{Plotting} `{Colorscale.Float64}.
Variable digits : Bunch.

(** The calculations cell returns; it leaves the results of
    [calculations], a fitted kernel machine and the variables of the
    sweep. *)
Lemma calculations_cell_spec (w : World) :
  exists s w0,
    calculations_cell digits w = (inr s, world_before digits 9 w0) /\
    calculations digits w = (inr (results s), world_before digits 9 w0) /\
    sweep_vars (results s) = vars_after digits sample_sizes sweep_init w0 /\
    exists sup, support_ (kernel_svm s) = Some sup.
Proof.
  destruct w as [c g].
  unfold calculations_cell, calculations, bind, ret, time, SVC_fit, SVC_score,
    LinearSVC_fit, LinearSVC_score, with_random_state, bind, ret.
  cbn -[sweep].
  destruct (read_clock c) as [t0 c0]; cbn -[sweep].
  destruct (libsvm_fit _ _ _ g) as [sup g1]; cbn -[sweep].
  destruct (read_clock c0) as [t1 c1]; cbn -[sweep].
  destruct (read_clock c1) as [t2 c2]; cbn -[sweep].
  destruct (liblinear_fit _ _ g1) as [cf g2]; cbn -[sweep].
  destruct (read_clock c2) as [t3 c3]; cbn -[sweep].
  rewrite sweep_spec.
  eexists _, _. split_and!; try reflexivity. by eexists.
Qed.

Lemma sweep_lists_nine (w0 : World) :
  let v := vars_after digits sample_sizes sweep_init w0 in
  length (fourier_scores v) = 9 /\ length (nystroem_scores v) = 9 /\
  length (fourier_times v) = 9 /\ length (nystroem_times v) = 9.
Proof.
  intros v. unfold v. split_and!.
  - by rewrite (vars_after_log digits fourier_scores (fourier_score_at digits)).
  - by rewrite (vars_after_log digits nystroem_scores (nystroem_score_at digits)).
  - by rewrite (vars_after_log digits fourier_times (fun _ => fourier_time_at)).
  - by rewrite (vars_after_log digits nystroem_times (fun _ => nystroem_time_at)).
Qed.

(** X3: the accuracy and timing figure.  After the calculations cell, from
    any state of the clock and of the random stream, the cell that builds
    the figure returns without raising and leaves both untouched.  The
    figure holds five traces in the upper cell and four in the lower one,
    each with as many [x] as [y]; the upper x axis runs from 30 to 270; and
    the lower end of the upper y axis is one of the Fourier scores, which
    no Fourier score falls below. *)
Theorem accuracy_figure_layout (w : World) :
  exists s w1 fig lo,
    calculations_cell digits w = (inr s, w1) /\
    accuracy_figure s w1 = (inr fig, w1) /\
    Plotly.cells fig = replicate 5 (1, 1) ++ replicate 4 (2, 1) /\
    Forall (fun t => Plotly.aligned t.1.1) (Plotly.data fig) /\
    Plotly.range <$> Plotly.axes fig !! "xaxis1" = Some (Some (30, 270)%Q) /\
    Plotly.range <$> Plotly.axes fig !! "yaxis1" = Some (Some (lo, 1)%Q) /\
    lo ∈ fourier_scores (sweep_vars (results s)) /\
    (forall y, y ∈ fourier_scores (sweep_vars (results s)) -> (lo <= y)%Q).
Proof.
  destruct (calculations_cell_spec w) as (s & w0 & Hs & _ & Hv & _).
  destruct (sweep_lists_nine w0) as (Hfs & Hns & Hft & Hnt).
  rewrite <- Hv in Hfs, Hns, Hft, Hnt.
  set (w1 := world_before digits 9 w0) in *. clearbody w1. clear Hv.
  destruct s as [ksvm lsvm [kss kst lss lst [fa na fsc nsc fti nti]]].
  cbn [results sweep_vars fourier_scores nystroem_scores fourier_times
       nystroem_times] in *.
  destruct (np_min fsc) as [lo|] eqn:Hmin; [|by destruct fsc].
  set (s := Build_Session _ _ _) in *.
  eassert (Hfig : accuracy_figure s w1 = _).
  { unfold accuracy_figure, s.
    cbn [results sweep_vars fourier_scores nystroem_scores fourier_times
         nystroem_times].
    rewrite Hmin.
    match goal with
    | |- ?l = _ => let v := eval vm_compute in l in
                   transitivity v; [vm_cast_no_check (eq_refl v)|reflexivity]
    end. }
  exists s, w1. eexists. exists lo.
  split; [exact Hs|]. split; [exact Hfig|].
  split; [by vm_compute|].
  split.
  { repeat (apply Forall_cons_2; [simpl; by rewrite ?Hfs, ?Hns, ?Hft, ?Hnt|]).
    apply Forall_nil_2. }
  split; [by vm_compute|]. split; [by vm_compute|].
  by apply np_min_spec.
Qed.

Lemma matplotlib_to_plotly_returns (cmap : Q -> list Q) (n : Z) :
  (2 <= n)%Z -> (forall x, 3 <= length (cmap x)) ->
  Colorscale.call (Colorscale.matplotlib_to_plotly cmap n) =
    inr (Colorscale.entry_at cmap (Colorscale.fdiv 1 (inject_Z (n - 1)))
           <$> Colorscale.range n).
Proof.
  intros Hn Hc.
  unfold Colorscale.call, Colorscale.matplotlib_to_plotly, bind, Colorscale.step.
  rewrite (proj2 (Z.eqb_neq _ _)) by lia.
  unfold ret at 1. by rewrite for_entry.
Qed.

Lemma column_spec (X : Matrix) (j : nat) (w : World) :
  Forall (fun row => j < length row) X ->
  column X j w = (inr ((fun row => default 0%Q (row !! j)) <$> X), w).
Proof.
  intros HX. unfold column.
  assert (Hm : mapM (fun row : list Q => row !! j) X
               = Some ((fun row => default 0%Q (row !! j)) <$> X)).
  { induction HX as [|row X Hrow _ IH]; [done|].
    apply lookup_lt_is_Some_2 in Hrow as [x Hx].
    cbn [mapM]. rewrite Hx, IH. simpl. by rewrite Hx. }
  by rewrite Hm.
Qed.

(** Three contours and three sets of markers, placed and styled. *)
Lemma surface_layout (c1 c2 c3 m1 m2 m3 : Plotly.Trace) (titles : list string)
    (w : World) :
  exists fig1,
    (fig1 <- append_surfaces [c1; c2; c3] [m1; m2; m3]
               (Plotly.make_subplots 1 3 titles) ;;
     fig1 <- hide_axes fig1 ;;
     ret fig1) w = (inr fig1, w) /\
    Plotly.data fig1 =
      [(c1, 1, 1); (m1, 1, 1); (c2, 1, 2); (m2, 1, 2); (c3, 1, 3); (m3, 1, 3)] /\
    Plotly.subplot_titles fig1 = titles.
Proof.
  eexists. split_and!.
  - match goal with
    | |- ?l = _ => let v := eval vm_compute in l in
                   transitivity v; [vm_cast_no_check (eq_refl v)|reflexivity]
    end.
  - reflexivity.
  - reflexivity.
Qed.

Lemma bind_inr {W E A B} (m : Eff W E A) (k : A -> Eff W E B) a w w' :
  m w = (inr a, w') -> bind m k w = k a w'.
Proof. unfold bind. by intros ->. Qed.

Lemma item_0 {A} (a : A) (l : list A) (w : World) :
  item (a :: l) 0 w = (inr a, w).
Proof. reflexivity. Qed.

Lemma item_1 {A} (a b : A) (l : list A) (w : World) :
  item (a :: b :: l) 1 w = (inr b, w).
Proof. reflexivity. Qed.

Section Contract.
Variable ker : Support -> list Q -> Z.
Variable lin : Coef -> list Q -> Z.
Variable phi : FittedMap -> list Q -> list Q.
Hypothesis Hcontract : contract digits ker lin phi.

Lemma predict_spec (clf : Classifier) (g : list Q -> Z) (X : Matrix) (w : World) :
  label ker lin phi clf = Some g ->
  predict clf X w = (inr (g <$> X), w).
Proof.
  destruct Hcontract as (Hker & Hlin & Hphi & _).
  destruct clf as [m|p]; simpl.
  - unfold SVC_predict. destruct (support_ m) as [s|]; [|done].
    intros [= <-]. by rewrite (Hker s X).
  - unfold Pipeline_predict, FeatureMap_transform, LinearSVC_predict, bind.
    destruct (fitted (feature_map p)) as [F|]; [|done].
    destruct (coef_ (svm p)) as [c|]; [|done].
    intros [= <-]. unfold ret. rewrite (Hphi F X), (Hlin c).
    by rewrite <- list_fmap_compose.
Qed.

Lemma grid_labels (pc0 pc1 : list Q) (g : list Q -> Z) :
  map (map g) (add_broadcast (outer multiples pc0) (outer multiples pc1)) =
    surface pc0 pc1 g.
Proof.
  unfold add_broadcast, outer, surface.
  generalize multiples. intros ms.
  rewrite <- (list_fmap_compose _ _ ms : _ = map _ (_ <$> ms)).
  rewrite <- list_fmap_compose. apply list_fmap_ext. intros _ ya _. simpl.
  change (map g ((fun f => vec_add f (scale ya pc1)) <$>
            ((fun a => scale a pc0) <$> ms)) = (fun xb => g (vec_add (scale xb pc0) (scale ya pc1))) <$> ms).
  rewrite <- (list_fmap_compose _ _ ms).
  by rewrite <- (list_fmap_compose _ g ms).
Qed.

Lemma surface_body_spec (grid : list Matrix) (c : nat) (X : Matrix)
    (clf : Classifier) (g : list Q -> Z) cl sl (w : World) :
  label ker lin phi clf = Some g ->
  Forall (fun plane => length plane = c) grid ->
  Forall (fun x => 2 <= length x) X ->
  surface_body digits grid (concat grid) X clf (cl, sl) w =
    (inr (cl ++ [Plotly.Contour multiples multiples (map (map g) grid)
                   (85 # 100) "heatmap" paired_scale (7 # 10) false],
          sl ++ [Plotly.Markers (coordinate 0 X) (coordinate 1 X) false 8
                   (targets_train digits) paired_scale false 1]), w).
Proof.
  intros Hg Hgrid HX.
  assert (HP : forall x, 3 <= length (Paired x)) by apply Hcontract.
  unfold surface_body, bind, estimator.
  rewrite (predict_spec _ g) by done.
  unfold value. rewrite (reshape2_concat g c) by done.
  unfold ret at 1, color.
  rewrite matplotlib_to_plotly_returns by (done || lia).
  rewrite !column_spec by (eapply Forall_impl; [exact HX|]; simpl; lia).
  reflexivity.
Qed.

Lemma surface_figure_spec (s : Session) (w1 : World) (kf nf ff : list Q -> Z) :
  label ker lin phi (Kernel (kernel_svm s)) = Some kf ->
  label ker lin phi (Approx (nystroem_approx_svm (sweep_vars (results s)))) = Some nf ->
  label ker lin phi (Approx (fourier_approx_svm (sweep_vars (results s)))) = Some ff ->
  let fit := pca_fit 8 (data_train digits) (np_random w1) in
  let X := pca_transform fit.1 (data_train digits) in
  let contour g pc0 pc1 :=
    Plotly.Contour multiples multiples (surface pc0 pc1 g)
      (85 # 100) "heatmap" paired_scale (7 # 10) false in
  let markers :=
    Plotly.Markers (coordinate 0 X) (coordinate 1 X) false 8
      (targets_train digits) paired_scale false 1 in
  exists pc0 pc1 fig1,
    pca_components_ fit.1 !! 0 = Some pc0 /\
    pca_components_ fit.1 !! 1 = Some pc1 /\
    surface_figure digits s w1 =
      (inr fig1, {| clock := clock w1; np_random := fit.2 |}) /\
    Plotly.data fig1 =
      [(contour kf pc0 pc1, 1, 1); (markers, 1, 1);
       (contour nf pc0 pc1, 1, 2); (markers, 1, 2);
       (contour ff pc0 pc1, 1, 3); (markers, 1, 3)] /\
    Plotly.subplot_titles fig1 =
      ["SVC with rbf kernel";
       "SVC (linear kernel)<br> with Fourier rbf feature map<br>n_components=100";
       "SVC (linear kernel)<br> with Nystroem rbf feature map<br>n_components=100"].
Proof.
  intros Hk Hn Hf. cbv zeta.
  destruct Hcontract as (_ & _ & _ & _ & Hd & Hpca).
  destruct (Hpca (np_random w1)) as (Hlen & Hpc & HX).
  destruct (pca_fit 8 (data_train digits) (np_random w1)) as [pca r] eqn:Efit.
  cbn [fst snd] in *.
  pose (X := pca_transform pca (data_train digits)).
  pose (contour := fun g pc0 pc1 =>
    Plotly.Contour multiples multiples (surface pc0 pc1 g)
      (85 # 100) "heatmap" paired_scale (7 # 10) false).
  pose (markers :=
    Plotly.Markers (coordinate 0 X) (coordinate 1 X) false 8
      (targets_train digits) paired_scale false 1).
  destruct (pca_components_ pca) as [|pc0 [|pc1 rest]] eqn:EC;
    simpl in Hlen; try lia.
  apply Forall_cons in Hpc as [Hp0 Hpc]. apply Forall_cons in Hpc as [Hp1 _].
  destruct (add_broadcast_shape multiples pc0 pc1 _ Hp0 Hp1) as (Hg1 & Hg2 & Hg3).
  exists pc0, pc1.
  destruct (surface_layout (contour kf pc0 pc1) (contour nf pc0 pc1)
              (contour ff pc0 pc1) markers markers markers
              ["SVC with rbf kernel";
               "SVC (linear kernel)<br> with Fourier rbf feature map<br>" +:+
                 "n_components=100";
               "SVC (linear kernel)<br> with Nystroem rbf feature map<br>" +:+
                 "n_components=100"]
              {| clock := clock w1; np_random := r |})
    as (fig1 & Hfig & Hdata & Htitles).
  exists fig1. split_and!; [done|done| |exact Hdata|exact Htitles].
  rewrite <- Hfig. unfold surface_figure.
  rewrite (bind_inr _ _ pca _ {| clock := clock w1; np_random := r |});
    [|unfold estimator, with_random_state; by rewrite Efit].
  cbv beta. rewrite EC.
  rewrite (bind_inr _ _ _ _ _ (item_0 _ _ _)). cbv beta.
  rewrite (bind_inr _ _ _ _ _ (item_1 _ _ _ _)). cbv beta.
  assert (Hd' : ncols (data digits) <> 0) by lia.
  rewrite (reshape_rows_concat _ _ Hd' Hg3).
  unfold value. rewrite (bind_inr (ret _) _ _ _ _ eq_refl). cbv beta.
  set (grid := add_broadcast (outer multiples pc0) (outer multiples pc1)) in *.
  assert (Hloop : forall w,
    for_ [Kernel (kernel_svm s);
          Approx (nystroem_approx_svm (sweep_vars (results s)));
          Approx (fourier_approx_svm (sweep_vars (results s)))]
      (surface_body digits grid (concat grid) X) ([], []) w =
    (inr ([contour kf pc0 pc1; contour nf pc0 pc1; contour ff pc0 pc1],
          [markers; markers; markers]), w)).
  { intros w. cbn [for_].
    rewrite (bind_inr _ _ _ _ _ (surface_body_spec _ _ _ _ kf [] [] _ Hk Hg2 HX)).
    cbv beta.
    rewrite (bind_inr _ _ _ _ _ (surface_body_spec _ _ _ _ nf _ _ _ Hn Hg2 HX)).
    cbv beta.
    rewrite (bind_inr _ _ _ _ _ (surface_body_spec _ _ _ _ ff _ _ _ Hf Hg2 HX)).
    cbv beta. unfold grid. rewrite !grid_labels. reflexivity. }
  rewrite (bind_inr _ _ _ _ _ (Hloop _)). reflexivity.
Qed.

(** The classifiers the calculations cell leaves can label a sample: the
    kernel machine is fitted, and both pipelines are as the last iteration
    of the sweep left them, at 270 components. *)
Lemma session_labels (w : World) :
  exists s w1 kf nf ff,
    calculations_cell digits w = (inr s, w1) /\
    label ker lin phi (Kernel (kernel_svm s)) = Some kf /\
    label ker lin phi (Approx (nystroem_approx_svm (sweep_vars (results s)))) = Some nf /\
    label ker lin phi (Approx (fourier_approx_svm (sweep_vars (results s)))) = Some ff /\
    (let n := feature_map (nystroem_approx_svm (sweep_vars (results s))) in
     kind n = Nys /\ n_components n = 270) /\
    (let f := feature_map (fourier_approx_svm (sweep_vars (results s))) in
     kind f = RBF /\ n_components f = 270).
Proof.
  destruct (calculations_cell_spec w) as (s & w0 & Hs & _ & Hv & sup & Hsup).
  destruct (pipelines_after digits sample_sizes sweep_init w0) as [Hf Hn].
  rewrite <- Hv in Hf, Hn. cbn [last sample_sizes] in Hf, Hn.
  change (last sample_sizes) with (Some 270) in Hf, Hn.
  exists s, (world_before digits 9 w0). eexists _, _, _.
  split; [exact Hs|].
  rewrite Hf, Hn. cbn [label]. rewrite Hsup. split_and!; reflexivity.
Qed.

End Contract.



(** X5: titles and contents of the decision surfaces.  The second subplot
    is titled as the Fourier feature map with 100 components, and shows the
    labels of the Nystroem pipeline, whose feature map has 270 components
    after the sweep; the third is titled as the Nystroem feature map with
    100 components, and shows the labels of the Fourier pipeline, also at
    270 components.  (plotly gives title number [i] to subplot number [i],
    row by row.) *)
Theorem surface_titles_and_panels ker lin phi (w : World) :
  contract digits ker lin phi ->
  exists s w1 w2 fig1 pc0 pc1 nf ff,
    calculations_cell digits w = (inr s, w1) /\
    surface_figure digits s w1 = (inr fig1, w2) /\
    (let nystroem := nystroem_approx_svm (sweep_vars (results s)) in
     Plotly.subplot_titles fig1 !! 1 =
       Some "SVC (linear kernel)<br> with Fourier rbf feature map<br>n_components=100" /\
     Plotly.contours fig1 !! 1 = Some (surface pc0 pc1 nf, 1, 2) /\
     label ker lin phi (Approx nystroem) = Some nf /\
     kind (feature_map nystroem) = Nys /\
     n_components (feature_map nystroem) = 270) /\
    (let fourier := fourier_approx_svm (sweep_vars (results s)) in
     Plotly.subplot_titles fig1 !! 2 =
       Some "SVC (linear kernel)<br> with Nystroem rbf feature map<br>n_components=100" /\
     Plotly.contours fig1 !! 2 = Some (surface pc0 pc1 ff, 1, 3) /\
     label ker lin phi (Approx fourier) = Some ff /\
     kind (feature_map fourier) = RBF /\
     n_components (feature_map fourier) = 270).
Proof.
  intros Hc.
  destruct (session_labels ker lin phi w)
    as (s & w1 & kf & nf & ff & Hs & Hk & Hn & Hf & [Hnk Hnc] & [Hfk Hfc]).
  destruct (surface_figure_spec ker lin phi Hc s w1 kf nf ff Hk Hn Hf)
    as (pc0 & pc1 & fig1 & _ & _ & Hfig & Hdata & Htitles).
  exists s, w1. eexists. exists fig1, pc0, pc1, nf, ff.
  split; [exact Hs|]. split; [exact Hfig|].
  unfold Plotly.contours. rewrite Hdata, Htitles.
  split; split_and!; done.
Qed.

End KernelPlotsFacts.

Section KernelPlotsRuns.
Import Np NpShape Py KernelApprox KernelPlots.

Lemma toy_contract :
  @contract toy toy_plotting five_digits toy_ker toy_lin toy_phi.
Proof.
  split_and!; try (intros ? ?; reflexivity).
  - intros x. simpl. lia.
  - vm_compute. lia.
  - intros r. cbv zeta. split_and!.
    + vm_compute. lia.
    + vm_compute. repeat constructor.
    + vm_compute. repeat constructor.
Qed.

#[local] Existing Instance toy.
#[local] Existing Instance toy_plotting.
#[local] Existing Instance Colorscale.unrounded.


Lemma surface_titles_and_panels_witness :
  contract five_digits toy_ker toy_lin toy_phi /\
  exists s w1 w2 fig1 pc0 pc1 nf ff,
    calculations_cell five_digits (Build_World 0 0) = (inr s, w1) /\
    surface_figure five_digits s w1 = (inr fig1, w2) /\
    (let nystroem := nystroem_approx_svm (sweep_vars (results s)) in
     Plotly.subplot_titles fig1 !! 1 =
       Some "SVC (linear kernel)<br> with Fourier rbf feature map<br>n_components=100" /\
     Plotly.contours fig1 !! 1 = Some (surface pc0 pc1 nf, 1, 2) /\
     label toy_ker toy_lin toy_phi (Approx nystroem) = Some nf /\
     kind (feature_map nystroem) = Nys /\
     n_components (feature_map nystroem) = 270) /\
    (let fourier := fourier_approx_svm (sweep_vars (results s)) in
     Plotly.subplot_titles fig1 !! 2 =
       Some "SVC (linear kernel)<br> with Nystroem rbf feature map<br>n_components=100" /\
     Plotly.contours fig1 !! 2 = Some (surface pc0 pc1 ff, 1, 3) /\
     label toy_ker toy_lin toy_phi (Approx fourier) = Some ff /\
     kind (feature_map fourier) = RBF /\
     n_components (feature_map fourier) = 270).
Proof.
  split; [exact toy_contract|].
  exact (surface_titles_and_panels five_digits toy_ker toy_lin toy_phi
           (Build_World 0 0) toy_contract).
Defined.

End KernelPlotsRuns.


(** ** Names are bound before they are read *)

Section NameFacts.
Import Script Binding.
Context {Value Err : Type}.
Variable oracle : Oracle Value Err.

Implicit Types (st : state Value Err) (ns : gmap string Value).

Abbreviation keeps := (@keeps Value Err).

Lemma read_bound ns xs :
  (forall x, x ∈ xs -> is_Some (ns !! x)) -> exists args, read ns xs = inr args.
Proof.
  induction xs as [|x xs IH]; intros Hxs; simpl; [by eexists|].
  destruct (Hxs x) as [v ->]; [left|].
  destruct IH as [args ->]; [|by eexists].
  intros y Hy. apply Hxs. by right.
Qed.

Lemma assign_bound xs (r : nat -> Value) x : forall k ns,
  x ∈ xs \/ is_Some (ns !! x) -> is_Some (assign k xs r ns !! x).
Proof.
  induction xs as [|y xs IH]; intros k ns Hx; simpl.
  - destruct Hx as [Hx|Hx]; [by apply elem_of_nil in Hx|done].
  - apply IH. destruct (decide (y = x)) as [->|Hne].
    + right. by rewrite lookup_insert_eq.
    + rewrite lookup_insert_ne by done.
      destruct Hx as [[->|Hx]%elem_of_cons|Hx]; [done|by left|by right].
Qed.

Lemma do_op_keeps o bound :
  keeps (needs_of bound (Do o)).1 bound (needs_of bound (Do o)).2 (do_op oracle o).
Proof.
  intros st Hb Hn. simpl in Hn |- *. unfold do_op.
  destruct (read_bound (names st) (uses o)) as [args ->].
  { intros x Hx. destruct (decide (x ∈ bound)); [by apply Hb|].
    apply Hn, list_elem_of_filter. done. }
  destruct (oracle _ _ _) as [e|r]; simpl; split_and!; try done.
  - intros x Hx. apply assign_bound. by right.
  - intros _ x Hx. apply assign_bound.
    apply elem_of_app in Hx as [Hx|Hx]; [by left|right; by apply Hb].
Qed.

Lemma exec_block_keeps_from (b : list stmt) :
  Forall (fun s => forall bound,
    keeps (needs_of bound s).1 bound (needs_of bound s).2 (exec oracle s)) b ->
  forall bound,
    keeps (needs_seq bound b).1 bound (needs_seq bound b).2 (exec_block oracle b).
Proof.
  induction 1 as [|s b Hs _ IH]; intros bound st Hb Hn; simpl.
  - done.
  - simpl in Hn.
    destruct (needs_of bound s) as [n1 bound1] eqn:E1.
    destruct (needs_seq bound1 b) as [n2 bound2] eqn:E2. simpl in *.
    specialize (Hs bound st Hb). rewrite E1 in Hs. simpl in Hs.
    destruct Hs as (Hr & Hm & Hb').
    { intros x Hx. apply Hn, elem_of_app. by left. }
    destruct (exec oracle s st) as [[e1|] st'] eqn:E; simpl in *;
      [split_and!; done|].
    specialize (IH bound1 st' (Hb' eq_refl)). rewrite E2 in IH. simpl in IH.
    destruct IH as (Hr2 & Hm2 & Hb2).
    { intros x Hx. apply Hm, Hn, elem_of_app. by right. }
    split_and!; [done| |done]. intros x Hx. by apply Hm2, Hm.
Qed.

Lemma exec_keeps s : forall bound,
  keeps (needs_of bound s).1 bound (needs_of bound s).2 (exec oracle s).
Proof.
  induction s as [o|vars iter n body IH|body handler IHb IHh] using stmt_block_ind.
  - intros bound. apply do_op_keeps.
  - pose proof (exec_block_keeps_from body IH) as Hbody. clear IH.
    intros bound. rewrite needs_of_For. cbn [fst snd].
    induction n as [|n IHn]; intros st Hb Hn; [done|].
    rewrite exec_For_S.
    destruct (do_op_keeps (next_op vars iter) bound st Hb) as (Hr1 & Hm1 & Hb1).
    { intros x Hx. apply Hn, elem_of_app. by left. }
    destruct (do_op oracle (next_op vars iter) st) as [[e1|] st1]; simpl in *;
      [split_and!; done|].
    destruct (Hbody (vars ++ bound) st1 (Hb1 eq_refl)) as (Hr2 & Hm2 & Hb2).
    { intros x Hx. apply Hm1, Hn, elem_of_app. by right. }
    destruct (exec_block oracle body st1) as [[e2|] st2]; simpl in *.
    { split_and!; [done| |done]. intros x Hx. by apply Hm2, Hm1. }
    destruct (IHn st2) as (Hr3 & Hm3 & Hb3).
    { intros x Hx. by apply Hm2, Hm1, Hb. }
    { intros x Hx. by apply Hm2, Hm1, Hn. }
    split_and!; [done| |done]. intros x Hx. by apply Hm3, Hm2, Hm1.
  - pose proof (exec_block_keeps_from body IHb) as Hbody.
    pose proof (exec_block_keeps_from handler IHh) as Hhandler. clear IHb IHh.
    intros bound st Hb Hn. rewrite exec_Try.
    change (needs_of bound (Try body handler)) with
      ((needs_seq bound body).1 ++ (needs_seq bound handler).1, bound) in *.
    cbn [fst snd] in *.
    destruct (Hbody bound st Hb) as (Hr1 & Hm1 & Hb1).
    { intros x Hx. apply Hn, elem_of_app. by left. }
    destruct (exec_block oracle body st) as [[e1|] st1]; simpl in *.
    + destruct (Hhandler bound st1) as (Hr2 & Hm2 & Hb2).
      { intros x Hx. by apply Hm1, Hb. }
      { intros x Hx. apply Hm1, Hn, elem_of_app. by right. }
      split_and!; [done| |].
      * intros x Hx. by apply Hm2, Hm1.
      * intros _ x Hx. by apply Hm2, Hm1, Hb.
    + split_and!; [done|done|]. intros _ x Hx. by apply Hm1, Hb.
Qed.

Lemma run_keeps (b : block) ns :
  (forall x, x ∈ needs b -> is_Some (ns !! x)) ->
  forall x, (run oracle b ns).1 <> Some (NameError x).
Proof.
  intros Hn. unfold run.
  assert (Hb : forall bound,
    keeps (needs_seq bound b).1 bound (needs_seq bound b).2 (exec_block oracle b)).
  { apply exec_block_keeps_from, Forall_forall. intros s _. apply exec_keeps. }
  destruct (Hb [] (State ns [])) as (Hr & _).
  - intros x Hx. by apply elem_of_nil in Hx.
  - exact Hn.
  - exact Hr.
Qed.

End NameFacts.

Section ScriptNames.
Import Script Scripts.

(** X9: every name is bound before it is read.  Whatever the libraries
    answer, a run of any of the three scripts in document order, from a
    name space in which the built-in names are bound, does not end with a
    [NameError]. *)
Theorem scripts_bind_before_use {Value Err : Type} (oracle : Oracle Value Err)
    (s : script) (ns : gmap string Value) :
  (forall x, is_Some (builtins !! x) -> is_Some (ns !! x)) ->
  forall x, (run oracle (code s) ns).1 <> Some (NameError x).
Proof.
  intros Hns. apply run_keeps. intros x Hx. apply Hns.
  assert (Hall : forallb (fun x => bool_decide (is_Some (builtins !! x)))
                   (needs (code s)) = true)
    by (destruct s; vm_compute; reflexivity).
  rewrite forallb_forall in Hall.
  eapply bool_decide_eq_true_1, Hall, list_elem_of_In, Hx.
Qed.

Lemma scripts_bind_before_use_witness :
  (forall x, is_Some (builtins !! x) -> is_Some (builtins !! x)) /\
  forall x, (run never_fails (code FeatureMapApprox) builtins).1 <> Some (NameError x).
Proof.
  split; [intros x Hx; exact Hx|].
  exact (scripts_bind_before_use never_fails FeatureMapApprox builtins
           (fun x Hx => Hx)).
Defined.

End ScriptNames.


(** ** The covariance notebook: samples, result arrays and figures *)

Section ScatterFacts.
Import Np.
Context {A : Type}.
Implicit Types (a : list A) (index : list nat).






End ScatterFacts.

Section MaskFacts.
Import Np CovarianceData.





End MaskFacts.

Section GenerateFacts.
Import Np Py Covariance CovarianceData.
Context `{Libs}.






End GenerateFacts.

Section ComputationFacts.
Import Np Py Covariance CovarianceData.

(** A loop that keeps an invariant counted by its iterations returns, with
    the invariant at the length of the list. *)
Lemma for_inv {W E A V} (I : nat -> V -> Prop) (xs : list A)
    (body : A -> V -> Eff W E V) : forall v w,
  I 0 v ->
  (forall k x v w, xs !! k = Some x -> I k v ->
     exists v' w', body x v w = (inr v', w') /\ I (S k) v') ->
  exists v' w', for_ xs body v w = (inr v', w') /\ I (length xs) v'.
Proof.
  revert I. induction xs as [|x xs IH]; intros I v w H0 Hstep; simpl.
  - by eexists _, _.
  - destruct (Hstep 0 x v w eq_refl H0) as (v1 & w1 & Hb & H1).
    unfold bind. rewrite Hb.
    apply (IH (fun k => I (S k))); [done|].
    intros k y v2 w2 Hk. apply (Hstep (S k)). exact Hk.
Qed.

Lemma entry_set2_eq (a : Matrix) (i j : nat) (x : Q) (r c : nat) :
  length a = r -> Forall (fun row => length row = c) a -> i < r -> j < c ->
  entry (set2 i j x a) i j = Some x.
Proof.
  intros Hr Hc Hi Hj. unfold entry, set2.
  destruct (lookup_lt_is_Some_2 a i) as [row Hrow]; [lia|].
  rewrite list_lookup_alter_eq, Hrow. simpl.
  apply list_lookup_insert_eq.
  rewrite Forall_forall in Hc. rewrite (Hc row); [done|].
  by eapply list_elem_of_lookup_2.
Qed.

Lemma entry_set2_ne (a : Matrix) (i j i' j' : nat) (x : Q) :
  (i', j') <> (i, j) -> entry (set2 i j x a) i' j' = entry a i' j'.
Proof.
  intros Hne. unfold entry, set2.
  destruct (decide (i = i')) as [->|Hi].
  - rewrite list_lookup_alter_eq. destruct (a !! i') as [row|]; simpl; [|done].
    apply list_lookup_insert_ne. congruence.
  - by rewrite list_lookup_alter_ne.
Qed.

Lemma set2_shape (a : Matrix) (i j : nat) (x : Q) (r c : nat) :
  length a = r /\ Forall (fun row => length row = c) a ->
  length (set2 i j x a) = r /\ Forall (fun row => length row = c) (set2 i j x a).
Proof.
  intros [Hr Hc]. unfold set2. split; [by rewrite length_alter|].
  rewrite Forall_lookup in Hc |- *. intros k row.
  destruct (decide (i = k)) as [->|Hne].
  - rewrite list_lookup_alter_eq. destruct (a !! k) as [row0|] eqn:E; [|done].
    simpl. intros [= <-]. rewrite length_insert. by apply (Hc k).
  - rewrite list_lookup_alter_ne by done. apply Hc.
Qed.

Context `{Libs}.

(** One iteration writes cell [i, j] of every array and no other cell. *)
Lemma iteration_writes (i : nat) (n_outliers : Q) (j : nat) (e : Errors)
    (g : Rng) (r c : nat) :
  well_shaped -> shaped r c e -> i < r -> j < c ->
  exists e' g',
    iteration i n_outliers j e g = (inr e', g') /\
    shaped r c e' /\
    written e' i n_outliers j /\
    (forall i' j', (i', j') <> (i, j) -> cells e' i' j' = cells e i' j').
Proof.
  intros Hw Hs Hi Hj.
  destruct (generate_spec i n_outliers j g Hw) as (s & Hgen & _).
  unfold iteration, bind. rewrite Hgen. unfold np_random.
  destruct (mcd_fit (X s) _) as [mcd g2] eqn:Emcd.
  unfold ret. eexists _, _. split; [reflexivity|].
  unfold shaped in Hs.
  apply Forall_cons in Hs as [H1 Hs]. apply Forall_cons in Hs as [H2 Hs].
  apply Forall_cons in Hs as [H3 Hs]. apply Forall_cons in Hs as [H4 Hs].
  apply Forall_cons in Hs as [H5 Hs]. apply Forall_cons in Hs as [H6 _].
  split_and!.
  - unfold shaped. cbn [err_loc_mcd err_cov_mcd err_loc_emp_full
      err_cov_emp_full err_loc_emp_pure err_cov_emp_pure].
    repeat (apply Forall_cons_2; [by apply set2_shape|]). apply Forall_nil_2.
  - exists g, s. eexists. exists mcd, g2. split; [exact Hgen|]. split; [exact Emcd|].
    unfold cells, measured, pure_X. cbn [err_loc_mcd err_cov_mcd err_loc_emp_full
      err_cov_emp_full err_loc_emp_pure err_cov_emp_pure].
    destruct H1, H2, H3, H4, H5, H6.
    by rewrite !(entry_set2_eq _ _ _ _ r c).
  - intros i' j' Hne. unfold cells. cbn [err_loc_mcd err_cov_mcd err_loc_emp_full
      err_cov_emp_full err_loc_emp_pure err_cov_emp_pure].
    by rewrite !entry_set2_ne.
Qed.

Lemma written_ext (e e' : Errors) i n j :
  cells e' i j = cells e i j -> written e i n j -> written e' i n j.
Proof.
  intros Hc (g & s & g1 & mcd & g2 & Hg & Hm & Hcells).
  exists g, s, g1, mcd, g2. by rewrite Hc.
Qed.

Lemma errors_init_shaped : shaped (length range_n_outliers) repeat_ errors_init.
Proof.
  unfold shaped, errors_init, zeros. cbn [err_loc_mcd err_cov_mcd err_loc_emp_full
      err_cov_emp_full err_loc_emp_pure err_cov_emp_pure].
  repeat (apply Forall_cons_2;
    [split; [apply length_replicate|
             apply Forall_replicate, length_replicate]|]).
  apply Forall_nil_2.
Qed.

(** X7: the computation fills every cell.  With well-shaped libraries the
    double loop returns from any state of the global random stream without
    raising; the six arrays keep their shape of one row per contamination
    level and one column per repetition; and cell [i, j] of each array
    holds what the iteration for level [i] and repetition [j] measured:
    no later iteration overwrites it. *)
Theorem computation_fills_every_cell (g : Rng) :
  well_shaped ->
  exists e g',
    computation g = (inr e, g') /\
    shaped (length range_n_outliers) repeat_ e /\
    (forall i n_outliers j,
       range_n_outliers !! i = Some n_outliers -> j < repeat_ ->
       written e i n_outliers j).
Proof.
  intros Hw. unfold computation.
  set (r := length range_n_outliers).
  pose (Outer := fun (k : nat) (e : Errors) =>
    shaped r repeat_ e /\
    forall i n j, i < k -> range_n_outliers !! i = Some n -> j < repeat_ ->
      written e i n j).
  destruct (for_inv Outer (imap pair range_n_outliers)
              (fun '(i, n_outliers) e =>
                 for_ (seq 0 repeat_) (iteration i n_outliers) e)
              errors_init g) as (e & g' & Hrun & Hs & Hcells).
  { split; [apply errors_init_shaped|]. intros; lia. }
  { intros k [i n] e0 g0 Hk [Hs0 Hprev].
    rewrite list_lookup_imap in Hk.
    destruct (range_n_outliers !! k) as [n'|] eqn:En; [|done].
    simpl in Hk. injection Hk as <- <-.
    pose (Inner := fun (j' : nat) (e : Errors) =>
      shaped r repeat_ e /\
      (forall i n j, i < k -> range_n_outliers !! i = Some n -> j < repeat_ ->
         written e i n j) /\
      (forall j, j < j' -> written e k n' j)).
    destruct (for_inv Inner (seq 0 repeat_) (iteration k n') e0 g0)
      as (e1 & g1 & Hrun1 & Hs1 & Hprev1 & Hrow1).
    { split_and!; [done|done|]. intros; lia. }
    { intros j' j e2 g2 Hj (Hs2 & Hprev2 & Hrow2).
      apply lookup_seq in Hj as [-> Hj]. simpl.
      destruct (iteration_writes k n' j' e2 g2 r repeat_ Hw Hs2)
        as (e3 & g3 & Hit & Hs3 & Hw3 & Hother); [|done|].
      { apply lookup_lt_Some in En. done. }
      exists e3, g3. split; [exact Hit|]. split_and!; [done| |].
      - intros i n j Hi Hn Hj'. eapply written_ext; [|by apply Hprev2].
        apply Hother. intros [= -> ->]. lia.
      - intros j Hj'. destruct (decide (j = j')) as [->|Hne]; [done|].
        eapply written_ext; [|apply Hrow2; lia].
        apply Hother. intros [= ->]. done. }
    exists e1, g1. split; [exact Hrun1|]. split; [done|].
    intros i n j Hi Hn Hj. destruct (decide (i = k)) as [->|Hne].
    - rewrite En in Hn. injection Hn as <-. apply Hrow1.
      by rewrite length_seq.
    - apply Hprev1; [lia|done..]. }
  exists e, g'. split; [exact Hrun|]. split; [done|].
  intros i n j Hn Hj. apply Hcells; [|done..].
  rewrite length_imap. by eapply lookup_lt_Some.
Qed.

End ComputationFacts.

Section CovariancePlotsFacts.
Import Np Covariance CovarianceData CovariancePlots.

Lemma range_n_outliers_size : length range_n_outliers = 8.
Proof. by vm_compute. Qed.

(** [a[1:3]] of eight elements. *)
Lemma slice_1_3 {A} (a : list A) :
  length a = 8 -> slice 1 3 a = take 2 (drop 1 a).
Proof. intros Hl. unfold slice. rewrite Hl. reflexivity. Qed.

Context `{Floats}.

Lemma length_mean1 (a : Matrix) : length (mean1 a) = length a.
Proof. unfold mean1. by rewrite length_fmap. Qed.

Lemma length_std1 (a : Matrix) : length (std1 a) = length a.
Proof. unfold std1. by rewrite length_fmap. Qed.

(** The covariance figure with its slices worked out. *)
Lemma covariance_figure_slices (e : Errors) :
  length (err_cov_emp_full e) = 8 ->
  data (covariance_figure e) =
    [{| x := range_n_outliers; y := mean1 (err_cov_mcd e);
        error_y := Some {| visible := true; arrayminus := std1 (err_cov_mcd e) |};
        name := "Robust covariance (mcd)"; mode := "lines"; color := "magenta";
        dash := None; showlegend := None |};
     {| x := take 2 range_n_outliers;
        y := mean1 (take 2 (take 3 (err_cov_emp_full e)));
        error_y := Some {| visible := true;
                           arrayminus := std1 (take 2 (take 3 (err_cov_emp_full e))) |};
        name := "Full data set empirical covariance"; mode := "lines";
        color := "green"; dash := None; showlegend := None |};
     {| x := take 2 (drop 1 range_n_outliers);
        y := mean1 (drop 1 (take 3 (err_cov_emp_full e)));
        error_y := None;
        name := "Full data set empirical covariance"; mode := "lines";
        color := "green"; dash := Some "dash"; showlegend := Some false |};
     {| x := range_n_outliers; y := mean1 (err_cov_emp_pure e);
        error_y := Some {| visible := true;
                           arrayminus := std1 (err_cov_emp_pure e) |};
        name := "Pure data set empirical covariance"; mode := "lines";
        color := "black"; dash := None; showlegend := None |}].
Proof.
  intros Hl. unfold covariance_figure. cbv zeta. cbn [data].
  rewrite range_n_outliers_size.
  change (py2_div 8 5 + 1) with 2.
  change (Z.of_nat (py2_div 8 5)) with 1%Z.
  change (Z.of_nat (py2_div 8 2) - 1)%Z with 3%Z.
  rewrite !slice_1_3 by (by rewrite ?length_mean1, ?range_n_outliers_size).
  unfold slice_to, mean1, std1.
  rewrite !fmap_take, !fmap_drop, !fmap_take, !take_take, !take_drop_commute.
  reflexivity.
Qed.

(** X8: the covariance figure.  For result arrays of the shape the
    computation leaves, every trace has one [y] (and one error bar, where it
    has any) per [x]; the robust and the pure curve run over all eight
    contamination levels, the full-data curve is drawn in two pieces over
    levels 0 to 1 and 1 to 2 only; and the figure reads nothing of
    [err_cov_emp_full] beyond its first three rows, nor anything of the
    location arrays.  The traces of the location figure are aligned as
    well. *)
Theorem covariance_figure_levels (e : Errors) :
  shaped (length range_n_outliers) repeat_ e ->
  let fig := covariance_figure e in
  Forall aligned (data (location_figure e)) /\
  Forall aligned (data fig) /\
  x <$> data fig =
    [range_n_outliers; take 2 range_n_outliers;
     take 2 (drop 1 range_n_outliers); range_n_outliers] /\
  (forall e',
     shaped (length range_n_outliers) repeat_ e' ->
     err_cov_mcd e' = err_cov_mcd e ->
     err_cov_emp_pure e' = err_cov_emp_pure e ->
     take 3 (err_cov_emp_full e') = take 3 (err_cov_emp_full e) ->
     covariance_figure e' = fig).
Proof.
  intros Hs fig.
  assert (Hrows : forall e0, shaped (length range_n_outliers) repeat_ e0 ->
    length (err_cov_mcd e0) = 8 /\ length (err_cov_emp_full e0) = 8 /\
    length (err_cov_emp_pure e0) = 8).
  { intros e0 Hs0. unfold shaped in Hs0. rewrite range_n_outliers_size in Hs0.
    rewrite !Forall_cons in Hs0. tauto. }
  destruct (Hrows e Hs) as (Hm & Hf & Hp).
  assert (Hdata := covariance_figure_slices e Hf). fold fig in Hdata.
  split_and!.
  - unfold shaped in Hs. rewrite range_n_outliers_size in Hs.
    rewrite !Forall_cons in Hs.
    destruct Hs as ([Hlm _] & _ & [Hlf _] & _ & [Hlp _] & _).
    unfold location_figure. cbv zeta. cbn [data].
    repeat (apply Forall_cons_2; [split; cbn [x y error_y arrayminus]|]);
      try apply Forall_nil_2;
      rewrite ?length_fmap, ?length_mean1, ?length_std1,
        ?range_n_outliers_size, ?Hlm, ?Hlf, ?Hlp; done.
  - rewrite Hdata.
    repeat (apply Forall_cons_2; [split; cbn [x y error_y arrayminus]|]);
      try apply Forall_nil_2; try done;
      rewrite ?length_mean1, ?length_std1, ?length_take, ?length_drop,
        ?length_take, ?range_n_outliers_size, ?Hm, ?Hf, ?Hp; done.
  - by rewrite Hdata.
  - intros e' Hs' Hm' Hp' Hf'. destruct (Hrows e' Hs') as (_ & Hfl & _).
    assert (Hdata' := covariance_figure_slices e' Hfl).
    rewrite Hm', Hp', Hf', <- Hdata in Hdata'.
    unfold fig. unfold covariance_figure in *. cbv zeta in *.
    cbn [data] in Hdata'. by rewrite Hdata'.
Qed.

End CovariancePlotsFacts.

Section CovarianceRuns.
Import Np Py Covariance CovarianceData CovariancePlots.




Lemma computation_fills_every_cell_witness :
  @well_shaped toy /\
  exists e g',
    @computation toy 0 = (inr e, g') /\
    shaped (length range_n_outliers) repeat_ e /\
    (forall i n_outliers j,
       range_n_outliers !! i = Some n_outliers -> j < repeat_ ->
       @written toy e i n_outliers j).
Proof.
  split; [exact toy_well_shaped|].
  exact (@computation_fills_every_cell toy 0 toy_well_shaped).
Defined.

Lemma covariance_figure_levels_witness :
  shaped (length range_n_outliers) repeat_ errors_init /\
  let fig := @covariance_figure toy_floats errors_init in
  Forall aligned (data (@location_figure toy_floats errors_init)) /\
  Forall aligned (data fig) /\
  x <$> data fig =
    [range_n_outliers; take 2 range_n_outliers;
     take 2 (drop 1 range_n_outliers); range_n_outliers] /\
  (forall e',
     shaped (length range_n_outliers) repeat_ e' ->
     err_cov_mcd e' = err_cov_mcd errors_init ->
     err_cov_emp_pure e' = err_cov_emp_pure errors_init ->
     take 3 (err_cov_emp_full e') = take 3 (err_cov_emp_full errors_init) ->
     @covariance_figure toy_floats e' = fig).
Proof.
  split; [exact errors_init_shaped|].
  exact (@covariance_figure_levels toy_floats errors_init errors_init_shaped).
Defined.

(** Changing a level the figure does not read: the full-data error of the
    last level may be anything. *)
Example covariance_figure_ignores_last_level :
  let e' := {| err_loc_mcd := err_loc_mcd errors_init;
               err_cov_mcd := err_cov_mcd errors_init;
               err_loc_emp_full := err_loc_emp_full errors_init;
               err_cov_emp_full := set2 7 0 1000 (err_cov_emp_full errors_init);
               err_loc_emp_pure := err_loc_emp_pure errors_init;
               err_cov_emp_pure := err_cov_emp_pure errors_init |} in
  err_cov_emp_full e' <> err_cov_emp_full errors_init /\
  @covariance_figure toy_floats e' = @covariance_figure toy_floats errors_init.
Proof. split; [by vm_compute|by vm_compute]. Qed.

End CovarianceRuns.


(** ** Timing *)

Section TimingFacts.
Import Np Py KernelApprox.
Context `{Sklearn}.
Variable digits : Bunch.

(** A reading of the clock is not earlier than the reading before it. *)
Hypothesis monotone :
  forall c, ((read_clock c).1 <= (read_clock (read_clock c).2).1)%Q.

Lemma reading_S (n : nat) (c : Clock) : (reading n c <= reading (S n) c)%Q.
Proof. unfold reading. simpl. apply monotone. Qed.

Lemma elapsed_nonneg (a b : Q) : (a <= b)%Q -> (0 <= b - a)%Q.
Proof. intros Hab. apply (Qplus_le_l _ _ a). ring_simplify. exact Hab. Qed.

Lemma Forall_imap {A B} (P : B -> Prop) (f : nat -> A -> B) (l : list A) :
  (forall i x, P (f i x)) -> Forall P (imap f l).
Proof.
  intros Hf. apply Forall_forall. intros y Hy.
  apply elem_of_lookup_imap in Hy as (i & x & -> & _). apply Hf.
Qed.

(** X10: the measured times.  When no reading of the clock is earlier than
    the reading before it, the calculations cell returns with a training
    time of the kernel machine and of the linear classifier that is not
    negative, and so is every entry of [nystroem_times] and
    [fourier_times]: each time is the difference of two successive
    readings, the later one first. *)
Theorem measured_times_nonnegative (w : World) :
  exists r w',
    calculations digits w = (inr r, w') /\
    (0 <= kernel_svm_time r)%Q /\ (0 <= linear_svm_time r)%Q /\
    Forall (fun t => 0 <= t)%Q (nystroem_times (sweep_vars r)) /\
    Forall (fun t => 0 <= t)%Q (fourier_times (sweep_vars r)).
Proof.
  destruct w as [c g].
  unfold calculations, bind, ret, time, SVC_fit, SVC_score,
    LinearSVC_fit, LinearSVC_score, with_random_state, bind, ret.
  cbn -[sweep].
  pose proof (monotone c) as H01.
  destruct (read_clock c) as [t0 c0]; cbn -[sweep] in *.
  destruct (libsvm_fit _ _ _ g) as [sup g1]; cbn -[sweep].
  destruct (read_clock c0) as [t1 c1]; cbn -[sweep] in *.
  pose proof (monotone c1) as H23.
  destruct (read_clock c1) as [t2 c2]; cbn -[sweep] in *.
  destruct (liblinear_fit _ _ g1) as [cf g2]; cbn -[sweep].
  destruct (read_clock c2) as [t3 c3]; cbn -[sweep] in *.
  rewrite sweep_spec.
  eexists _, _. split; [reflexivity|].
  cbn [kernel_svm_time linear_svm_time sweep_vars].
  split; [by apply elapsed_nonneg|]. split; [by apply elapsed_nonneg|].
  rewrite (vars_after_log digits nystroem_times (fun _ => nystroem_time_at))
    by reflexivity.
  rewrite (vars_after_log digits fourier_times (fun _ => fourier_time_at))
    by reflexivity.
  split; apply Forall_app; (split; [apply Forall_nil_2|]); apply Forall_imap;
    intros i D; apply elapsed_nonneg, reading_S.
Qed.

End TimingFacts.

Section TimingRuns.
Import Np Py KernelApprox.

Lemma measured_times_nonnegative_witness :
  (forall c, ((@read_clock toy c).1 <= (@read_clock toy (@read_clock toy c).2).1)%Q) /\
  exists r w',
    @calculations toy five_digits (@Build_World toy 0 0) = (inr r, w') /\
    (0 <= kernel_svm_time r)%Q /\ (0 <= linear_svm_time r)%Q /\
    Forall (fun t => 0 <= t)%Q (nystroem_times (sweep_vars r)) /\
    Forall (fun t => 0 <= t)%Q (fourier_times (sweep_vars r)).
Proof.
  assert (Hm : forall c,
    ((@read_clock toy c).1 <= (@read_clock toy (@read_clock toy c).2).1)%Q).
  { intros c. simpl. rewrite <- Zle_Qle. lia. }
  split; [exact Hm|].
  exact (@measured_times_nonnegative toy five_digits Hm (@Build_World toy 0 0)).
Defined.

End TimingRuns.

(** ** Library exceptions and the end of a run *)

Section FaithfulFacts.
Import Script Binding Answers.
Context {Value Err : Type}.
Variable oracle : Oracle Value Err.

Implicit Types (st : state Value Err) (ns : gmap string Value).









End FaithfulFacts.

Section FailureFacts.
Import Script Scripts Binding Answers.

Lemma prefix_take {A} (l1 l2 : list A) :
  l1 `prefix_of` l2 -> l1 = take (length l1) l2.
Proof. intros [t ->]. by rewrite take_app_length. Qed.




End FailureFacts.

Section PropagationFacts.
Import Script Scripts Binding Answers.




End PropagationFacts.

